(** * Crypto-news-trade: the trading core, embedded and verified

    A shallow embedding of the signal generator, the risk manager, the order
    executor and the stop-loss monitor of the repository
    ([config.py], [simple_storage.py], [modules/binance_client.py],
    [modules/trading_strategy.py], [modules/stop_loss_monitor.py]).

    Conventions of the embedding.
    - Python floats are rationals ([Q]); comparisons are the exact ones, and
      arithmetic is written as the source writes it.
    - Dictionaries with a fixed set of keys are records; a key that may be
      missing is an [option] field.  Dictionaries used as maps are [gmap]s.
    - Code that raises returns a [result]; code that reads and writes the
      process-wide singletons (data store, API client, risk manager, loggers)
      runs in the state-and-exception monad [M] over a [World].
    - [datetime.utcnow()] reads the [now] field of the world, which only
      [time.sleep] moves: the instants read within one operation are one.
    - The log of the world is what the loggers of [trading_strategy] and
      [stop_loss_monitor] have written; the logger of [binance_client] is
      left out, and so are the threads: a monitor's loop is a function that
      runs a number of iterations. *)

From Stdlib Require Import QArith Qround Qabs Ascii.
From stdpp Require Import base gmap list strings.

Set Default Proof Using "Type".
Set Warnings "-register-all".

(* ===================================================================== *)
(** * Part I: definitions *)
(* ===================================================================== *)

(** ** Python values the core manipulates *)

(** Exceptions, by class.  Messages are dropped. *)
Inductive exn : Type :=
  | BinanceAPIError
  | TradingError
  | StopLossError
  | ZeroDivisionError
  | TypeError
  | AttributeError.

Inductive result (A : Type) : Type :=
  | Ok (a : A)
  | Raise (e : exn).
Arguments Ok {A} a.
Arguments Raise {A} e.

Definition is_ok {A} (r : result A) : bool :=
  match r with Ok _ => true | Raise _ => false end.

(** Comparisons on floats, as booleans. *)
Definition Qlt_bool (x y : Q) : bool := negb (Qle_bool y x).
Definition Qge_bool (x y : Q) : bool := Qle_bool y x.

(** An instant of [datetime.utcnow()], in seconds; [date_of] is [.date()],
    the ordinal of the UTC day. *)
Abbreviation Time := Z (only parsing).
Definition date_of (t : Time) : Z := (t `div` 86400)%Z.

(** ** Strings *)

Module PyStr.

(** [str.upper()], on the ASCII letters. *)
Definition upper_ascii (c : ascii) : ascii :=
  let n := nat_of_ascii c in
  if (97 <=? n)%nat && (n <=? 122)%nat then ascii_of_nat (n - 32) else c.

Fixpoint upper (s : string) : string :=
  match s with
  | EmptyString => EmptyString
  | String c r => String (upper_ascii c) (upper r)
  end.

(** [s.endswith(suf)] *)
Definition endswith (s suf : string) : bool :=
  let n := String.length s in
  let m := String.length suf in
  (m <=? n)%nat && String.eqb (String.substring (n - m) m s) suf.

(** [sub in s] *)
Fixpoint contains (sub s : string) : bool :=
  String.prefix sub s ||
  match s with
  | EmptyString => false
  | String _ r => contains sub r
  end.

(** Iterating a string yields its characters as one-character strings. *)
Fixpoint chars (s : string) : list string :=
  match s with
  | EmptyString => []
  | String c r => String c EmptyString :: chars r
  end.

(** [s.replace(old, new)] for a non-empty [old]: scan from the left; at a
    match emit [new] and skip the rest of the match. *)
Fixpoint replace_from (old new : string) (skip : nat) (s : string) : string :=
  match s with
  | EmptyString => EmptyString
  | String c r =>
      match skip with
      | S k => replace_from old new k r
      | O =>
          if String.prefix old s
          then new +:+ replace_from old new (String.length old - 1) r
          else String c (replace_from old new 0 r)
      end
  end.

Definition replace (s old new : string) : string := replace_from old new 0 s.

End PyStr.

(** ** [config.py] *)

Module Config.

Record TradingConfig : Type := {
  stop_loss_percentage : Q;
  trade_amount_usdt : Q;
  supported_coins : list string;
  trade_amounts : gmap string Q;
  max_open_positions : Z;
  max_daily_trades : Z;
  daily_loss_limit : Q
}.

(** The values [TradingConfig.__init__] takes when the environment sets
    nothing. *)
Definition default_config : TradingConfig := {|
  stop_loss_percentage := 0.1;
  trade_amount_usdt := 10;
  supported_coins := ["BTC"; "ETH"; "BNB"; "ADA"; "SOL"];
  trade_amounts :=
    <["BTCUSDT" := 10%Q]> (<["ETHUSDT" := 10%Q]> (<["BNBUSDT" := 10%Q]>
    (<["ADAUSDT" := 10%Q]> (<["SOLUSDT" := 10%Q]> ∅))));
  max_open_positions := 5;
  max_daily_trades := 20;
  daily_loss_limit := 100
|}.

(** [get_trade_symbol]: coin to trading pair, [BTC -> BTCUSDT]. *)
Definition get_trade_symbol (coin : string) : string :=
  if PyStr.endswith (PyStr.upper coin) "USDT"
  then PyStr.upper coin
  else PyStr.upper coin +:+ "USDT".

(** [is_coin_supported] *)
Definition is_coin_supported (config : TradingConfig) (coin : string) : bool :=
  bool_decide (PyStr.upper coin ∈ map PyStr.upper (supported_coins config)).

End Config.

(** ** The state-and-exception monad *)

(** A computation over a state [S] returns a value or raises, and leaves a
    state behind in both cases: what a Python function did to the objects it
    mutated before it raised stays done. *)
Definition M (S A : Type) : Type := S → result A * S.

#[global] Instance M_ret {S} : MRet (M S) := λ A a s, (Ok a, s).
#[global] Instance M_bind {S} : MBind (M S) := λ A B f m s,
  match m s with
  | (Ok a, s') => f a s'
  | (Raise e, s') => (Raise e, s')
  end.

Definition raise {S A} (e : exn) : M S A := λ s, (Raise e, s).
Definition get_state {S} : M S S := λ s, (Ok s, s).
Definition put_state {S} (s : S) : M S unit := λ _, (Ok tt, s).
Definition modify {S} (f : S → S) : M S unit := λ s, (Ok tt, f s).

(** [try: body except Exception as e: handler e] *)
Definition try_except {S A} (body : M S A) (handler : exn → M S A) : M S A :=
  λ s, match body s with
       | (Ok a, s') => (Ok a, s')
       | (Raise e, s') => handler e s'
       end.

(** Run a computation on a component of a larger state. *)
Definition zoom {S T A} (proj : S → T) (inj : T → S → S) (m : M T A) : M S A :=
  λ s, let '(r, t) := m (proj s) in (r, inj t s).

(** ** [simple_storage.py] *)

Module Storage.

Inductive Status : Type := Open | Closed | Stopped.
Inductive Side : Type := BUY | SELL.

#[global] Instance Status_eq_dec : EqDecision Status.
Proof. solve_decision. Defined.
#[global] Instance Side_eq_dec : EqDecision Side.
Proof. solve_decision. Defined.

(** A record of [positions.json]. *)
Record Position : Type := {
  pos_id : Z;
  pos_symbol : string;
  pos_quantity : Q;
  pos_entry_price : Q;
  pos_current_price : Q;
  pos_stop_loss_price : Q;
  pos_stop_loss_percentage : Q;
  pos_status : Status;
  pos_is_monitoring : bool;
  pos_entry_order_id : Z;
  pos_news_item_id : option Z;
  pos_unrealized_pnl : option Q;
  pos_realized_pnl : option Q;
  pos_exit_order_id : option Z;
  pos_opened_at : Time;
  pos_updated_at : Time;
  pos_closed_at : option Time
}.

(** A record of [trading_orders.json]. *)
Record TradingOrder : Type := {
  ord_id : Z;
  ord_binance_order_id : Z;
  ord_symbol : string;
  ord_side : Side;
  ord_quantity : Q;
  ord_price : Q;
  ord_status : string;
  ord_executed_quantity : Q;
  ord_executed_price : Q;
  ord_position_id : option Z;
  ord_news_item_id : option Z;
  ord_created_at : Time;
  ord_updated_at : Time
}.

(** The two files the core reads and writes. *)
Record SimpleDataStore : Type := {
  positions : list Position;
  orders : list TradingOrder
}.

Definition set_positions (l : list Position) (ds : SimpleDataStore) :=
  {| positions := l; orders := orders ds |}.
Definition set_orders (l : list TradingOrder) (ds : SimpleDataStore) :=
  {| positions := positions ds; orders := l |}.

(** [_generate_id]: 1 on an empty file, else the largest id plus one. *)
Definition _generate_id (ids : list Z) : Z :=
  match ids with
  | [] => 1
  | i :: rest => (foldl Z.max i rest + 1)%Z
  end.

(** [sorted(l, key=..., reverse=True)]: stable, largest key first. *)
Fixpoint insert_desc {A} (key : A → Z) (x : A) (l : list A) : list A :=
  match l with
  | [] => [x]
  | y :: r => if (key x <? key y)%Z then y :: insert_desc key x r else x :: l
  end.

Definition sorted_desc {A} (key : A → Z) (l : list A) : list A :=
  foldr (insert_desc key) [] l.

(** The loop [for item in items: if item.get('id') == i: ...; break]. *)
Fixpoint update_first {A} (hit : A → bool) (f : A → A) (l : list A) : list A :=
  match l with
  | [] => []
  | x :: r => if hit x then f x :: r else x :: update_first hit f r
  end.

(** *** Trading orders *)

Definition save_trading_order (order_data : TradingOrder) (now : Time)
    (ds : SimpleDataStore) : Z * SimpleDataStore :=
  let id := _generate_id (map ord_id (orders ds)) in
  let o := {| ord_id := id;
              ord_binance_order_id := ord_binance_order_id order_data;
              ord_symbol := ord_symbol order_data;
              ord_side := ord_side order_data;
              ord_quantity := ord_quantity order_data;
              ord_price := ord_price order_data;
              ord_status := ord_status order_data;
              ord_executed_quantity := ord_executed_quantity order_data;
              ord_executed_price := ord_executed_price order_data;
              ord_position_id := ord_position_id order_data;
              ord_news_item_id := ord_news_item_id order_data;
              ord_created_at := now;
              ord_updated_at := now |} in
  (id, set_orders (orders ds ++ [o]) ds).

Definition get_trading_orders (limit : nat) (ds : SimpleDataStore) : list TradingOrder :=
  take limit (sorted_desc ord_created_at (orders ds)).

(** The only update the core makes to an order: [{'position_id': pid}]. *)
Definition set_order_position (pid : Z) (now : Time) (o : TradingOrder) : TradingOrder :=
  {| ord_id := ord_id o;
     ord_binance_order_id := ord_binance_order_id o;
     ord_symbol := ord_symbol o;
     ord_side := ord_side o;
     ord_quantity := ord_quantity o;
     ord_price := ord_price o;
     ord_status := ord_status o;
     ord_executed_quantity := ord_executed_quantity o;
     ord_executed_price := ord_executed_price o;
     ord_position_id := Some pid;
     ord_news_item_id := ord_news_item_id o;
     ord_created_at := ord_created_at o;
     ord_updated_at := now |}.

Definition update_trading_order (order_id : Z) (position_id : Z) (now : Time)
    (ds : SimpleDataStore) : SimpleDataStore :=
  set_orders
    (update_first (λ o, bool_decide (ord_id o = order_id))
                  (set_order_position position_id now) (orders ds)) ds.

(** *** Positions *)

Definition save_position (position_data : Position) (now : Time)
    (ds : SimpleDataStore) : Z * SimpleDataStore :=
  let id := _generate_id (map pos_id (positions ds)) in
  let p := {| pos_id := id;
              pos_symbol := pos_symbol position_data;
              pos_quantity := pos_quantity position_data;
              pos_entry_price := pos_entry_price position_data;
              pos_current_price := pos_current_price position_data;
              pos_stop_loss_price := pos_stop_loss_price position_data;
              pos_stop_loss_percentage := pos_stop_loss_percentage position_data;
              pos_status := pos_status position_data;
              pos_is_monitoring := pos_is_monitoring position_data;
              pos_entry_order_id := pos_entry_order_id position_data;
              pos_news_item_id := pos_news_item_id position_data;
              pos_unrealized_pnl := pos_unrealized_pnl position_data;
              pos_realized_pnl := pos_realized_pnl position_data;
              pos_exit_order_id := pos_exit_order_id position_data;
              pos_opened_at := now;
              pos_updated_at := now;
              pos_closed_at := pos_closed_at position_data |} in
  (id, set_positions (positions ds ++ [p]) ds).

Definition is_open (p : Position) : bool := bool_decide (pos_status p = Open).

Definition get_open_positions (ds : SimpleDataStore) : list Position :=
  filter (λ p, pos_status p = Open) (positions ds).

Definition get_all_positions (limit : nat) (ds : SimpleDataStore) : list Position :=
  take limit (sorted_desc pos_opened_at (positions ds)).

(** The [updates] dictionary of [update_position]: the keys the core ever
    passes, each present or not. *)
Record PositionUpdates : Type := {
  u_status : option Status;
  u_current_price : option Q;
  u_unrealized_pnl : option Q;
  u_realized_pnl : option Q;
  u_exit_order_id : option Z;
  u_is_monitoring : option bool;
  u_stop_loss_price : option Q
}.

Definition no_updates : PositionUpdates :=
  {| u_status := None; u_current_price := None; u_unrealized_pnl := None;
     u_realized_pnl := None; u_exit_order_id := None; u_is_monitoring := None;
     u_stop_loss_price := None |}.

(** [position.update(updates)], then the two timestamps. *)
Definition apply_updates (updates : PositionUpdates) (now : Time) (p : Position) : Position :=
  {| pos_id := pos_id p;
     pos_symbol := pos_symbol p;
     pos_quantity := pos_quantity p;
     pos_entry_price := pos_entry_price p;
     pos_current_price := default (pos_current_price p) (u_current_price updates);
     pos_stop_loss_price := default (pos_stop_loss_price p) (u_stop_loss_price updates);
     pos_stop_loss_percentage := pos_stop_loss_percentage p;
     pos_status := default (pos_status p) (u_status updates);
     pos_is_monitoring := default (pos_is_monitoring p) (u_is_monitoring updates);
     pos_entry_order_id := pos_entry_order_id p;
     pos_news_item_id := pos_news_item_id p;
     pos_unrealized_pnl :=
       match u_unrealized_pnl updates with Some x => Some x | None => pos_unrealized_pnl p end;
     pos_realized_pnl :=
       match u_realized_pnl updates with Some x => Some x | None => pos_realized_pnl p end;
     pos_exit_order_id :=
       match u_exit_order_id updates with Some x => Some x | None => pos_exit_order_id p end;
     pos_opened_at := pos_opened_at p;
     pos_updated_at := now;
     pos_closed_at :=
       match u_status updates with
       | Some Closed | Some Stopped => Some now
       | _ => pos_closed_at p
       end |}.

Definition update_position (position_id : Z) (updates : PositionUpdates) (now : Time)
    (ds : SimpleDataStore) : SimpleDataStore :=
  set_positions
    (update_first (λ p, bool_decide (pos_id p = position_id))
                  (apply_updates updates now) (positions ds)) ds.

End Storage.

(** ** [modules/binance_client.py] *)

Module Binance.
Import Storage.

Inductive OrderType : Type := MARKET | LIMIT.

(** The order dictionary a client returns, with the keys the core reads. *)
Record Order : Type := {
  o_symbol : string;
  o_orderId : Z;
  o_price : Q;
  o_origQty : Q;
  o_executedQty : Q;
  o_status : string;
  o_type : OrderType;
  o_side : Side
}.

(** One entry of [account["balances"]]: asset and free amount. *)
Definition Balance : Type := (string * Q)%type.

(** What [BinanceAPIWrapper] asks of its [client]: the real python-binance
    client and the mock offer the same three calls.  Each call may raise
    and may change the client. *)
Class BinanceClient (C : Type) : Type := {
  get_account : M C (list Balance);
  get_symbol_ticker : string → M C Q;
  create_order : string → Side → OrderType → Q → option Q → M C Order
}.

(** *** [MockBinanceClient] *)

(** [random_uniform] is the sequence of values [random.uniform(-0.02, 0.02)]
    returns, and [draws] how many of them have been taken. *)
Record MockBinanceClient : Type := {
  account_balance : gmap string Q;
  mock_orders : gmap Z Order;
  order_id_counter : Z;
  mock_prices : gmap string Q;
  random_uniform : nat → Q;
  draws : nat
}.

Definition set_account_balance (b : gmap string Q) (c : MockBinanceClient) :=
  {| account_balance := b; mock_orders := mock_orders c;
     order_id_counter := order_id_counter c; mock_prices := mock_prices c;
     random_uniform := random_uniform c; draws := draws c |}.

Definition mock_init (rnd : nat → Q) : MockBinanceClient := {|
  account_balance :=
    <["USDT" := 1000%Q]> (<["BTC" := 0%Q]> (<["ETH" := 0%Q]> (<["BNB" := 0%Q]>
    (<["ADA" := 0%Q]> (<["SOL" := 0%Q]> ∅)))));
  mock_orders := ∅;
  order_id_counter := 1;
  mock_prices :=
    <["BTCUSDT" := 45000%Q]> (<["ETHUSDT" := 2800%Q]> (<["BNBUSDT" := 350%Q]>
    (<["ADAUSDT" := 0.85%Q]> (<["SOLUSDT" := 95%Q]> ∅))));
  random_uniform := rnd;
  draws := 0
|}.

Definition mock_get_account : M MockBinanceClient (list Balance) :=
  c ← get_state;
  mret (map_to_list (account_balance c)).

Definition mock_get_symbol_ticker (symbol : string) : M MockBinanceClient Q :=
  c ← get_state;
  match mock_prices c !! symbol with
  | None => raise BinanceAPIError
  | Some base_price =>
      let variation := random_uniform c (draws c) in
      put_state {| account_balance := account_balance c;
                   mock_orders := mock_orders c;
                   order_id_counter := order_id_counter c;
                   mock_prices := mock_prices c;
                   random_uniform := random_uniform c;
                   draws := S (draws c) |};;
      mret (base_price * (1 + variation))%Q
  end.

(** [self.account_balance[k] -= x]: a [KeyError] on a missing key. *)
Definition balance_sub (k : string) (x : Q) : M MockBinanceClient unit :=
  c ← get_state;
  match account_balance c !! k with
  | None => raise BinanceAPIError
  | Some b => put_state (set_account_balance (<[k := (b - x)%Q]> (account_balance c)) c)
  end.

(** [self.account_balance[k] = self.account_balance.get(k, 0) + x] *)
Definition balance_add (k : string) (x : Q) : M MockBinanceClient unit :=
  modify (λ c, set_account_balance
                 (<[k := (default 0%Q (account_balance c !! k) + x)%Q]> (account_balance c)) c).

(** [quantity * execution_price]; the price of a [LIMIT] order may be
    [None], and the product is then a [TypeError]. *)
Definition mul_price (quantity : Q) (execution_price : option Q) : M MockBinanceClient Q :=
  match execution_price with
  | Some p => mret (quantity * p)%Q
  | None => raise TypeError
  end.

Definition mock_create_order (symbol : string) (side : Side) (type : OrderType)
    (quantity : Q) (price : option Q) : M MockBinanceClient Order :=
  try_except
    (c ← get_state;
     (if bool_decide (is_Some (mock_prices c !! symbol)) then mret tt
      else raise BinanceAPIError);;
     current_price ← mock_get_symbol_ticker symbol;
     let execution_price :=
       match type with LIMIT => price | MARKET => Some current_price end in
     c ← get_state;
     let order_id := order_id_counter c in
     put_state {| account_balance := account_balance c;
                  mock_orders := mock_orders c;
                  order_id_counter := (order_id_counter c + 1)%Z;
                  mock_prices := mock_prices c;
                  random_uniform := random_uniform c;
                  draws := draws c |};;
     let base_asset := PyStr.replace symbol "USDT" "" in
     let quote_asset := "USDT" in
     match side with
     | BUY =>
         cost ← mul_price quantity execution_price;
         c ← get_state;
         (if Qlt_bool (default 0%Q (account_balance c !! quote_asset)) cost
          then raise BinanceAPIError else mret tt);;
         balance_sub quote_asset cost;;
         balance_add base_asset quantity
     | SELL =>
         c ← get_state;
         (if Qlt_bool (default 0%Q (account_balance c !! base_asset)) quantity
          then raise BinanceAPIError else mret tt);;
         balance_sub base_asset quantity;;
         proceeds ← mul_price quantity execution_price;
         balance_add quote_asset proceeds
     end;;
     executed ← match execution_price with
                | Some p => mret p
                | None => raise TypeError
                end;
     let order := {| o_symbol := symbol; o_orderId := order_id;
                     o_price := executed; o_origQty := quantity;
                     o_executedQty := quantity; o_status := "FILLED";
                     o_type := type; o_side := side |} in
     c ← get_state;
     put_state {| account_balance := account_balance c;
                  mock_orders := <[order_id := order]> (mock_orders c);
                  order_id_counter := order_id_counter c;
                  mock_prices := mock_prices c;
                  random_uniform := random_uniform c;
                  draws := draws c |};;
     mret order)
    (λ _, raise BinanceAPIError).

#[global] Instance MockBinanceClient_client : BinanceClient MockBinanceClient := {|
  get_account := mock_get_account;
  get_symbol_ticker := mock_get_symbol_ticker;
  create_order := mock_create_order
|}.

(** *** [BinanceAPIWrapper] *)

(** A Python float is an IEEE 754 double.  Its value is a rational, and a
    rational that is not a double stands for the double nearest to it, the
    one the literal or the string it came from is read as; [to_double] is
    that double: 53 bits of mantissa, a tie going to the even mantissa,
    subnormal below [2^-1022].  There is no infinite float here: a value of
    [2^1024] or more, which overflows in the source, is outside the
    model. *)
Definition pow2 (k : Z) : Q :=
  match k with
  | Z0 => 1
  | Zpos p => inject_Z (2 ^ Zpos p)
  | Zneg p => 1 # (2 ^ p)
  end.

(** [floor (log2 a)] for a positive [a]. *)
Definition ilog2 (a : Q) : Z :=
  let k := (Z.log2 (Qnum a) - Z.log2 (Zpos (Qden a)))%Z in
  if Qlt_bool a (pow2 k) then (k - 1)%Z else k.

(** [round_half_even x]: the integer nearest to [x], a tie going to the
    even one. *)
Definition round_half_even (x : Q) : Z :=
  let f := Qfloor x in
  let r := (x - inject_Z f)%Q in
  if Qlt_bool r (1 # 2) then f
  else if Qlt_bool (1 # 2) r then (f + 1)%Z
  else if Z.even f then f else (f + 1)%Z.

Definition to_double (x : Q) : Q :=
  if Qeq_bool x 0 then 0
  else
    let a := Qabs x in
    let e := Z.max (ilog2 a - 52) (-1074) in
    let m := round_half_even (a * pow2 (- e)) in
    let r := Qred (inject_Z m * pow2 e) in
    if Qlt_bool x 0 then (- r)%Q else r.

(** [x / y] on floats: the double nearest to the quotient of the two
    doubles. *)
Definition float_div (x y : Q) : Q := to_double (to_double x / to_double y).

(** [round(x, ndigits)] on a float [x]: the decimal with [ndigits] places
    nearest to the value of [x], a tie going to the even last digit.  The
    float returned is the double nearest to that decimal, for which the
    decimal stands here. *)
Definition py_round (x : Q) (ndigits : nat) : Q :=
  (inject_Z (round_half_even (x * inject_Z (10 ^ Z.of_nat ndigits))) /
   inject_Z (10 ^ Z.of_nat ndigits))%Q.

Section Wrapper.
Context {C : Type} `{!BinanceClient C}.

Definition get_account_info : M C (list Balance) :=
  try_except get_account (λ _, raise BinanceAPIError).

(** The first entry for the asset, 0.0 when there is none. *)
Fixpoint find_balance (asset : string) (balances : list Balance) : Q :=
  match balances with
  | [] => 0
  | (a, free) :: rest => if bool_decide (a = asset) then free else find_balance asset rest
  end.

Definition get_balance (asset : string) : M C Q :=
  try_except
    (account ← get_account_info; mret (find_balance asset account))
    (λ _, raise BinanceAPIError).

Definition get_price (symbol : string) : M C Q :=
  try_except (get_symbol_ticker symbol) (λ _, raise BinanceAPIError).

Definition create_market_buy_order (symbol : string) (quantity : Q) : M C Order :=
  try_except (create_order symbol BUY MARKET quantity None)
             (λ _, raise BinanceAPIError).

Definition create_market_sell_order (symbol : string) (quantity : Q) : M C Order :=
  try_except (create_order symbol SELL MARKET quantity None)
             (λ _, raise BinanceAPIError).

(** Decimal places of a buy quantity. *)
Definition quantity_precision (symbol : string) : nat :=
  if PyStr.contains "BTC" symbol then 6
  else if PyStr.contains "ETH" symbol then 5
  else 4.

(** [usdt_amount / price] raises [ZeroDivisionError] on a zero price. *)
Definition py_div (x y : Q) : M C Q :=
  if Qeq_bool (to_double y) 0 then raise ZeroDivisionError
  else mret (float_div x y).

Definition calculate_buy_quantity (symbol : string) (usdt_amount : Q) : M C Q :=
  try_except
    (price ← get_price symbol;
     quantity ← py_div usdt_amount price;
     mret (py_round quantity (quantity_precision symbol)))
    (λ _, raise BinanceAPIError).

End Wrapper.

End Binance.

(** ** The process-wide singletons *)

Inductive Level : Type := DEBUG | INFO | WARNING | ERROR.

#[global] Instance Level_eq_dec : EqDecision Level.
Proof. solve_decision. Defined.

(** A log record: level and message, the formatted numbers left out. *)
Definition LogRecord : Type := (Level * string)%type.

(** [RiskManager]'s attributes; [last_reset] is a UTC date. *)
Record RiskManager : Type := {
  daily_trades : Z;
  daily_loss : Q;
  open_positions_count : Z;
  last_reset : Z
}.

(** [data_store], [binance_api.client], [trading_engine.strategy.risk_manager],
    the records logged so far by [trading_strategy] and [stop_loss_monitor],
    and the clock. *)
Record World (C : Type) : Type := {
  data_store : Storage.SimpleDataStore;
  binance_api : C;
  risk_manager : RiskManager;
  log : list LogRecord;
  now : Time
}.
Arguments data_store {C} w.
Arguments binance_api {C} w.
Arguments risk_manager {C} w.
Arguments log {C} w.
Arguments now {C} w.

Section WorldAccess.
Context {C : Type}.

Definition set_data_store (ds : Storage.SimpleDataStore) (w : World C) : World C :=
  {| data_store := ds; binance_api := binance_api w;
     risk_manager := risk_manager w; log := log w; now := now w |}.

Definition set_binance_api (c : C) (w : World C) : World C :=
  {| data_store := data_store w; binance_api := c;
     risk_manager := risk_manager w; log := log w; now := now w |}.

Definition set_risk_manager (r : RiskManager) (w : World C) : World C :=
  {| data_store := data_store w; binance_api := binance_api w;
     risk_manager := r; log := log w; now := now w |}.

Definition set_log (l : list LogRecord) (w : World C) : World C :=
  {| data_store := data_store w; binance_api := binance_api w;
     risk_manager := risk_manager w; log := l; now := now w |}.

Definition set_now (t : Time) (w : World C) : World C :=
  {| data_store := data_store w; binance_api := binance_api w;
     risk_manager := risk_manager w; log := log w; now := t |}.

(** [time.sleep(seconds)]: the clock moves on. *)
Definition sleep (seconds : Z) : M (World C) unit :=
  modify (λ w, set_now (now w + seconds)%Z w).

(** [logger.<level>(msg)] *)
Definition logger (lvl : Level) (msg : string) : M (World C) unit :=
  modify (λ w, set_log (log w ++ [(lvl, msg)]) w).

(** A call into [binance_api]. *)
Definition api {A} (m : M C A) : M (World C) A :=
  zoom binance_api set_binance_api m.

(** A call into [data_store] that returns a value. *)
Definition store {A} (f : Time → Storage.SimpleDataStore → A * Storage.SimpleDataStore)
    : M (World C) A :=
  λ w, let '(a, ds) := f (now w) (data_store w) in (Ok a, set_data_store ds w).

(** A call into [data_store] that only writes. *)
Definition store_ (f : Time → Storage.SimpleDataStore → Storage.SimpleDataStore)
    : M (World C) unit :=
  modify (λ w, set_data_store (f (now w) (data_store w)) w).

End WorldAccess.

(** ** JSON *)

Inductive json : Type :=
  | JNull
  | JBool (b : bool)
  | JNum (q : Q)
  | JStr (s : string)
  | JArr (l : list json)
  | JObj (kvs : list (string * json)).

(** [json.loads] on a string, from the Python standard library: the decoded
    value, or [None] for a [JSONDecodeError].  An object comes back as a
    dictionary, its keys distinct and in order of first occurrence. *)
Class JsonDecoder : Type := {
  json_loads : string → option json;
  json_loads_empty_array : json_loads "[]" = Some (JArr [])
}.

(** [for x in v]: the elements of a list, the characters of a string, the
    keys of a dictionary; anything else is not iterable. *)
Definition py_iter (v : json) : result (list json) :=
  match v with
  | JArr l => Ok l
  | JStr s => Ok (map JStr (PyStr.chars s))
  | JObj kvs => Ok (map (λ kv, JStr kv.1) kvs)
  | JNull | JBool _ | JNum _ => Raise TypeError
  end.

(** ** [modules/trading_strategy.py] *)

Module Strategy.
Import Storage Binance Config.

Inductive Action : Type := buy | sell | hold.

#[global] Instance Action_eq_dec : EqDecision Action.
Proof. solve_decision. Defined.

(** The three [reasoning] f-strings. *)
Inductive Reasoning : Type :=
  | NeutralSentiment (coin : string)
  | PositiveSentiment (sentiment_score : Q) (coin : string)
  | NegativeSentiment (sentiment_score : Q) (coin : string).

Record TradingSignal : Type := {
  sig_symbol : string;
  sig_action : Action;
  sig_confidence : Q;
  sig_sentiment : string;
  sig_news_id : option Z;
  sig_reasoning : Reasoning;
  sig_quantity : option Q;
  sig_created_at : Time
}.

(** The value under [news_data['mentioned_coins']]: [None], a string, or
    an object [json.loads] does not take (a list, a number), of which only
    the truth value matters. *)
Inductive PyField : Type :=
  | PyNone
  | PyStr (s : string)
  | PyObject (truthy : bool).

(** A scored news event; a [None] field is a missing key. *)
Record NewsData : Type := {
  nd_id : option Z;
  nd_sentiment : option string;
  nd_sentiment_score : option Q;
  nd_confidence : option Q;
  nd_mentioned_coins : option PyField
}.

(** [TradingStrategy.__init__] *)
Definition min_confidence : Q := 0.6.
Definition sentiment_threshold : Q := 0.3.

(** *** [RiskManager] *)

Section RiskManager.
Context {C : Type} `{!BinanceClient C} (config : TradingConfig).

Definition reset_daily_counters : M (World C) unit :=
  w ← get_state;
  let today := date_of (now w) in
  if (last_reset (risk_manager w) <? today)%Z then
    put_state (set_risk_manager
                 {| daily_trades := 0; daily_loss := 0;
                    open_positions_count := open_positions_count (risk_manager w);
                    last_reset := today |} w);;
    logger INFO "Reset daily risk management counters"
  else mret tt.

Definition check_trade_limits (trade_amount : Q) : M (World C) bool :=
  reset_daily_counters;;
  w ← get_state;
  if (max_daily_trades config <=? daily_trades (risk_manager w))%Z then
    logger WARNING "Daily trade limit reached";; mret false
  else if Qge_bool (daily_loss (risk_manager w)) (daily_loss_limit config) then
    logger WARNING "Daily loss limit reached";; mret false
  else
    let open_positions := get_open_positions (data_store w) in
    if (max_open_positions config <=? Z.of_nat (length open_positions))%Z then
      logger WARNING "Maximum open positions limit reached";; mret false
    else
      try_except
        (usdt_balance ← api (get_balance "USDT");
         if Qlt_bool usdt_balance trade_amount then
           logger WARNING "Insufficient balance";; mret false
         else mret true)
        (λ _, logger ERROR "Error checking balance";; mret false).

Definition record_trade (pnl : Q) : M (World C) unit :=
  modify (λ w,
    let r := risk_manager w in
    set_risk_manager
      {| daily_trades := (daily_trades r + 1)%Z;
         daily_loss := if Qlt_bool pnl 0 then (daily_loss r + Qabs pnl)%Q
                       else daily_loss r;
         open_positions_count := open_positions_count r;
         last_reset := last_reset r |} w);;
  logger DEBUG "Recorded trade".

Definition can_open_position (symbol : string) : M (World C) bool :=
  w ← get_state;
  if existsb (λ p, bool_decide (pos_symbol p = symbol))
             (get_open_positions (data_store w))
  then logger INFO "Already have open position";; mret false
  else mret true.

End RiskManager.

(** *** [TradingStrategy] *)

(** The result dictionary of an executed order. *)
Record Execution : Type := {
  ex_order_id : Z;
  ex_position_id : Z;
  ex_pnl : option Q;
  ex_order : Order
}.

Section TradingStrategy.
Context {C : Type} `{!BinanceClient C} `{!JsonDecoder} (config : TradingConfig).

Definition _has_open_position (ds : SimpleDataStore) (symbol : string) : bool :=
  existsb (λ pos, bool_decide (pos_symbol pos = symbol)) (get_open_positions ds).

(** [json.loads(s) if s else []], a [JSONDecodeError] giving []. *)
Definition parse_mentioned_coins (field : option PyField) : result json :=
  match default (PyStr "[]") field with
  | PyNone => Ok (JArr [])
  | PyStr s =>
      if bool_decide (s = "") then Ok (JArr [])
      else match json_loads s with
           | Some v => Ok v
           | None => Ok (JArr [])
           end
  | PyObject false => Ok (JArr [])
  | PyObject true => Raise TypeError
  end.

(** The local list [signals] lives next to the world while the [try]
    block runs: what was appended before an exception is still there
    when the handler falls through to [return signals]. *)
Definition Frame : Type := (World C * list TradingSignal)%type.

Definition in_world {A} (m : M (World C) A) : M Frame A :=
  zoom fst (λ w fr, (w, fr.2)) m.

Definition append_signal (s : TradingSignal) : M Frame unit :=
  modify (λ fr, (fr.1, fr.2 ++ [s])).

(** The body of [for coin in mentioned_coins]. *)
Definition signal_step (news_data : NewsData) (sentiment : string)
    (sentiment_score confidence : Q) (coin : json) : M Frame unit :=
  match coin with
  | JStr coin =>
      if negb (is_coin_supported config coin) then mret tt
      else
        let symbol := get_trade_symbol coin in
        fr ← get_state;
        let '(action, reasoning) :=
          if bool_decide (sentiment = "positive")
             && Qlt_bool sentiment_threshold sentiment_score
          then (buy, PositiveSentiment sentiment_score coin)
          else if bool_decide (sentiment = "negative")
                  && Qlt_bool sentiment_score (- sentiment_threshold)
          then if _has_open_position (data_store fr.1) symbol
               then (sell, NegativeSentiment sentiment_score coin)
               else (hold, NeutralSentiment coin)
          else (hold, NeutralSentiment coin) in
        if bool_decide (action ≠ hold) then
          append_signal {| sig_symbol := symbol;
                           sig_action := action;
                           sig_confidence := confidence;
                           sig_sentiment := sentiment;
                           sig_news_id := nd_id news_data;
                           sig_reasoning := reasoning;
                           sig_quantity := None;
                           sig_created_at := now fr.1 |}
        else mret tt
  | _ => raise AttributeError
  end.

Fixpoint signal_loop (news_data : NewsData) (sentiment : string)
    (sentiment_score confidence : Q) (coins : list json) : M Frame unit :=
  match coins with
  | [] => mret tt
  | coin :: rest =>
      signal_step news_data sentiment sentiment_score confidence coin;;
      signal_loop news_data sentiment sentiment_score confidence rest
  end.

(** The [try] block; [true] is the early [return signals]. *)
Definition analyze_try (news_data : NewsData) : M Frame bool :=
  let sentiment := default "neutral" (nd_sentiment news_data) in
  let sentiment_score := default 0%Q (nd_sentiment_score news_data) in
  let confidence := default 0%Q (nd_confidence news_data) in
  mentioned_coins ← (λ fr, (parse_mentioned_coins (nd_mentioned_coins news_data), fr));
  if Qlt_bool confidence min_confidence then
    in_world (logger DEBUG "Confidence too low for trading");;
    mret true
  else
    coins ← (λ fr, (py_iter mentioned_coins, fr));
    signal_loop news_data sentiment sentiment_score confidence coins;;
    mret false.

(** [try: ... except Exception as e: logger.error(...)], then
    [return signals]. *)
Definition analyze_frame (news_data : NewsData) : M Frame (list TradingSignal) :=
  try_except
    (analyze_try news_data;; mret tt)
    (λ _, in_world (logger ERROR "Error analyzing news for trading"));;
  fr ← get_state;
  mret fr.2.

Definition analyze_news_for_trading (news_data : NewsData)
    : M (World C) (list TradingSignal) :=
  λ w, let '(r, fr) := analyze_frame news_data (w, []) in (r, fr.1).

(** [execute_signal] and its two workers. *)

Definition _execute_buy (signal : TradingSignal) : M (World C) (option Execution) :=
  try_except
    (let trade_amount :=
       default (trade_amount_usdt config) (trade_amounts config !! sig_symbol signal) in
     allowed ← check_trade_limits config trade_amount;
     if negb allowed then
       logger WARNING "Risk limits prevent buy order";; mret None
     else
       can_open ← can_open_position (sig_symbol signal);
       if negb can_open then
         logger WARNING "Cannot open position";; mret None
       else
         quantity ← api (calculate_buy_quantity (sig_symbol signal) trade_amount);
         current_price ← api (get_price (sig_symbol signal));
         order ← api (create_market_buy_order (sig_symbol signal) quantity);
         let order_data :=
           {| ord_id := 0;
              ord_binance_order_id := o_orderId order;
              ord_symbol := sig_symbol signal;
              ord_side := BUY;
              ord_quantity := quantity;
              ord_price := current_price;
              ord_status := o_status order;
              ord_executed_quantity := o_executedQty order;
              ord_executed_price := o_price order;
              ord_position_id := None;
              ord_news_item_id := sig_news_id signal;
              ord_created_at := 0;
              ord_updated_at := 0 |} in
         order_id ← store (save_trading_order order_data);
         let stop_loss_price :=
           (current_price * (1 - stop_loss_percentage config))%Q in
         let position_data :=
           {| pos_id := 0;
              pos_symbol := sig_symbol signal;
              pos_quantity := quantity;
              pos_entry_price := current_price;
              pos_current_price := current_price;
              pos_stop_loss_price := stop_loss_price;
              pos_stop_loss_percentage := stop_loss_percentage config;
              pos_status := Open;
              pos_is_monitoring := true;
              pos_entry_order_id := order_id;
              pos_news_item_id := sig_news_id signal;
              pos_unrealized_pnl := None;
              pos_realized_pnl := None;
              pos_exit_order_id := None;
              pos_opened_at := 0;
              pos_updated_at := 0;
              pos_closed_at := None |} in
         position_id ← store (save_position position_data);
         store_ (update_trading_order order_id position_id);;
         record_trade 0;;
         logger INFO "Buy order executed";;
         mret (Some {| ex_order_id := order_id;
                       ex_position_id := position_id;
                       ex_pnl := None;
                       ex_order := order |}))
    (λ _, logger ERROR "Error executing buy order";; raise TradingError).

Definition _execute_sell (signal : TradingSignal) : M (World C) (option Execution) :=
  try_except
    (w ← get_state;
     match List.find (λ pos, bool_decide (pos_symbol pos = sig_symbol signal))
                     (get_open_positions (data_store w)) with
     | None => logger WARNING "No open position found";; mret None
     | Some position =>
         let quantity := pos_quantity position in
         current_price ← api (get_price (sig_symbol signal));
         order ← api (create_market_sell_order (sig_symbol signal) quantity);
         let order_data :=
           {| ord_id := 0;
              ord_binance_order_id := o_orderId order;
              ord_symbol := sig_symbol signal;
              ord_side := SELL;
              ord_quantity := quantity;
              ord_price := current_price;
              ord_status := o_status order;
              ord_executed_quantity := o_executedQty order;
              ord_executed_price := o_price order;
              ord_position_id := Some (pos_id position);
              ord_news_item_id := sig_news_id signal;
              ord_created_at := 0;
              ord_updated_at := 0 |} in
         order_id ← store (save_trading_order order_data);
         let entry_price := pos_entry_price position in
         let realized_pnl := ((current_price - entry_price) * quantity)%Q in
         let position_updates :=
           {| u_status := Some Closed;
              u_current_price := Some current_price;
              u_unrealized_pnl := None;
              u_realized_pnl := Some realized_pnl;
              u_exit_order_id := Some order_id;
              u_is_monitoring := Some false;
              u_stop_loss_price := None |} in
         store_ (update_position (pos_id position) position_updates);;
         record_trade realized_pnl;;
         logger INFO "Sell order executed";;
         mret (Some {| ex_order_id := order_id;
                       ex_position_id := pos_id position;
                       ex_pnl := Some realized_pnl;
                       ex_order := order |})
     end)
    (λ _, logger ERROR "Error executing sell order";; raise TradingError).

Definition execute_signal (signal : TradingSignal) : M (World C) (option Execution) :=
  try_except
    (logger INFO "Executing signal";;
     match sig_action signal with
     | buy => _execute_buy signal
     | sell => _execute_sell signal
     | hold => logger DEBUG "No action for signal";; mret None
     end)
    (λ _, logger ERROR "Error executing signal";; raise TradingError).

End TradingStrategy.

(** *** [TradingEngine] *)

(** The values of the summary dictionary. *)
Inductive SummaryValue : Type :=
  | VInt (n : Z)
  | VFloat (x : Q)
  | VBalances (balances : gmap string Q)
  | VOrders (l : list TradingOrder)
  | VPositions (l : list Position)
  | VRiskStats (daily_trades : Z) (daily_loss : Q)
               (max_daily_trades : Z) (daily_loss_limit : Q)
  | VStr (s : string).

(** A dictionary display [{k1: v1, k2: v2, ...}]: the items are stored
    from left to right, a later one replacing an earlier one under the
    same key. *)
Definition dict_display {V} (items : list (string * V)) : gmap string V :=
  foldl (λ d kv, <[kv.1 := kv.2]> d) ∅ items.

Section TradingEngine.
Context {C : Type} `{!BinanceClient C} (config : TradingConfig).

Definition get_trading_summary : M (World C) (gmap string SummaryValue) :=
  try_except
    (w ← get_state;
     let orders := get_trading_orders 50 (data_store w) in
     let positions := get_all_positions 50 (data_store w) in
     let open_positions := get_open_positions (data_store w) in
     let total_trades := Z.of_nat (length orders) in
     let open_positions_count := Z.of_nat (length open_positions) in
     let total_pnl :=
       foldl Qplus 0%Q (map (λ pos, default 0%Q (pos_realized_pnl pos)) positions) in
     balances ← try_except
                  (account_info ← api get_account_info;
                   mret (dict_display account_info))
                  (λ _, mret ∅);
     w ← get_state;
     mret (dict_display
             [ ("total_trades", VInt total_trades);
               ("open_positions", VInt open_positions_count);
               ("total_pnl", VFloat total_pnl);
               ("balances", VBalances balances);
               ("recent_orders", VOrders (take 10 orders));
               ("open_positions", VPositions open_positions);
               ("risk_stats",
                VRiskStats (daily_trades (risk_manager w))
                           (daily_loss (risk_manager w))
                           (max_daily_trades config)
                           (daily_loss_limit config)) ]))
    (λ _, logger ERROR "Error getting trading summary";;
          mret (dict_display [("error", VStr "error")])).

End TradingEngine.

End Strategy.

(** ** [modules/stop_loss_monitor.py] *)

Module StopLoss.
Import Storage Binance Config.

(** The attributes of a [PositionMonitor]; the thread is not part of the
    state, [mon_running] is the flag it reads. *)
Record PositionMonitor : Type := {
  mon_position_id : Z;
  mon_symbol : string;
  mon_quantity : Q;
  mon_entry_price : Q;
  mon_stop_loss_price : Q;
  mon_stop_loss_percentage : Q;
  mon_running : bool;
  mon_check_interval : Z;
  mon_last_price_update : Time
}.

Definition set_running (b : bool) (m : PositionMonitor) : PositionMonitor :=
  {| mon_position_id := mon_position_id m; mon_symbol := mon_symbol m;
     mon_quantity := mon_quantity m; mon_entry_price := mon_entry_price m;
     mon_stop_loss_price := mon_stop_loss_price m;
     mon_stop_loss_percentage := mon_stop_loss_percentage m;
     mon_running := b; mon_check_interval := mon_check_interval m;
     mon_last_price_update := mon_last_price_update m |}.

Definition set_stop_loss_price (x : Q) (m : PositionMonitor) : PositionMonitor :=
  {| mon_position_id := mon_position_id m; mon_symbol := mon_symbol m;
     mon_quantity := mon_quantity m; mon_entry_price := mon_entry_price m;
     mon_stop_loss_price := x;
     mon_stop_loss_percentage := mon_stop_loss_percentage m;
     mon_running := mon_running m; mon_check_interval := mon_check_interval m;
     mon_last_price_update := mon_last_price_update m |}.

Definition set_last_price_update (t : Time) (m : PositionMonitor) : PositionMonitor :=
  {| mon_position_id := mon_position_id m; mon_symbol := mon_symbol m;
     mon_quantity := mon_quantity m; mon_entry_price := mon_entry_price m;
     mon_stop_loss_price := mon_stop_loss_price m;
     mon_stop_loss_percentage := mon_stop_loss_percentage m;
     mon_running := mon_running m; mon_check_interval := mon_check_interval m;
     mon_last_price_update := t |}.

(** [PositionMonitor.__init__] *)
Definition monitor_init (position_data : Position) (now : Time) : PositionMonitor :=
  {| mon_position_id := pos_id position_data;
     mon_symbol := pos_symbol position_data;
     mon_quantity := pos_quantity position_data;
     mon_entry_price := pos_entry_price position_data;
     mon_stop_loss_price := pos_stop_loss_price position_data;
     mon_stop_loss_percentage := pos_stop_loss_percentage position_data;
     mon_running := false;
     mon_check_interval := 10;
     mon_last_price_update := now |}.

(** How an iteration of a [while] loop ends. *)
Inductive Control : Type := Continue | Break.

Section PositionMonitor.
Context {C : Type} `{!BinanceClient C}.

(** A monitor's methods run on the world and on [self]. *)
Definition MonitorState : Type := (World C * PositionMonitor)%type.

Definition world {A} (m : M (World C) A) : M MonitorState A :=
  zoom fst (λ w st, (w, st.2)) m.

Definition self : M MonitorState PositionMonitor :=
  st ← get_state; mret st.2.

Definition set_self (f : PositionMonitor → PositionMonitor) : M MonitorState unit :=
  modify (λ st, (st.1, f st.2)).

Definition _get_current_position : M MonitorState (option Position) :=
  st ← get_state;
  mret (List.find (λ position, bool_decide (pos_id position = mon_position_id st.2))
                  (get_all_positions 1000 (data_store st.1))).

Definition _execute_stop_loss (current_price : Q) : M MonitorState unit :=
  try_except
    (world (logger INFO "Executing stop-loss for position");;
     m ← self;
     order ← world (api (create_market_sell_order (mon_symbol m) (mon_quantity m)));
     let order_data :=
       {| ord_id := 0;
          ord_binance_order_id := o_orderId order;
          ord_symbol := mon_symbol m;
          ord_side := SELL;
          ord_quantity := mon_quantity m;
          ord_price := current_price;
          ord_status := o_status order;
          ord_executed_quantity := o_executedQty order;
          ord_executed_price := o_price order;
          ord_position_id := Some (mon_position_id m);
          ord_news_item_id := None;
          ord_created_at := 0;
          ord_updated_at := 0 |} in
     order_id ← world (store (save_trading_order order_data));
     let executed_price := o_price order in
     let realized_pnl := ((executed_price - mon_entry_price m) * mon_quantity m)%Q in
     let position_updates :=
       {| u_status := Some Stopped;
          u_current_price := Some executed_price;
          u_unrealized_pnl := None;
          u_realized_pnl := Some realized_pnl;
          u_exit_order_id := Some order_id;
          u_is_monitoring := Some false;
          u_stop_loss_price := None |} in
     world (store_ (update_position (mon_position_id m) position_updates));;
     world (logger INFO "Stop-loss executed"))
    (λ _, world (logger ERROR "Error executing stop-loss for position");;
          raise StopLossError).

(** One pass through the body of [while self.running]. *)
Definition monitor_iteration : M MonitorState Control :=
  try_except
    (position ← _get_current_position;
     if match position with
        | None => true
        | Some position => bool_decide (pos_status position ≠ Open)
        end
     then
       world (logger INFO "Position is no longer open, stopping monitor");;
       mret Break
     else
       m ← self;
       current_price ← world (api (get_price (mon_symbol m)));
       let unrealized_pnl :=
         ((current_price - mon_entry_price m) * mon_quantity m)%Q in
       let position_updates :=
         {| u_status := None;
            u_current_price := Some current_price;
            u_unrealized_pnl := Some unrealized_pnl;
            u_realized_pnl := None;
            u_exit_order_id := None;
            u_is_monitoring := None;
            u_stop_loss_price := None |} in
       world (store_ (update_position (mon_position_id m) position_updates));;
       if Qle_bool current_price (mon_stop_loss_price m) then
         world (logger WARNING "Stop-loss triggered");;
         _execute_stop_loss current_price;;
         mret Break
       else
         st ← get_state;
         (if (60 <=? now st.1 - mon_last_price_update m)%Z then
            world (logger DEBUG "Position price update");;
            set_self (set_last_price_update (now st.1))
          else mret tt);;
         world (sleep (mon_check_interval m));;
         mret Continue)
    (λ _, world (logger ERROR "Error in position monitor");;
          m ← self;
          world (sleep (mon_check_interval m));;
          mret Continue).

(** [_monitor_loop], for at most [fuel] iterations: [true] when the loop
    was left, [false] when the iterations ran out first. *)
Fixpoint _monitor_loop (fuel : nat) : M MonitorState bool :=
  match fuel with
  | O => mret false
  | S fuel =>
      m ← self;
      if mon_running m then
        c ← monitor_iteration;
        match c with
        | Break => set_self (set_running false);; mret true
        | Continue => _monitor_loop fuel
        end
      else set_self (set_running false);; mret true
  end.

End PositionMonitor.

(** *** [StopLossManager] *)

Record StopLossManager : Type := {
  monitors : gmap Z PositionMonitor;
  running : bool
}.

Section StopLossManager.
Context {C : Type} `{!BinanceClient C}.

Definition ManagerState : Type := (World C * StopLossManager)%type.

Definition in_world {A} (m : M (World C) A) : M ManagerState A :=
  zoom fst (λ w st, (w, st.2)) m.

Definition set_monitors (f : gmap Z PositionMonitor → gmap Z PositionMonitor)
    : M ManagerState unit :=
  modify (λ st, (st.1, {| monitors := f (monitors st.2); running := running st.2 |})).

(** [monitor.start()] sets the flag and spawns the thread. *)
Definition _add_position_monitor (position : Position) : M ManagerState unit :=
  try_except
    (st ← get_state;
     if bool_decide (is_Some (monitors st.2 !! pos_id position)) then mret tt
     else
       let monitor := set_running true (monitor_init position (now st.1)) in
       in_world (logger INFO "Started monitoring position");;
       set_monitors (insert (pos_id position) monitor);;
       in_world (logger INFO "Added stop-loss monitor for position"))
    (λ _, in_world (logger ERROR "Error adding position monitor")).

Definition update_stop_loss (position_id : Z) (new_stop_loss_price : Q)
    : M ManagerState unit :=
  try_except
    (st ← get_state;
     match monitors st.2 !! position_id with
     | Some monitor =>
         set_monitors (insert position_id
                         (set_stop_loss_price new_stop_loss_price monitor));;
         in_world (store_ (update_position position_id
                     {| u_status := None;
                        u_current_price := None;
                        u_unrealized_pnl := None;
                        u_realized_pnl := None;
                        u_exit_order_id := None;
                        u_is_monitoring := None;
                        u_stop_loss_price := Some new_stop_loss_price |}));;
         in_world (logger INFO "Updated stop-loss for position")
     | None =>
         in_world (logger WARNING "No monitor found for position")
     end)
    (λ _, in_world (logger ERROR "Error updating stop-loss");;
          raise StopLossError).

End StopLossManager.

End StopLoss.

(** ** A decoder for ticker lists *)

(** The upstream stores [mentioned_coins] as [json.dumps] of a list of
    tickers.  [TickerJson.loads] decodes exactly that fragment of JSON, an
    array of strings without escapes, and rejects the rest; it is the
    [JsonDecoder] the examples run with.  The theorems hold for every
    decoder. *)
Module TickerJson.

Definition quote : ascii := ascii_of_nat 34.
Definition is_space (c : ascii) : bool :=
  bool_decide (c = " "%char) || bool_decide (c = ascii_of_nat 10)
  || bool_decide (c = ascii_of_nat 9) || bool_decide (c = ascii_of_nat 13).

(** [json.dumps(["BTC", "ETH"])] *)
Fixpoint dumps_items (l : list string) : string :=
  match l with
  | [] => ""
  | [x] => String quote x +:+ String quote ""
  | x :: r => String quote x +:+ String quote ", " +:+ dumps_items r
  end.

Definition dumps (l : list string) : string := "[" +:+ dumps_items l +:+ "]".

Inductive Lexer : Type :=
  | AtStart
  | AfterOpen
  | InString (acc : string)
  | AfterString
  | AfterComma
  | AtEnd.

Fixpoint scan (st : Lexer) (items : list string) (s : string) : option (list string) :=
  match s with
  | EmptyString => match st with AtEnd => Some items | _ => None end
  | String c r =>
      match st with
      | AtStart =>
          if is_space c then scan AtStart items r
          else if bool_decide (c = "["%char) then scan AfterOpen items r
          else None
      | AfterOpen =>
          if is_space c then scan AfterOpen items r
          else if bool_decide (c = quote) then scan (InString "") items r
          else if bool_decide (c = "]"%char) then scan AtEnd items r
          else None
      | InString acc =>
          if bool_decide (c = quote) then scan AfterString (items ++ [acc]) r
          else if bool_decide (c = "\"%char) then None
          else scan (InString (acc +:+ String c "")) items r
      | AfterString =>
          if is_space c then scan AfterString items r
          else if bool_decide (c = ","%char) then scan AfterComma items r
          else if bool_decide (c = "]"%char) then scan AtEnd items r
          else None
      | AfterComma =>
          if is_space c then scan AfterComma items r
          else if bool_decide (c = quote) then scan (InString "") items r
          else None
      | AtEnd => if is_space c then scan AtEnd items r else None
      end
  end.

Definition loads (s : string) : option json :=
  (λ items, JArr (map JStr items)) <$> scan AtStart [] s.

#[global] Instance decoder : JsonDecoder :=
  {| json_loads := loads; json_loads_empty_array := eq_refl |}.

End TickerJson.

(** ** Sample data *)

Module Samples.
Import Storage Binance Config Strategy StopLoss.

(** A random source that always returns the same variation. *)
Definition steady (v : Q) : nat → Q := λ _, v.

(** A random source that returns the variations of a list, then 0. *)
Definition scripted (vs : list Q) : nat → Q := λ n, default 0%Q (vs !! n).

Definition fresh_risk_manager (today : Z) : RiskManager :=
  {| daily_trades := 0; daily_loss := 0; open_positions_count := 0;
     last_reset := today |}.

(** A world at second 0 of day 0 with the given position file and mock. *)
Definition world_of (ps : list Position) (c : MockBinanceClient) : World MockBinanceClient :=
  {| data_store := {| positions := ps; orders := [] |};
     binance_api := c;
     risk_manager := fresh_risk_manager 0;
     log := [];
     now := 0 |}.

Definition empty_world : World MockBinanceClient := world_of [] (mock_init (steady 0)).

(** A BTC position bought at 45000, with the stop at 40500. *)
Definition btc_position (id : Z) (st : Status) : Position :=
  {| pos_id := id;
     pos_symbol := "BTCUSDT";
     pos_quantity := 0.000222;
     pos_entry_price := 45000;
     pos_current_price := 45000;
     pos_stop_loss_price := 40500;
     pos_stop_loss_percentage := 0.1;
     pos_status := st;
     pos_is_monitoring := match st with Open => true | _ => false end;
     pos_entry_order_id := 1;
     pos_news_item_id := Some 1%Z;
     pos_unrealized_pnl := None;
     pos_realized_pnl := None;
     pos_exit_order_id := None;
     pos_opened_at := 0;
     pos_updated_at := 0;
     pos_closed_at := None |}.

(** The mock after it has bought the position's BTC. *)
Definition mock_holding_btc (rnd : nat → Q) : MockBinanceClient :=
  set_account_balance (<["BTC" := 0.000222%Q]> (account_balance (mock_init rnd)))
                      (mock_init rnd).

Definition news (sentiment : string) (score confidence : Q) (coins : option PyField)
    : NewsData :=
  {| nd_id := Some 1%Z;
     nd_sentiment := Some sentiment;
     nd_sentiment_score := Some score;
     nd_confidence := Some confidence;
     nd_mentioned_coins := coins |}.

Definition tickers (l : list string) : option PyField :=
  Some (PyStr (TickerJson.dumps l)).

Definition buy_signal (symbol : string) : TradingSignal :=
  {| sig_symbol := symbol; sig_action := buy; sig_confidence := 0.9;
     sig_sentiment := "positive"; sig_news_id := Some 1%Z;
     sig_reasoning := PositiveSentiment 0.8 "BTC"; sig_quantity := None;
     sig_created_at := 0 |}.

Definition sell_signal (symbol : string) : TradingSignal :=
  {| sig_symbol := symbol; sig_action := sell; sig_confidence := 0.9;
     sig_sentiment := "negative"; sig_news_id := Some 2%Z;
     sig_reasoning := NegativeSentiment (-0.7) "BTC"; sig_quantity := None;
     sig_created_at := 0 |}.

(** Scenario A of the specification: a buy signal for BTC on a fresh
    account, BTC quoted at 45000. *)
Definition scenario_A : result (option Execution) * World MockBinanceClient :=
  _execute_buy default_config (buy_signal "BTCUSDT") empty_world.

Definition scenario_A_execution : Execution :=
  {| ex_order_id := 1;
     ex_position_id := 1;
     ex_pnl := None;
     ex_order := {| o_symbol := "BTCUSDT"; o_orderId := 1; o_price := 45000;
                    o_origQty := py_round (10 / 45000) 6;
                    o_executedQty := py_round (10 / 45000) 6;
                    o_status := "FILLED"; o_type := MARKET; o_side := BUY |} |}.

(** An account holding the open BTC position, on a market that is 1% up
    at the first draw and 1% down at the second. *)
Definition selling_world : World MockBinanceClient :=
  world_of [btc_position 1 Open] (mock_holding_btc (scripted [0.01; -0.01]%Q)).

(** The same position after its stop has been raised to 44800, and its
    monitor. *)
Definition guarded_position : Position :=
  apply_updates {| u_status := None; u_current_price := None;
                   u_unrealized_pnl := None; u_realized_pnl := None;
                   u_exit_order_id := None; u_is_monitoring := None;
                   u_stop_loss_price := Some 44800%Q |} 0 (btc_position 1 Open).

Definition btc_monitor : PositionMonitor :=
  set_running true (monitor_init guarded_position 0).

(** The account holds the position's BTC and the market is 2% down. *)
Definition falling_world : World MockBinanceClient :=
  world_of [guarded_position] (mock_holding_btc (steady (-0.02))).

(** The process has been restarted: [positions.json] still has the open
    position, the mock client is new and holds no BTC. *)
Definition restarted_world : World MockBinanceClient :=
  world_of [guarded_position] (mock_init (steady (-0.02))).

(** The position has been sold by hand and a second BTC position bought
    since; the monitor of the first one has not been removed yet. *)
Definition raced_world : World MockBinanceClient :=
  world_of
    [ apply_updates {| u_status := Some Closed; u_current_price := None;
                       u_unrealized_pnl := None; u_realized_pnl := Some 0%Q;
                       u_exit_order_id := Some 2%Z; u_is_monitoring := Some false;
                       u_stop_loss_price := None |} 0 guarded_position;
      btc_position 2 Open ]
    (mock_holding_btc (steady (-0.02))).

(** A fresh mock that lists BTCUSDT at a base price of its own. *)
Definition mock_quoting (base_price : Q) : MockBinanceClient :=
  {| account_balance := account_balance (mock_init (steady 0));
     mock_orders := ∅;
     order_id_counter := 1;
     mock_prices := <["BTCUSDT" := base_price]> ∅;
     random_uniform := steady 0;
     draws := 0 |}.

(** A fresh account on a market that moves between two quotes: +1% at the
    first draw, -1% at the second, flat afterwards. *)
Definition drifting_world : World MockBinanceClient :=
  world_of [] (mock_init (scripted [0.01; -0.01]%Q)).

End Samples.

(** ** Vocabulary of the properties *)

Section SignalVocabulary.
Context `{!JsonDecoder}.
Import Storage Config Strategy.

(** The strings among the values a [for] loop runs over. *)
Definition coin_names (coins : list json) : list string :=
  omap (λ j, match j with JStr s => Some s | _ => None end) coins.

(** The coins an event mentions, as the signal generator reads them. *)
Definition mentioned_coins (news_data : NewsData) : list string :=
  match parse_mentioned_coins (nd_mentioned_coins news_data) with
  | Ok v => match py_iter v with Ok l => coin_names l | Raise _ => [] end
  | Raise _ => []
  end.

(** What holds of a signal made from an event with these scores while the
    data store is [ds]. *)
Definition signal_ok (ds : SimpleDataStore) (sentiment : string)
    (sentiment_score confidence : Q) (s : TradingSignal) : Prop :=
  sig_action s ≠ hold ∧
  sig_confidence s = confidence ∧
  sig_sentiment s = sentiment ∧
  (sig_action s = buy →
     sentiment = "positive" ∧ (sentiment_threshold < sentiment_score)%Q) ∧
  (sig_action s = sell →
     sentiment = "negative" ∧ (sentiment_score < - sentiment_threshold)%Q ∧
     _has_open_position ds (sig_symbol s) = true).

(** The states of the [mentioned_coins] field that carry no coin list: the
    key is missing, its value is [None] or the empty string, or the string
    does not decode. *)
Inductive coins_unreadable : option PyField → Prop :=
  | coins_absent : coins_unreadable None
  | coins_none : coins_unreadable (Some PyNone)
  | coins_empty : coins_unreadable (Some (PyStr ""))
  | coins_invalid s : json_loads s = None → coins_unreadable (Some (PyStr s)).

End SignalVocabulary.

(** The record [update_position] and the monitors resolve an id to: the
    first of the file that carries it. *)
Definition position_by_id (position_id : Z) (ds : Storage.SimpleDataStore)
    : option Storage.Position :=
  List.find (λ p, bool_decide (Storage.pos_id p = position_id)) (Storage.positions ds).

(** The operations of the core that write to the position file.  An
    iteration of the monitor loop is the status check, the price update and,
    on a breach, the stop-loss execution; the stop-loss execution is also
    taken on its own. *)
Inductive CoreOp : Type :=
  | BuyExecution (signal : Strategy.TradingSignal)
  | SellExecution (signal : Strategy.TradingSignal)
  | StopLossExecution (monitor : StopLoss.PositionMonitor) (current_price : Q)
  | MonitorIteration (monitor : StopLoss.PositionMonitor)
  | StopLossUpdate (manager : StopLoss.StopLossManager) (position_id : Z)
                   (new_stop_loss_price : Q).

Section CoreOps.
Context {C : Type} `{!Binance.BinanceClient C} (config : Config.TradingConfig).

(** The world an operation leaves, whether it returned or raised. *)
Definition run_op (op : CoreOp) (w : World C) : World C :=
  match op with
  | BuyExecution signal => (Strategy._execute_buy config signal w).2
  | SellExecution signal => (Strategy._execute_sell signal w).2
  | StopLossExecution monitor current_price =>
      (StopLoss._execute_stop_loss current_price (w, monitor)).2.1
  | MonitorIteration monitor => (StopLoss.monitor_iteration (w, monitor)).2.1
  | StopLossUpdate manager position_id new_stop_loss_price =>
      (StopLoss.update_stop_loss position_id new_stop_loss_price (w, manager)).2.1
  end.

Definition run_ops (ops : list CoreOp) (w : World C) : World C :=
  foldl (λ w op, run_op op w) w ops.

End CoreOps.

(** The status changes the specification names: out of open, into closed
    or stopped. *)
Definition claimed_transition (before after : Storage.Status) : Prop :=
  before = Storage.Open ∧ (after = Storage.Closed ∨ after = Storage.Stopped).

(** The status changes an operation does make to a position that exists. *)
Definition transition (op : CoreOp) (before after : Storage.Status) : Prop :=
  match op with
  | SellExecution _ => before = Storage.Open ∧ after = Storage.Closed
  | MonitorIteration _ => before = Storage.Open ∧ after = Storage.Stopped
  | StopLossExecution _ _ => after = Storage.Stopped
  | BuyExecution _ | StopLossUpdate _ _ _ => False
  end.

(** At most one open position for a symbol. *)
Definition one_open_per_symbol (ds : Storage.SimpleDataStore) : Prop :=
  NoDup (map Storage.pos_symbol (Storage.get_open_positions ds)).

(** The updates a monitor writes to its position: the price it polled, and
    the close after a stop-loss order. *)
Definition price_update (m : StopLoss.PositionMonitor) (price : Q)
    : Storage.PositionUpdates :=
  {| Storage.u_status := None;
     Storage.u_current_price := Some price;
     Storage.u_unrealized_pnl :=
       Some ((price - StopLoss.mon_entry_price m) * StopLoss.mon_quantity m)%Q;
     Storage.u_realized_pnl := None;
     Storage.u_exit_order_id := None;
     Storage.u_is_monitoring := None;
     Storage.u_stop_loss_price := None |}.

Definition stop_update (m : StopLoss.PositionMonitor) (order : Binance.Order)
    (order_id : Z) : Storage.PositionUpdates :=
  {| Storage.u_status := Some Storage.Stopped;
     Storage.u_current_price := Some (Binance.o_price order);
     Storage.u_unrealized_pnl := None;
     Storage.u_realized_pnl :=
       Some ((Binance.o_price order - StopLoss.mon_entry_price m)
             * StopLoss.mon_quantity m)%Q;
     Storage.u_exit_order_id := Some order_id;
     Storage.u_is_monitoring := Some false;
     Storage.u_stop_loss_price := None |}.

(** The order record a stop-loss execution saves. *)
Definition stop_order (m : StopLoss.PositionMonitor) (current_price : Q)
    (order : Binance.Order) : Storage.TradingOrder :=
  {| Storage.ord_id := 0;
     Storage.ord_binance_order_id := Binance.o_orderId order;
     Storage.ord_symbol := StopLoss.mon_symbol m;
     Storage.ord_side := Storage.SELL;
     Storage.ord_quantity := StopLoss.mon_quantity m;
     Storage.ord_price := current_price;
     Storage.ord_status := Binance.o_status order;
     Storage.ord_executed_quantity := Binance.o_executedQty order;
     Storage.ord_executed_price := Binance.o_price order;
     Storage.ord_position_id := Some (StopLoss.mon_position_id m);
     Storage.ord_news_item_id := None;
     Storage.ord_created_at := 0;
     Storage.ord_updated_at := 0 |}.

(** A monitor of position 1 whose symbol the mock does not list. *)
Definition Samples_unlisted_monitor : StopLoss.PositionMonitor :=
  {| StopLoss.mon_position_id := 1;
     StopLoss.mon_symbol := "DOGEUSDT";
     StopLoss.mon_quantity := 100;
     StopLoss.mon_entry_price := 0.1;
     StopLoss.mon_stop_loss_price := 0.09;
     StopLoss.mon_stop_loss_percentage := 0.1;
     StopLoss.mon_running := true;
     StopLoss.mon_check_interval := 10;
     StopLoss.mon_last_price_update := 0 |}.

(** ** [StopLossManager]: start, stop and the management loop *)

Module Supervisor.
Import Storage Binance Config StopLoss.

Section Supervisor.
Context {C : Type} `{!BinanceClient C}.

(** [PositionMonitor.stop] on the monitor registered under an id: the flag
    is cleared (the join of the thread is not modelled). *)
Definition monitor_stop (position_id : Z) : M (@ManagerState C) unit :=
  set_monitors (alter (set_running false) position_id);;
  in_world (logger INFO "Stopped monitoring position").

Definition set_manager_running (b : bool) : M (@ManagerState C) unit :=
  modify (λ st, (st.1, {| monitors := monitors st.2; running := b |})).

(** The loop of [_start_existing_monitors]. *)
Fixpoint add_monitored (open_positions : list Position) : M (@ManagerState C) unit :=
  match open_positions with
  | [] => mret tt
  | position :: rest =>
      (if pos_is_monitoring position then _add_position_monitor position
       else mret tt);;
      add_monitored rest
  end.

Definition _start_existing_monitors : M (@ManagerState C) unit :=
  try_except
    (st ← get_state;
     add_monitored (get_open_positions (data_store st.1)))
    (λ _, in_world (logger ERROR "Error starting existing monitors")).

(** [start]; the management thread it spawns is not part of the state. *)
Definition start : M (@ManagerState C) unit :=
  st ← get_state;
  if running st.2 then mret tt
  else
    set_manager_running true;;
    _start_existing_monitors;;
    in_world (logger INFO "Stop-loss manager started").

(** The first loop of the management pass: a monitor for every open,
    monitored position that has none. *)
Fixpoint add_missing (open_positions : list Position) : M (@ManagerState C) unit :=
  match open_positions with
  | [] => mret tt
  | position :: rest =>
      st ← get_state;
      (if pos_is_monitoring position
          && bool_decide (monitors st.2 !! pos_id position = None)
       then _add_position_monitor position
       else mret tt);;
      add_missing rest
  end.

(** [current_open_ids] *)
Definition current_open_ids (ds : SimpleDataStore) : gset Z :=
  list_to_set (map pos_id (filter (λ p, pos_is_monitoring p = true)
                                  (get_open_positions ds))).

(** The second loop: the monitors whose id is not among the open ones are
    stopped and their ids collected.  The registry is walked in the order of
    [map_to_list], where the source walks it in order of insertion; the two
    differ in the order of the log records only. *)
Fixpoint stop_stale (current : gset Z) (items : list (Z * PositionMonitor))
    : M (@ManagerState C) (list Z) :=
  match items with
  | [] => mret []
  | (position_id, _) :: rest =>
      if bool_decide (position_id ∈ current) then stop_stale current rest
      else
        monitor_stop position_id;;
        more ← stop_stale current rest;
        mret (position_id :: more)
  end.

(** The third loop: [del self.monitors[position_id]]. *)
Fixpoint remove_monitors (ids : list Z) : M (@ManagerState C) unit :=
  match ids with
  | [] => mret tt
  | position_id :: rest =>
      st ← get_state;
      (if bool_decide (is_Some (monitors st.2 !! position_id))
       then set_monitors (delete position_id)
       else raise TypeError (* a KeyError: the class is never looked at *));;
      in_world (logger INFO "Removed monitor for position");;
      remove_monitors rest
  end.

(** One pass through the body of [while self.running] in
    [_management_loop]. *)
Definition management_iteration : M (@ManagerState C) unit :=
  try_except
    (st ← get_state;
     let open_positions := get_open_positions (data_store st.1) in
     add_missing open_positions;;
     st ← get_state;
     monitors_to_remove ←
       stop_stale (current_open_ids (data_store st.1)) (map_to_list (monitors st.2));
     remove_monitors monitors_to_remove;;
     in_world (sleep 30))
    (λ _, in_world (logger ERROR "Error in stop-loss management loop");;
          in_world (sleep 30)).

(** The loop of [stop]: every monitor is stopped, in the order of
    [map_to_list]. *)
Fixpoint stop_each (ids : list Z) : M (@ManagerState C) unit :=
  match ids with
  | [] => mret tt
  | position_id :: rest => monitor_stop position_id;; stop_each rest
  end.

(** [stop] *)
Definition stop : M (@ManagerState C) unit :=
  set_manager_running false;;
  st ← get_state;
  stop_each (map fst (map_to_list (monitors st.2)));;
  set_monitors (λ _, ∅);;
  in_world (logger INFO "Stop-loss manager stopped").

End Supervisor.

End Supervisor.

(** The monitor [_add_position_monitor] makes for a position. *)
Definition new_monitor (position : Storage.Position) (now : Time)
    : StopLoss.PositionMonitor :=
  StopLoss.set_running true (StopLoss.monitor_init position now).

(** The registry once every monitored position of a list that had no
    monitor has been given one. *)
Definition registry_with (now : Time) (positions : list Storage.Position)
    (registry : gmap Z StopLoss.PositionMonitor) : gmap Z StopLoss.PositionMonitor :=
  foldl (λ reg p,
           if Storage.pos_is_monitoring p
           then match reg !! Storage.pos_id p with
                | Some _ => reg
                | None => <[Storage.pos_id p := new_monitor p now]> reg
                end
           else reg)
        registry positions.



(** No balance of the mock account is negative. *)
Definition solvent (c : Binance.MockBinanceClient) : Prop :=
  ∀ asset amount, Binance.account_balance c !! asset = Some amount → (0 <= amount)%Q.

(** A list in descending order of a key: no element has a larger key than
    one before it. *)
Fixpoint descending {A} (key : A → Z) (l : list A) : Prop :=
  match l with
  | [] => True
  | x :: rest => Forall (λ y, (key y ≤ key x)%Z) rest ∧ descending key rest
  end.

(** ** [TradingEngine.process_news_for_trading] *)

(** A record of [news_items.json], with the keys the engine reads or
    writes. *)
Record NewsItem : Type := {
  news_id : Z;
  news_triggered_trade : bool;
  news_updated_at : Time
}.

(** The value under [news_data['title']], as far as the slice [[:50]] tells
    values apart: a string can be sliced, [None] or a number cannot. *)
Inductive Title : Type := Sliceable | NotSliceable.

Module Engine.
Import Storage Binance Config Strategy.

Section Engine.
Context {C : Type} `{!BinanceClient C} `{!JsonDecoder} (config : TradingConfig).

(** The engine runs on the world and on the news file. *)
Definition EngineState : Type := (World C * list NewsItem)%type.

Definition in_world {A} (m : M (World C) A) : M EngineState A :=
  zoom fst (λ w st, (w, st.2)) m.

(** [data_store.update_news_item(news_id, {'triggered_trade': True})] *)
Definition update_news_item (id : Z) : M EngineState unit :=
  modify (λ st,
    (st.1,
     update_first (λ item, bool_decide (news_id item = id))
                  (λ item, {| news_id := news_id item;
                              news_triggered_trade := true;
                              news_updated_at := now st.1 |})
                  st.2)).

(** The loop [for signal in signals], with its own [try]. *)
Fixpoint execute_signals (news_data : NewsData) (signals : list TradingSignal)
    : M EngineState unit :=
  match signals with
  | [] => mret tt
  | signal :: rest =>
      try_except
        (result ← in_world (execute_signal config signal);
         match result with
         | Some _ =>
             match nd_id news_data with
             | Some id => update_news_item id
             | None => raise TypeError (* a KeyError: the class is never looked at *)
             end;;
             in_world (logger INFO "Trade executed based on news sentiment")
         | None => mret tt
         end)
        (λ _, in_world (logger ERROR "Error executing trading signal"));;
      execute_signals news_data rest
  end.

(** [title] is the value under [news_data['title']], [None] when the key
    is missing. *)
Definition process_news_for_trading (news_data : NewsData) (title : option Title)
    : M EngineState unit :=
  try_except
    (signals ← in_world (analyze_news_for_trading config news_data);
     match signals with
     | [] =>
         match title with
         | Some NotSliceable => raise TypeError
         | _ => in_world (logger DEBUG "No trading signals generated from news")
         end
     | _ :: _ => execute_signals news_data signals
     end)
    (λ _, in_world (logger ERROR "Error processing news for trading")).

End Engine.

End Engine.

(** What the engine may do to a record of the news file: leave it, or mark
    the record of the event as having triggered a trade. *)
Definition marked_for (news_data : Strategy.NewsData) (before after : NewsItem) : Prop :=
  after = before ∨
  (Strategy.nd_id news_data = Some (news_id before) ∧
   news_id after = news_id before ∧
   news_triggered_trade after = true).

(** The terms of a position: what is fixed when it is opened. *)
Definition same_terms (p p' : Storage.Position) : Prop :=
  Storage.pos_id p' = Storage.pos_id p ∧
  Storage.pos_symbol p' = Storage.pos_symbol p ∧
  Storage.pos_quantity p' = Storage.pos_quantity p ∧
  Storage.pos_entry_price p' = Storage.pos_entry_price p ∧
  Storage.pos_stop_loss_percentage p' = Storage.pos_stop_loss_percentage p ∧
  Storage.pos_entry_order_id p' = Storage.pos_entry_order_id p ∧
  Storage.pos_news_item_id p' = Storage.pos_news_item_id p ∧
  Storage.pos_opened_at p' = Storage.pos_opened_at p.

(** ** [modules/sentiment_analyzer.py]: the keyword score *)

Module Sentiment.

(** The characters [str.split()] splits at, among the ASCII ones. *)
Definition is_space (c : ascii) : bool :=
  let n := nat_of_ascii c in
  ((9 <=? n)%nat && (n <=? 13)%nat) || ((28 <=? n)%nat && (n <=? 32)%nat).

(** [len(text.split())]: the number of maximal runs of characters that are
    not spaces; [in_word] tells whether the last character was one. *)
Fixpoint count_words (in_word : bool) (text : string) : nat :=
  match text with
  | EmptyString => 0
  | String c rest =>
      if is_space c then count_words false rest
      else (if in_word then 0 else 1) + count_words true rest
  end.

(** [min(x, y)] on floats: [y] when it is smaller, else [x]. *)
Definition py_min (x y : Q) : Q := if Qlt_bool y x then y else x.

(** [KeywordSentimentAnalyzer._calculate_sentiment] *)
Definition _calculate_sentiment (positive_matches negative_matches : list string)
    (text : string) : string * Q * Q :=
  let pos_count := Z.of_nat (length positive_matches) in
  let neg_count := Z.of_nat (length negative_matches) in
  if (pos_count =? 0)%Z && (neg_count =? 0)%Z then ("neutral", 0%Q, 0.1%Q)
  else
    let total_matches := (pos_count + neg_count)%Z in
    let pos_ratio :=
      if (0 <? total_matches)%Z then (inject_Z pos_count / inject_Z total_matches)%Q
      else 0%Q in
    let neg_ratio :=
      if (0 <? total_matches)%Z then (inject_Z neg_count / inject_Z total_matches)%Q
      else 0%Q in
    let score := (pos_ratio - neg_ratio)%Q in
    let sentiment :=
      if Qlt_bool 0.2 score then "positive"
      else if Qlt_bool score (-0.2) then "negative"
      else "neutral" in
    let text_length := Z.of_nat (count_words false text) in
    let match_density := (inject_Z total_matches / inject_Z (Z.max text_length 1))%Q in
    let confidence :=
      py_min 0.9 (0.3 + inject_Z total_matches * 0.1 + match_density * 0.4)%Q in
    (sentiment, score, confidence).

End Sentiment.

(** ** Operations that overlap *)

(** The operations that are run as a whole when nothing overlaps: a
    stop-loss execution is not one of them, the monitor loop reaches it
    only inside an iteration, right after the status check. *)
Definition runs_whole (op : CoreOp) : Prop :=
  match op with
  | StopLossExecution _ _ => False
  | _ => True
  end.

(** The dictionary a manual sell passes to [update_position]. *)
Definition close_update (position : Storage.Position) (current_price : Q)
    (order_id : Z) : Storage.PositionUpdates :=
  {| Storage.u_status := Some Storage.Closed;
     Storage.u_current_price := Some current_price;
     Storage.u_unrealized_pnl := None;
     Storage.u_realized_pnl :=
       Some ((current_price - Storage.pos_entry_price position)
             * Storage.pos_quantity position)%Q;
     Storage.u_exit_order_id := Some order_id;
     Storage.u_is_monitoring := Some false;
     Storage.u_stop_loss_price := None |}.

(** Every monitor runs [_monitor_loop] in a thread of its own, next to the
    thread that executes the signals, and [SimpleDataStore] holds no lock:
    [update_position] reads the file into a list of its own
    ([_load_json]), edits that list, and writes the list back
    ([_save_json]).  Between the load and the save of one call another
    thread may run a call of its own. *)
Module Unlocked.
Import Storage.

(** A call of [update_position]: not begun, between its load and its
    save with the list it loaded, or returned. *)
Inductive Call : Type :=
  | Pending (position_id : Z) (updates : PositionUpdates)
  | Loaded (position_id : Z) (updates : PositionUpdates) (loaded : list Position)
  | Returned.

(** The next step of a call: the load, or the edit and the save. *)
Definition step (now : Time) (call : Call) (ds : SimpleDataStore)
    : Call * SimpleDataStore :=
  match call with
  | Pending position_id updates => (Loaded position_id updates (positions ds), ds)
  | Loaded position_id updates loaded =>
      (Returned,
       set_positions
         (update_first (λ p, bool_decide (pos_id p = position_id))
                       (apply_updates updates now) loaded) ds)
  | Returned => (Returned, ds)
  end.

(** The thread of a monitor, in the price update of an iteration, and the
    thread that executes a manual sell, in the update that closes the
    position. *)
Inductive Thread : Type := Monitor | Seller.

Record Threads : Type := {
  monitor_call : Call;
  seller_call : Call;
  file : SimpleDataStore
}.

Definition step_thread (now : Time) (t : Thread) (st : Threads) : Threads :=
  match t with
  | Monitor =>
      let '(call, ds) := step now (monitor_call st) (file st) in
      {| monitor_call := call; seller_call := seller_call st; file := ds |}
  | Seller =>
      let '(call, ds) := step now (seller_call st) (file st) in
      {| monitor_call := monitor_call st; seller_call := call; file := ds |}
  end.

(** A schedule names the thread that takes each step. *)
Definition run (now : Time) (schedule : list Thread) (st : Threads) : Threads :=
  foldl (λ st t, step_thread now t st) st schedule.

End Unlocked.

(** A monitor is live while its loop runs. *)
Definition live (m : StopLoss.PositionMonitor) : Prop :=
  StopLoss.mon_running m = true.

(* ===================================================================== *)
(** * Part II: properties *)
(* ===================================================================== *)

Import Storage Binance Config Strategy StopLoss.

(** ** Running the samples *)

Example loads_two :
  TickerJson.loads (TickerJson.dumps ["BTC"; "ETH"]) = Some (JArr [JStr "BTC"; JStr "ETH"]).
Proof. reflexivity. Qed.

Example analyze_scenario_A :
  map sig_symbol
    (match analyze_news_for_trading default_config
             (Samples.news "positive" 0.8 0.9 (Samples.tickers ["BTC"; "doge"; "eth"]))
             Samples.empty_world with
     | (Ok l, _) => l | _ => [] end) = ["BTCUSDT"; "ETHUSDT"].
Proof. vm_compute. reflexivity. Qed.

(** ** Comparisons *)

Lemma Qlt_bool_iff (x y : Q) : Qlt_bool x y = true ↔ (x < y)%Q.
Proof.
  unfold Qlt_bool. rewrite negb_true_iff.
  split.
  - intros H. apply Qnot_le_lt. intros Hle.
    apply Qle_bool_iff in Hle. congruence.
  - intros H. destruct (Qle_bool y x) eqn:E; [|done].
    apply Qle_bool_iff in E. exfalso. by apply (Qlt_not_le x y).
Qed.

Lemma Qlt_bool_false_iff (x y : Q) : Qlt_bool x y = false ↔ (y <= x)%Q.
Proof.
  unfold Qlt_bool. rewrite negb_false_iff. apply Qle_bool_iff.
Qed.

(** ** Signal generation *)

Section Signals.
Context {C : Type} `{!BinanceClient C} `{!JsonDecoder} (config : TradingConfig).

Lemma signal_step_spec nd sentiment score conf coin (w : World C) sigs :
  ∃ r new,
    signal_step config nd sentiment score conf coin (w, sigs) = (r, (w, sigs ++ new)) ∧
    Forall (signal_ok (data_store w) sentiment score conf) new ∧
    sublist (map sig_symbol new)
            (map get_trade_symbol (filter (λ c, is_coin_supported config c) (coin_names [coin]))).
Proof.
  destruct coin as [| b | q | c | l | kvs];
    try (exists (Raise AttributeError), []; rewrite app_nil_r;
         split; [done | split; [constructor | apply sublist_nil_l]]).
  unfold signal_step. change (coin_names [JStr c]) with [c].
  destruct (is_coin_supported config c) eqn:Hsup; cbn [negb].
  2:{ exists (Ok tt), []. rewrite app_nil_r.
      split; [done | split; [constructor | apply sublist_nil_l]]. }
  rewrite filter_cons_True by (by rewrite Hsup).
  unfold mbind, M_bind, get_state. cbn [map filter fst snd].
  destruct (bool_decide (sentiment = "positive") && Qlt_bool sentiment_threshold score)
    eqn:Hbuy.
  - apply andb_true_iff in Hbuy as [Hs Hq].
    apply bool_decide_eq_true in Hs. apply Qlt_bool_iff in Hq.
    eexists (Ok tt), [_]. split; [reflexivity|]. split.
    + constructor; [|constructor]. repeat split; cbn; try done.
    + cbn. apply sublist_skip, sublist_nil_l.
  - destruct (bool_decide (sentiment = "negative")
              && Qlt_bool score (- sentiment_threshold)) eqn:Hsell.
    + apply andb_true_iff in Hsell as [Hs Hq].
      apply bool_decide_eq_true in Hs. apply Qlt_bool_iff in Hq.
      destruct (_has_open_position (data_store w) (get_trade_symbol c)) eqn:Hopen.
      * eexists (Ok tt), [_]. split; [reflexivity|].
        split.
        { constructor; [|constructor]. repeat split; cbn; try done. }
        cbn. apply sublist_skip, sublist_nil_l.
      * exists (Ok tt), []. rewrite app_nil_r.
        split; [done | split; [constructor | apply sublist_nil_l]].
    + exists (Ok tt), []. rewrite app_nil_r.
      split; [done | split; [constructor | apply sublist_nil_l]].
Qed.

Lemma signal_loop_spec nd sentiment score conf coins (w : World C) sigs :
  ∃ r new,
    signal_loop config nd sentiment score conf coins (w, sigs) = (r, (w, sigs ++ new)) ∧
    Forall (signal_ok (data_store w) sentiment score conf) new ∧
    sublist (map sig_symbol new)
            (map get_trade_symbol (filter (λ c, is_coin_supported config c) (coin_names coins))).
Proof.
  revert sigs. induction coins as [|coin rest IH]; intros sigs.
  - exists (Ok tt), []. rewrite app_nil_r.
    split; [done | split; [constructor | apply sublist_nil_l]].
  - destruct (signal_step_spec nd sentiment score conf coin w sigs)
      as (r1 & new1 & Hstep & Hok1 & Hsub1).
    assert (Hsplit : coin_names (coin :: rest) = coin_names [coin] ++ coin_names rest).
    { unfold coin_names. cbn. by destruct coin. }
    rewrite Hsplit, filter_app, map_app.
    cbn [signal_loop]. unfold mbind, M_bind at 1. rewrite Hstep.
    destruct r1 as [[]|e].
    + destruct (IH (sigs ++ new1)) as (r2 & new2 & Hloop & Hok2 & Hsub2).
      exists r2, (new1 ++ new2). rewrite app_assoc. split; [exact Hloop|].
      split; [by apply Forall_app|].
      rewrite map_app. by apply sublist_app.
    + exists (Raise e), new1. split; [done|]. split; [done|].
      rewrite <- (app_nil_r (map sig_symbol new1)).
      apply sublist_app; [done | apply sublist_nil_l].
Qed.

(** Signal generation always returns, and writes nothing to the store. *)
Lemma analyze_returns nd (w : World C) :
  ∃ signals w',
    analyze_news_for_trading config nd w = (Ok signals, w') ∧
    data_store w' = data_store w ∧
    Forall (signal_ok (data_store w) (default "neutral" (nd_sentiment nd))
              (default 0%Q (nd_sentiment_score nd))
              (default 0%Q (nd_confidence nd))) signals ∧
    (signals ≠ [] → (min_confidence <= default 0%Q (nd_confidence nd))%Q) ∧
    sublist (map sig_symbol signals)
            (map get_trade_symbol
                 (filter (λ c, is_coin_supported config c) (mentioned_coins nd))).
Proof.
  unfold analyze_news_for_trading, analyze_frame, analyze_try, mentioned_coins.
  unfold try_except, mbind, M_bind.
  destruct (parse_mentioned_coins (nd_mentioned_coins nd)) as [v|e]; cbn.
  2:{ eexists [], _. split; [reflexivity|]. split; [done|].
      split; [constructor|]. split; [done | apply sublist_nil_l]. }
  destruct (Qlt_bool (default 0%Q (nd_confidence nd)) min_confidence) eqn:Hconf; cbn.
  { eexists [], _. split; [reflexivity|]. split; [done|].
    split; [constructor|]. split; [done | apply sublist_nil_l]. }
  apply Qlt_bool_false_iff in Hconf.
  destruct (py_iter v) as [coins|e]; cbn.
  2:{ eexists [], _. split; [reflexivity|]. split; [done|].
      split; [constructor|]. split; [done | apply sublist_nil_l]. }
  destruct (signal_loop_spec nd (default "neutral" (nd_sentiment nd))
              (default 0%Q (nd_sentiment_score nd)) (default 0%Q (nd_confidence nd))
              coins w []) as (r & new & Hloop & Hok & Hsub).
  rewrite Hloop. cbn [app] in *.
  destruct r as [[]|e]; cbn;
    (eexists new, _; split; [reflexivity|]; split; [done|]; split; [done|];
     split; [done|done]).
Qed.

End Signals.

Lemma has_open_position_elem (ds : SimpleDataStore) (symbol : string) :
  _has_open_position ds symbol = true →
  ∃ p, p ∈ positions ds ∧ pos_status p = Open ∧ pos_symbol p = symbol.
Proof.
  unfold _has_open_position, get_open_positions. intros H.
  apply existsb_exists in H as (p & Hin & Hsym).
  apply list_elem_of_In, list_elem_of_filter in Hin as [Hopen Hin].
  apply bool_decide_eq_true in Hsym. eauto.
Qed.

(** C1.  Whatever the scored event, the store and the configuration,
    [analyze_news_for_trading] returns a list in which no signal holds; a buy
    signal carries a confidence of at least 0.6 and the sentiment positive,
    from an event scored above 0.3; a sell signal carries a confidence of at
    least 0.6 and the sentiment negative, from an event scored below -0.3,
    while the store held an open position for its symbol; and the symbols of
    the list, in order, are trading pairs of supported coins the event
    mentions, in the order it mentions them. *)
Theorem C1_signals_respect_thresholds
    {C : Type} `{!BinanceClient C} `{!JsonDecoder}
    (config : TradingConfig) (nd : NewsData) (w : World C) :
  ∃ signals w',
    analyze_news_for_trading config nd w = (Ok signals, w') ∧
    Forall (λ s,
      sig_action s ≠ hold ∧
      (sig_action s = buy →
         (0.6 <= sig_confidence s)%Q ∧ sig_sentiment s = "positive" ∧
         (0.3 < default 0%Q (nd_sentiment_score nd))%Q) ∧
      (sig_action s = sell →
         (0.6 <= sig_confidence s)%Q ∧ sig_sentiment s = "negative" ∧
         (default 0%Q (nd_sentiment_score nd) < - 0.3)%Q ∧
         ∃ p, p ∈ positions (data_store w) ∧ pos_status p = Open ∧
              pos_symbol p = sig_symbol s)) signals ∧
    sublist (map sig_symbol signals)
            (map get_trade_symbol
                 (filter (λ c, is_coin_supported config c) (mentioned_coins nd))).
Proof.
  destruct (analyze_returns config nd w) as (signals & w' & Hrun & _ & Hok & Hconf & Hsub).
  exists signals, w'. split; [exact Hrun|]. split; [|exact Hsub].
  apply Forall_forall. intros s Hs.
  assert (Hne : signals ≠ []) by (intros ->; by apply elem_of_nil in Hs).
  specialize (Hconf Hne).
  rewrite Forall_forall in Hok.
  destruct (Hok s Hs) as (Hhold & Hc & Hsent & Hbuy & Hsell).
  split; [exact Hhold|]. split.
  - intros Hb. destruct (Hbuy Hb) as [Hp Hq].
    rewrite Hc, Hsent. repeat split; done.
  - intros Hb. destruct (Hsell Hb) as (Hp & Hq & Hopen).
    rewrite Hc, Hsent. repeat split; try done.
    by apply has_open_position_elem.
Qed.

(** C1 on a positive event that names a supported coin, an unsupported one
    and a second supported one. *)
Lemma C1_signals_respect_thresholds_witness :
  ∃ signals w',
    analyze_news_for_trading default_config
      (Samples.news "positive" 0.8 0.9 (Samples.tickers ["BTC"; "doge"; "eth"]))
      Samples.empty_world = (Ok signals, w') ∧
    map sig_symbol signals = ["BTCUSDT"; "ETHUSDT"] ∧
    Forall (λ s, sig_action s = buy ∧ (0.6 <= sig_confidence s)%Q) signals.
Proof.
  destruct (C1_signals_respect_thresholds default_config
              (Samples.news "positive" 0.8 0.9 (Samples.tickers ["BTC"; "doge"; "eth"]))
              Samples.empty_world) as (signals & w' & Hrun & _ & _).
  vm_compute in Hrun. injection Hrun as <- <-.
  eexists _, _. split; [vm_compute; reflexivity|].
  split; [reflexivity|].
  repeat constructor; vm_compute; discriminate.
Defined.

(** C10.  When the event's mentioned-coins field is missing, [None], the
    empty string or a string that is not JSON, the event mentions no coin and
    [analyze_news_for_trading] returns the empty list without raising and
    without touching the store. *)
Theorem C10_unreadable_coins_give_no_signal
    {C : Type} `{!BinanceClient C} `{!JsonDecoder}
    (config : TradingConfig) (nd : NewsData) (w : World C) :
  coins_unreadable (nd_mentioned_coins nd) →
  mentioned_coins nd = [] ∧
  ∃ w', analyze_news_for_trading config nd w = (Ok [], w') ∧
        data_store w' = data_store w.
Proof.
  intros Hfield.
  assert (Hparse : parse_mentioned_coins (nd_mentioned_coins nd) = Ok (JArr [])).
  { unfold parse_mentioned_coins.
    destruct Hfield as [| | |s Hs]; cbn.
    - by rewrite json_loads_empty_array.
    - done.
    - done.
    - case_bool_decide; [done|]. by rewrite Hs. }
  assert (Hnone : mentioned_coins nd = []).
  { unfold mentioned_coins. by rewrite Hparse. }
  split; [exact Hnone|].
  destruct (analyze_returns config nd w) as (signals & w' & Hrun & Hds & _ & _ & Hsub).
  rewrite Hnone in Hsub. cbn in Hsub.
  apply sublist_nil_r in Hsub. apply map_eq_nil in Hsub. subst signals.
  by exists w'.
Qed.

(** C10 on an event whose field holds text that is not JSON. *)
Lemma C10_unreadable_coins_give_no_signal_witness :
  ∃ w', analyze_news_for_trading default_config
          (Samples.news "positive" 0.8 0.9 (Some (PyStr "BTC, ETH")))
          Samples.empty_world = (Ok [], w').
Proof.
  destruct (C10_unreadable_coins_give_no_signal default_config
              (Samples.news "positive" 0.8 0.9 (Some (PyStr "BTC, ETH")))
              Samples.empty_world) as (_ & w' & Hrun & _).
  - apply coins_invalid. vm_compute. reflexivity.
  - by exists w'.
Defined.

(** Signal generation returns on every event. *)
Lemma analyze_news_for_trading_total
    {C : Type} `{!BinanceClient C} `{!JsonDecoder}
    (config : TradingConfig) (nd : NewsData) (w : World C) :
  is_ok (analyze_news_for_trading config nd w).1 = true.
Proof.
  destruct (analyze_returns config nd w) as (signals & w' & Hrun & _).
  by rewrite Hrun.
Qed.

(** ** The risk gate *)

Section RiskGate.
Context {C : Type} `{!BinanceClient C} (config : TradingConfig).

(** The lazy roll-over: counters are zeroed on a later UTC date, and only
    then; the store and the client are not touched. *)
Lemma reset_daily_counters_spec (w : World C) :
  ∃ w1, reset_daily_counters w = (Ok tt, w1) ∧
    data_store w1 = data_store w ∧ binance_api w1 = binance_api w ∧ now w1 = now w ∧
    risk_manager w1 =
      (if (last_reset (risk_manager w) <? date_of (now w))%Z
       then {| daily_trades := 0; daily_loss := 0;
               open_positions_count := open_positions_count (risk_manager w);
               last_reset := date_of (now w) |}
       else risk_manager w).
Proof.
  unfold reset_daily_counters, mbind, M_bind, get_state.
  destruct (last_reset (risk_manager w) <? date_of (now w))%Z; cbn; eauto 10.
Qed.

End RiskGate.

(** C5.  Once the counters have been rolled over, and provided the balance
    lookup answers, [check_trade_limits] denies exactly when the day's trades
    have reached [max_daily_trades], or the day's loss has reached
    [daily_loss_limit], or the open positions have reached
    [max_open_positions], or the free USDT balance is below the trade amount;
    otherwise it allows. *)
Theorem C5_check_denies_iff_a_limit_is_hit
    {C : Type} `{!BinanceClient C}
    (config : TradingConfig) (trade_amount : Q) (w : World C)
    (usdt_balance : Q) (c' : C) :
  let counters := risk_manager (reset_daily_counters w).2 in
  get_balance "USDT" (binance_api w) = (Ok usdt_balance, c') →
  ∃ allowed w',
    check_trade_limits config trade_amount w = (Ok allowed, w') ∧
    (allowed = false ↔
       (max_daily_trades config ≤ daily_trades counters)%Z ∨
       (daily_loss_limit config <= daily_loss counters)%Q ∨
       (max_open_positions config ≤ Z.of_nat (length (get_open_positions (data_store w))))%Z ∨
       (usdt_balance < trade_amount)%Q).
Proof.
  intros counters Hbal. subst counters.
  destruct (reset_daily_counters_spec w) as (w1 & Hreset & Hds & Hapi & _ & Hrm).
  unfold check_trade_limits, mbind at 1, M_bind at 1.
  rewrite Hreset. cbn [snd]. unfold mbind at 1, M_bind at 1, get_state at 1.
  cbn beta iota. clear Hrm.
  destruct (max_daily_trades config <=? daily_trades (risk_manager w1))%Z eqn:H1.
  { apply Z.leb_le in H1. eexists false, _. split; [reflexivity|].
    split; [intros _; by left | done]. }
  apply Z.leb_gt in H1.
  destruct (Qge_bool (daily_loss (risk_manager w1)) (daily_loss_limit config)) eqn:H2.
  { apply Qle_bool_iff in H2. eexists false, _. split; [reflexivity|].
    split; [intros _; right; by left | done]. }
  assert (H2' : ¬ (daily_loss_limit config <= daily_loss (risk_manager w1))%Q).
  { intros Hle. apply Qle_bool_iff in Hle. unfold Qge_bool in H2. congruence. }
  rewrite Hds.
  destruct (max_open_positions config <=? Z.of_nat (length (get_open_positions (data_store w))))%Z
    eqn:H3.
  { apply Z.leb_le in H3. eexists false, _. split; [reflexivity|].
    split; [intros _; right; right; by left | done]. }
  apply Z.leb_gt in H3.
  unfold try_except, mbind, M_bind, api, zoom. rewrite Hapi, Hbal.
  destruct (Qlt_bool usdt_balance trade_amount) eqn:H4.
  { apply Qlt_bool_iff in H4. eexists false, _. split; [reflexivity|].
    split; [intros _; right; right; by right | done]. }
  apply Qlt_bool_false_iff in H4.
  eexists true, _. split; [reflexivity|].
  split; [done|].
  intros [H | [H | [H | H]]]; exfalso.
  - lia.
  - done.
  - lia.
  - by apply (Qlt_not_le usdt_balance trade_amount).
Qed.

(** C5 on the fresh mock account, 1000 USDT free, and a trade of 10: no
    limit is hit and the check allows. *)
Lemma C5_check_denies_iff_a_limit_is_hit_witness :
  ∃ w', check_trade_limits default_config 10 Samples.empty_world = (Ok true, w').
Proof.
  destruct (C5_check_denies_iff_a_limit_is_hit default_config 10 Samples.empty_world
              1000 (mock_init (Samples.steady 0)))
    as (allowed & w' & Hrun & _).
  - vm_compute. reflexivity.
  - vm_compute in Hrun. injection Hrun as <- <-.
    eexists. vm_compute. reflexivity.
Defined.

(** Scenario C of the specification: with the day's trades at the limit of
    20 the check denies. *)
Example check_denies_at_daily_trade_limit :
  (check_trade_limits default_config 10
     (set_risk_manager {| daily_trades := 20; daily_loss := 0;
                          open_positions_count := 0; last_reset := 0 |}
                       Samples.empty_world)).1 = Ok false.
Proof. vm_compute. reflexivity. Qed.

(** ** Reasoning in the monad *)

Lemma bind_ok_inv {S A B} (m : M S A) (f : A → M S B) s b s' :
  (m ≫= f) s = (Ok b, s') → ∃ a s1, m s = (Ok a, s1) ∧ f a s1 = (Ok b, s').
Proof.
  unfold mbind, M_bind. destruct (m s) as [[a|e] s1]; [eauto | discriminate].
Qed.

Lemma bind_run {S A B} (m : M S A) (f : A → M S B) s :
  (m ≫= f) s =
  match m s with (Ok a, s1) => f a s1 | (Raise e, s1) => (Raise e, s1) end.
Proof. reflexivity. Qed.

(** A handler that re-raises lets nothing but the body's own result through. *)
Lemma try_except_ok_inv {S A} (body : M S A) (handler : exn → M S A) s a s' :
  (∀ e s0, is_ok (handler e s0).1 = false) →
  try_except body handler s = (Ok a, s') → body s = (Ok a, s').
Proof.
  intros Hh. unfold try_except. destruct (body s) as [[a0|e] s1]; [done|].
  intros H. specialize (Hh e s1). rewrite H in Hh. discriminate.
Qed.

Lemma api_ok_inv {C A} (m : M C A) (w : World C) a w1 :
  api m w = (Ok a, w1) →
  ∃ c1, m (binance_api w) = (Ok a, c1) ∧ w1 = set_binance_api c1 w.
Proof.
  unfold api, zoom. destruct (m (binance_api w)) as [r c1].
  intros [= -> <-]. eauto.
Qed.

(** ** The data store *)

Lemma foldl_max_ge (i : Z) (l : list Z) :
  (i ≤ foldl Z.max i l)%Z ∧ ∀ j, j ∈ l → (j ≤ foldl Z.max i l)%Z.
Proof.
  revert i. induction l as [|x l IH]; intros i; cbn.
  - split; [lia|]. intros j Hj. by apply elem_of_nil in Hj.
  - destruct (IH (Z.max i x)) as [H1 H2]. split; [lia|].
    intros j Hj. apply elem_of_cons in Hj as [->|Hj]; [lia | by apply H2].
Qed.

(** A generated id is larger than every id in the file. *)
Lemma generate_id_fresh (ids : list Z) (j : Z) :
  j ∈ ids → (j < _generate_id ids)%Z.
Proof.
  destruct ids as [|i rest]; [intros H; by apply elem_of_nil in H|].
  cbn. destruct (foldl_max_ge i rest) as [H1 H2].
  intros Hj. apply elem_of_cons in Hj as [->|Hj]; [lia|].
  specialize (H2 j Hj). lia.
Qed.

Lemma update_first_app_miss {A} (hit : A → bool) (f : A → A) (l : list A) (x : A) :
  Forall (λ y, hit y = false) l → hit x = true →
  update_first hit f (l ++ [x]) = l ++ [f x].
Proof.
  intros Hl Hx. induction Hl as [|y l Hy _ IH]; cbn.
  - by rewrite Hx.
  - by rewrite Hy, IH.
Qed.

Lemma update_first_length {A} (hit : A → bool) (f : A → A) (l : list A) :
  length (update_first hit f l) = length l.
Proof.
  induction l as [|x l IH]; cbn; [done|]. destruct (hit x); cbn; by rewrite ?IH.
Qed.

(** ** Opening a position *)

Section Buy.
Context {C : Type} `{!BinanceClient C} (config : TradingConfig).

Lemma check_trade_limits_frame trade_amount (w : World C) r w1 :
  check_trade_limits config trade_amount w = (r, w1) →
  data_store w1 = data_store w ∧ now w1 = now w.
Proof.
  destruct (reset_daily_counters_spec w) as (w0 & Hreset & Hds & Hapi & Hnow & _).
  unfold check_trade_limits. rewrite bind_run, Hreset.
  rewrite bind_run. unfold get_state at 1. cbn beta iota.
  repeat match goal with
         | |- context [if ?b then _ else _] => destruct b
         end;
    try (intros [= <- <-]; cbn; by rewrite ?Hds, ?Hnow).
  all: unfold try_except, api, zoom; rewrite bind_run;
    destruct (get_balance "USDT" (binance_api w0)) as [[b|e] c'];
    cbn; repeat match goal with
         | |- context [if ?b then _ else _] => destruct b
         end; intros [= <- <-]; cbn; by rewrite ?Hds, ?Hnow.
Qed.

Lemma can_open_position_inv symbol (w : World C) r w1 :
  can_open_position symbol w = (r, w1) →
  data_store w1 = data_store w ∧ now w1 = now w ∧
  binance_api w1 = binance_api w ∧ risk_manager w1 = risk_manager w ∧
  r = Ok (negb (existsb (λ p, bool_decide (pos_symbol p = symbol))
                        (get_open_positions (data_store w)))).
Proof.
  unfold can_open_position. rewrite bind_run. unfold get_state. cbn beta iota.
  destruct (existsb _ _); intros [= <- <-]; done.
Qed.

Lemma calculate_buy_quantity_ok_inv symbol usdt_amount (c : C) q c1 :
  calculate_buy_quantity symbol usdt_amount c = (Ok q, c1) →
  ∃ price, get_price symbol c = (Ok price, c1) ∧
           Qeq_bool (to_double price) 0 = false ∧
           q = py_round (float_div usdt_amount price) (quantity_precision symbol).
Proof.
  intros H. apply try_except_ok_inv in H; [|done].
  apply bind_ok_inv in H as (price & c0 & Hprice & H).
  unfold py_div in H. destruct (Qeq_bool (to_double price) 0) eqn:Hz; [discriminate|].
  cbn in H. injection H as <- <-. eauto.
Qed.

(** What a buy that went through did, call by call. *)
Lemma execute_buy_success signal (w : World C) ex w' :
  _execute_buy config signal w = (Ok (Some ex), w') →
  let symbol := sig_symbol signal in
  let trade_amount :=
    default (trade_amount_usdt config) (trade_amounts config !! symbol) in
  ∃ w1 quote_q c1 quote_e c2 order c3,
    check_trade_limits config trade_amount w = (Ok true, w1) ∧
    existsb (λ p, bool_decide (pos_symbol p = symbol))
            (get_open_positions (data_store w)) = false ∧
    get_price symbol (binance_api w1) = (Ok quote_q, c1) ∧
    Qeq_bool (to_double quote_q) 0 = false ∧
    get_price symbol c1 = (Ok quote_e, c2) ∧
    let quantity :=
      py_round (float_div trade_amount quote_q) (quantity_precision symbol) in
    create_market_buy_order symbol quantity c2 = (Ok order, c3) ∧
    ex_order ex = order ∧
    binance_api w' = c3 ∧
    positions (data_store w') = positions (data_store w) ++
      [ {| pos_id := ex_position_id ex;
           pos_symbol := symbol;
           pos_quantity := quantity;
           pos_entry_price := quote_e;
           pos_current_price := quote_e;
           pos_stop_loss_price := (quote_e * (1 - stop_loss_percentage config))%Q;
           pos_stop_loss_percentage := stop_loss_percentage config;
           pos_status := Open;
           pos_is_monitoring := true;
           pos_entry_order_id := ex_order_id ex;
           pos_news_item_id := sig_news_id signal;
           pos_unrealized_pnl := None;
           pos_realized_pnl := None;
           pos_exit_order_id := None;
           pos_opened_at := now w;
           pos_updated_at := now w;
           pos_closed_at := None |} ] ∧
    ex_position_id ex = _generate_id (map pos_id (positions (data_store w))) ∧
    orders (data_store w') = orders (data_store w) ++
      [ {| ord_id := ex_order_id ex;
           ord_binance_order_id := o_orderId order;
           ord_symbol := symbol;
           ord_side := BUY;
           ord_quantity := quantity;
           ord_price := quote_e;
           ord_status := o_status order;
           ord_executed_quantity := o_executedQty order;
           ord_executed_price := o_price order;
           ord_position_id := Some (ex_position_id ex);
           ord_news_item_id := sig_news_id signal;
           ord_created_at := now w;
           ord_updated_at := now w |} ] ∧
    risk_manager w' =
      {| daily_trades := (daily_trades (risk_manager w1) + 1)%Z;
         daily_loss := daily_loss (risk_manager w1);
         open_positions_count := open_positions_count (risk_manager w1);
         last_reset := last_reset (risk_manager w1) |}.
Proof.
  intros H symbol trade_amount.
  apply try_except_ok_inv in H; [|done].
  apply bind_ok_inv in H as (allowed & w1 & Hcheck & H).
  destruct (check_trade_limits_frame _ _ _ _ Hcheck) as [Hds1 Hnow1].
  destruct allowed; cbn [negb] in H; [|discriminate].
  apply bind_ok_inv in H as (can_open & w2 & Hcan & H).
  apply can_open_position_inv in Hcan as (Hds2 & Hnow2 & Hapi2 & Hrm2 & Hr).
  injection Hr as ->. rewrite Hds1 in *.
  destruct (existsb _ _) eqn:Hex; cbn [negb] in H; [discriminate|].
  apply bind_ok_inv in H as (quantity & w3 & Hq & H).
  apply api_ok_inv in Hq as (c1 & Hq & ->).
  apply calculate_buy_quantity_ok_inv in Hq as (quote_q & Hquote_q & Hnz & ->).
  apply bind_ok_inv in H as (quote_e & w4 & Hp & H).
  apply api_ok_inv in Hp as (c2 & Hquote_e & ->).
  apply bind_ok_inv in H as (order & w5 & Ho & H).
  apply api_ok_inv in Ho as (c3 & Horder & ->).
  cbn in Hquote_e, Horder.
  rewrite Hapi2 in Hquote_q.
  exists w1, quote_q, c1, quote_e, c2, order, c3.
  fold symbol in Hquote_q, Hquote_e, Horder, Hex |- *.
  fold trade_amount in Hquote_q, Horder |- *.
  split; [done|]. split; [done|]. split; [done|]. split; [done|]. split; [done|].
  cbn zeta. split; [done|].
  cbv [mbind M_bind mret M_ret store store_ modify record_trade logger
       save_trading_order save_position update_trading_order] in H.
  cbn [data_store now binance_api risk_manager log set_data_store set_binance_api
       set_risk_manager set_log set_orders set_positions orders positions fst snd] in H.
  injection H as <- <-.
  cbn [data_store now binance_api risk_manager log set_data_store set_binance_api
       set_risk_manager set_log set_orders set_positions orders positions fst snd
       ex_order ex_position_id ex_order_id].
  rewrite Hds2, Hnow2, Hnow1, Hrm2.
  repeat split; try done.
  rewrite update_first_app_miss; [done| |by apply bool_decide_eq_true].
  apply Forall_forall. intros o Ho. apply bool_decide_eq_false.
  assert (ord_id o < _generate_id (map ord_id (orders (data_store w))))%Z; [|lia].
  apply generate_id_fresh, list_elem_of_fmap. eauto.
Qed.

End Buy.



(** The quotient is the quotient of floats.  At a quote of
    45558.08656036446 the exact quotient of 10 is just above 0.0002195 and
    the float quotient just below it, and 0.1125 / 45000 is 0.0000025
    exactly while the float quotient is above it: the quantity is rounded
    from the float. *)
Lemma buy_quantity_next_to_a_tie :
  (calculate_buy_quantity "BTCUSDT" 10 (Samples.mock_quoting 45558.08656036446)).1
    = Ok (py_round (float_div 10 45558.08656036446) 6) ∧
  (py_round (float_div 10 45558.08656036446) 6 == 0.000219)%Q ∧
  (py_round (10 / 45558.08656036446) 6 == 0.00022)%Q ∧
  (py_round (float_div 0.1125 45000) 6 == 0.000003)%Q ∧
  (py_round (0.1125 / 45000) 6 == 0.000002)%Q.
Proof. repeat split; vm_compute; reflexivity. Qed.

(** The buy quantity is not computed from the price that becomes the entry
    price.  The mock draws a fresh variation at every quote: with +1% on the
    first and -1% on the second, the quantity comes from 45450 and the entry
    price is 44550. *)
Lemma C8_counterexample :
  ∃ ex p,
    (_execute_buy default_config (Samples.buy_signal "BTCUSDT") Samples.drifting_world).1
      = Ok (Some ex) ∧
    positions (data_store
      (_execute_buy default_config (Samples.buy_signal "BTCUSDT") Samples.drifting_world).2)
      = [p] ∧
    (pos_quantity p == 0.00022)%Q ∧
    (py_round (float_div 10 (pos_entry_price p)) 6 == 0.000224)%Q ∧
    ¬ (pos_quantity p == py_round (float_div 10 (pos_entry_price p)) 6)%Q.
Proof.
  eexists _, _. split; [vm_compute; reflexivity|].
  split; [vm_compute; reflexivity|].
  split; [reflexivity|]. split; [vm_compute; reflexivity|].
  vm_compute. discriminate.
Qed.

(** C8, amended.  In a buy that goes through, the quantity submitted to the
    client and written to the order and to the position is the trade amount
    divided, as floats are, by the price [calculate_buy_quantity] fetched
    for itself, and rounded as [round] rounds a float to 6 decimal places
    when the symbol contains BTC, else to 5 when it contains ETH, else to 4.
    The entry price is a second quote, fetched afterwards; when the two
    quotes agree, the quantity is the trade amount over the entry price,
    rounded. *)
Theorem C8_buy_quantity_from_its_own_quote
    {C : Type} `{!BinanceClient C}
    (config : TradingConfig) (signal : TradingSignal) (w w' : World C) (ex : Execution) :
  _execute_buy config signal w = (Ok (Some ex), w') →
  let symbol := sig_symbol signal in
  let trade_amount :=
    default (trade_amount_usdt config) (trade_amounts config !! symbol) in
  let places :=
    if PyStr.contains "BTC" symbol then 6
    else if PyStr.contains "ETH" symbol then 5 else 4 in
  ∃ w1 quote_q c1 quote_e c2 c3 p o,
    check_trade_limits config trade_amount w = (Ok true, w1) ∧
    get_price symbol (binance_api w1) = (Ok quote_q, c1) ∧
    get_price symbol c1 = (Ok quote_e, c2) ∧
    create_market_buy_order symbol (py_round (float_div trade_amount quote_q) places) c2
      = (Ok (ex_order ex), c3) ∧
    positions (data_store w') = positions (data_store w) ++ [p] ∧
    orders (data_store w') = orders (data_store w) ++ [o] ∧
    pos_quantity p = py_round (float_div trade_amount quote_q) places ∧
    ord_quantity o = py_round (float_div trade_amount quote_q) places ∧
    pos_entry_price p = quote_e ∧
    (quote_q = quote_e →
     pos_quantity p = py_round (float_div trade_amount (pos_entry_price p)) places).
Proof.
  intros H symbol trade_amount places.
  destruct (execute_buy_success config signal w ex w' H)
    as (w1 & qq & c1 & qe & c2 & order & c3 & Hcheck & _ & Hqq & _ & Hqe & Horder
        & Hex & _ & Hpos & _ & Hord & _).
  exists w1, qq, c1, qe, c2, c3. eexists _, _.
  split; [exact Hcheck|]. split; [exact Hqq|]. split; [exact Hqe|].
  split; [rewrite Hex; exact Horder|].
  split; [exact Hpos|]. split; [exact Hord|].
  cbn. split; [done|]. split; [done|]. split; [done|]. by intros ->.
Qed.

(** C8, amended, on scenario A: both quotes are 45000 and the quantity is
    10 / 45000 to six places. *)
Lemma C8_buy_quantity_from_its_own_quote_witness :
  ∃ p,
    positions (data_store Samples.scenario_A.2) = [p] ∧
    (pos_quantity p == 0.000222)%Q.
Proof.
  destruct (C8_buy_quantity_from_its_own_quote default_config
              (Samples.buy_signal "BTCUSDT") Samples.empty_world Samples.scenario_A.2
              Samples.scenario_A_execution)
    as (w1 & qq & c1 & qe & c2 & c3 & p & o & _ & _ & _ & _ & Hpos & _).
  - vm_compute. reflexivity.
  - exists p. split; [exact Hpos|].
    vm_compute in Hpos. injection Hpos as <-. reflexivity.
Defined.

(** ** Closing a position *)

Section Sell.
Context {C : Type} `{!BinanceClient C}.

(** What a manual sell that went through did, call by call. *)
Lemma execute_sell_success signal (w : World C) ex w' :
  _execute_sell signal w = (Ok (Some ex), w') →
  ∃ position quote c1 order c2,
    List.find (λ pos, bool_decide (pos_symbol pos = sig_symbol signal))
              (get_open_positions (data_store w)) = Some position ∧
    get_price (sig_symbol signal) (binance_api w) = (Ok quote, c1) ∧
    create_market_sell_order (sig_symbol signal) (pos_quantity position) c1
      = (Ok order, c2) ∧
    ex_order ex = order ∧
    ex_position_id ex = pos_id position ∧
    ex_pnl ex = Some ((quote - pos_entry_price position) * pos_quantity position)%Q ∧
    positions (data_store w') =
      update_first (λ p, bool_decide (pos_id p = pos_id position))
        (apply_updates
           {| u_status := Some Closed;
              u_current_price := Some quote;
              u_unrealized_pnl := None;
              u_realized_pnl :=
                Some ((quote - pos_entry_price position) * pos_quantity position)%Q;
              u_exit_order_id := Some (ex_order_id ex);
              u_is_monitoring := Some false;
              u_stop_loss_price := None |} (now w))
        (positions (data_store w)) ∧
    risk_manager w' =
      (record_trade ((quote - pos_entry_price position) * pos_quantity position)%Q w).2.(risk_manager).
Proof.
  intros H.
  apply try_except_ok_inv in H; [|done].
  apply bind_ok_inv in H as (w0 & ? & [= <- <-] & H).
  destruct (List.find _ _) as [position|] eqn:Hfind; [|discriminate].
  apply bind_ok_inv in H as (quote & w1 & Hq & H).
  apply api_ok_inv in Hq as (c1 & Hquote & ->).
  apply bind_ok_inv in H as (order & w2 & Ho & H).
  apply api_ok_inv in Ho as (c2 & Horder & ->).
  cbn in Horder.
  exists position, quote, c1, order, c2.
  split; [done|]. split; [done|]. split; [done|].
  cbv [mbind M_bind mret M_ret store store_ modify record_trade logger
       save_trading_order update_position] in H |- *.
  cbn [data_store now binance_api risk_manager log set_data_store set_binance_api
       set_risk_manager set_log set_orders set_positions orders positions fst snd] in H |- *.
  injection H as <- <-.
  cbn [data_store now binance_api risk_manager log set_data_store set_binance_api
       set_risk_manager set_log set_orders set_positions orders positions fst snd
       ex_order ex_position_id ex_order_id ex_pnl].
  done.
Qed.

(** What a stop-loss execution that went through did. *)
Lemma execute_stop_loss_success current_price (w : World C) m w' m' :
  _execute_stop_loss current_price (w, m) = (Ok tt, (w', m')) →
  ∃ order c1,
    create_market_sell_order (mon_symbol m) (mon_quantity m) (binance_api w)
      = (Ok order, c1) ∧
    m' = m ∧
    binance_api w' = c1 ∧
    risk_manager w' = risk_manager w ∧
    positions (data_store w') =
      update_first (λ p, bool_decide (pos_id p = mon_position_id m))
        (apply_updates
           {| u_status := Some Stopped;
              u_current_price := Some (o_price order);
              u_unrealized_pnl := None;
              u_realized_pnl :=
                Some ((o_price order - mon_entry_price m) * mon_quantity m)%Q;
              u_exit_order_id := Some (_generate_id (map ord_id (orders (data_store w))));
              u_is_monitoring := Some false;
              u_stop_loss_price := None |} (now w))
        (positions (data_store w)).
Proof.
  intros H.
  apply try_except_ok_inv in H; [|done].
  apply bind_ok_inv in H as ([] & st0 & [= <-] & H).
  apply bind_ok_inv in H as (m0 & st1 & [= <- <-] & H).
  cbn [snd] in H.
  apply bind_ok_inv in H as (order & st2 & Ho & H).
  unfold world, zoom in Ho. cbn [fst snd] in Ho.
  destruct (api _ _) as [r w1] eqn:Hapi in Ho. injection Ho as -> <-.
  apply api_ok_inv in Hapi as (c1 & Horder & ->).
  cbn in Horder.
  exists order, c1. split; [done|].
  cbv [mbind M_bind mret M_ret store store_ modify logger world zoom
       save_trading_order update_position] in H.
  cbn [data_store now binance_api risk_manager log set_data_store set_binance_api
       set_risk_manager set_log set_orders set_positions orders positions fst snd] in H.
  injection H as <- <-.
  done.
Qed.

End Sell.

(** C3 at its failing inputs.  On the manual path the quote is 45450 and the
    order executes at 44550: the position and the risk manager are given
    (45450 - 45000) * 0.000222, a gain of 0.0999, where the execution price
    gives a loss of 0.0999, and the day's loss stays 0.  On the stop-loss
    path the order executes at 44100 and the position is given
    (44100 - 45000) * 0.000222, from the execution price, but the risk
    manager is not told: its counters are what they were. *)
Theorem C3_close_paths_at_failing_inputs :
  (∃ ex p o,
     _execute_sell (Samples.sell_signal "BTCUSDT") Samples.selling_world
       = (Ok (Some ex), (_execute_sell (Samples.sell_signal "BTCUSDT") Samples.selling_world).2) ∧
     positions (data_store (_execute_sell (Samples.sell_signal "BTCUSDT")
                              Samples.selling_world).2) = [p] ∧
     orders (data_store (_execute_sell (Samples.sell_signal "BTCUSDT")
                           Samples.selling_world).2) = [o] ∧
     pos_status p = Closed ∧
     (ord_price o == 45450)%Q ∧
     (ord_executed_price o == 44550)%Q ∧
     (∃ pnl, pos_realized_pnl p = Some pnl ∧ ex_pnl ex = Some pnl ∧
             (pnl == (ord_price o - pos_entry_price p) * pos_quantity p)%Q ∧
             (pnl == 0.0999)%Q ∧
             ((ord_executed_price o - pos_entry_price p) * pos_quantity p == - 0.0999)%Q ∧
             ¬ (pnl == (ord_executed_price o - pos_entry_price p) * pos_quantity p)%Q) ∧
     (daily_loss (risk_manager (_execute_sell (Samples.sell_signal "BTCUSDT")
                                  Samples.selling_world).2) == 0)%Q) ∧
  (∃ p o st,
     _execute_stop_loss 44100 (Samples.falling_world, Samples.btc_monitor) = (Ok tt, st) ∧
     positions (data_store st.1) = [p] ∧
     orders (data_store st.1) = [o] ∧
     pos_status p = Stopped ∧
     (ord_executed_price o == 44100)%Q ∧
     (∃ pnl, pos_realized_pnl p = Some pnl ∧
             (pnl == (ord_executed_price o - pos_entry_price p) * pos_quantity p)%Q ∧
             (pnl == - 0.1998)%Q) ∧
     risk_manager st.1 = risk_manager Samples.falling_world).
Proof.
  split.
  - eexists _, _, _. split; [vm_compute; reflexivity|].
    split; [vm_compute; reflexivity|]. split; [vm_compute; reflexivity|].
    split; [reflexivity|]. split; [reflexivity|]. split; [reflexivity|].
    split; [|reflexivity].
    eexists. split; [reflexivity|]. split; [reflexivity|].
    split; [reflexivity|]. split; [reflexivity|]. split; [reflexivity|].
    discriminate.
  - eexists _, _, _. split; [vm_compute; reflexivity|].
    split; [reflexivity|]. split; [reflexivity|].
    split; [reflexivity|]. split; [reflexivity|].
    split; [|reflexivity].
    eexists. split; [reflexivity|]. split; reflexivity.
Qed.

(** The manual path books the quote, whatever the order executed at. *)
Lemma execute_sell_books_the_quote
    {C : Type} `{!BinanceClient C}
    (signal : TradingSignal) (w w' : World C) (ex : Execution) :
  _execute_sell signal w = (Ok (Some ex), w') →
  ∃ position quote c1,
    position ∈ get_open_positions (data_store w) ∧
    get_price (sig_symbol signal) (binance_api w) = (Ok quote, c1) ∧
    ex_pnl ex = Some ((quote - pos_entry_price position) * pos_quantity position)%Q.
Proof.
  intros H.
  destruct (execute_sell_success signal w ex w' H)
    as (position & quote & c1 & order & c2 & Hfind & Hq & _ & _ & _ & Hpnl & _).
  exists position, quote, c1. split; [|done].
  apply list_elem_of_In. by apply find_some in Hfind as [? _].
Qed.

(** ** The trading summary *)

(** C7, as the code has it.  The dictionary [get_trading_summary] returns
    has six keys, not seven: the display writes the open-position count under
    [open_positions] and then the list of open positions under the same key,
    so the list is what the key holds and the count is under no key; the only
    integer entry is [total_trades]. *)
Theorem C7_summary_has_no_open_positions_count
    {C : Type} `{!BinanceClient C} (config : TradingConfig) (w : World C) :
  ∃ summary w',
    get_trading_summary config w = (Ok summary, w') ∧
    dom summary =
      ({["total_trades"; "open_positions"; "total_pnl"; "balances";
         "recent_orders"; "risk_stats"]} : gset string) ∧
    summary !! "open_positions"
      = Some (VPositions (get_open_positions (data_store w))) ∧
    summary !! "total_trades"
      = Some (VInt (Z.of_nat (length (get_trading_orders 50 (data_store w))))) ∧
    (∀ k n, summary !! k = Some (VInt n) → k = "total_trades").
Proof.
  unfold get_trading_summary, try_except, mbind, M_bind, get_state, mret, M_ret.
  destruct (api get_account_info w) as [[account_info|e] w1]; cbn beta iota zeta.
  1: generalize (dict_display account_info); intros balances.
  all: eexists _, _; split; [reflexivity|].
  all: unfold dict_display; cbn [foldl fst snd].
  all: split; [rewrite !dom_insert_L, dom_empty_L; set_solver|].
  all: split; [done|]; split; [done|].
  all: intros k n Hk;
    repeat (apply lookup_insert_Some in Hk as [[<- Hk]|[? Hk]];
            [done || discriminate || congruence|]);
    by rewrite lookup_empty in Hk.
Qed.

(** ** Adjusting a stop-loss *)

Lemma find_update_first {A} (hit : A → bool) (f : A → A) (l : list A) :
  (∀ x, hit (f x) = hit x) →
  List.find hit (update_first hit f l) = f <$> List.find hit l.
Proof.
  intros Hf. induction l as [|x l IH]; cbn; [done|].
  destruct (hit x) eqn:Hx; cbn.
  - by rewrite Hf, Hx.
  - by rewrite Hx, IH.
Qed.

Lemma position_by_id_update id updates t ds :
  position_by_id id (update_position id updates t ds)
  = apply_updates updates t <$> position_by_id id ds.
Proof.
  unfold position_by_id, update_position. cbn. by apply find_update_first.
Qed.

(** The call looks the id up in the registry and does not ask whether the
    monitor it finds is live.  The monitor of position 1, closed by hand,
    has left its loop and cleared its running flag; until the next pass of
    the management loop it is still registered, and the call writes the new
    threshold to it and to the file and logs an update. *)
Lemma C9_counterexample :
  ∃ w m w' manager',
    _monitor_loop 1 (Samples.raced_world, Samples.btc_monitor) = (Ok true, (w, m)) ∧
    ¬ live m ∧
    (∀ id m', ({[1%Z := m]} : gmap Z PositionMonitor) !! id = Some m' → ¬ live m') ∧
    update_stop_loss 1 43000 (w, {| monitors := {[1%Z := m]}; running := true |})
      = (Ok tt, (w', manager')) ∧
    (pos_stop_loss_price <$> position_by_id 1 (data_store w)) = Some 44800%Q ∧
    (pos_stop_loss_price <$> position_by_id 1 (data_store w')) = Some 43000%Q ∧
    data_store w' ≠ data_store w ∧
    last (log w') = Some (INFO, "Updated stop-loss for position").
Proof.
  eexists _, _, _, _. split; [reflexivity|].
  assert (Hdead : ¬ live (set_running false Samples.btc_monitor)) by (intros H; discriminate H).
  split; [exact Hdead|]. split.
  { intros id m' Hm'. apply lookup_singleton_Some in Hm' as [_ <-]. exact Hdead. }
  split.
  { unfold update_stop_loss, try_except.
    rewrite bind_run. unfold get_state at 1. cbn beta iota. cbn [snd monitors].
    rewrite lookup_singleton_eq. reflexivity. }
  split; [reflexivity|]. split; [reflexivity|]. split; [|reflexivity].
  intros Heq. apply (f_equal (λ ds, pos_stop_loss_price <$> position_by_id 1 ds)) in Heq.
  vm_compute in Heq. discriminate Heq.
Qed.

(** C9, amended.  [update_stop_loss] with a monitor registered under the
    id, live or not, sets the monitor's threshold to the new price, leaves
    the other monitors alone, and sets the persisted [stop_loss_price] of
    the position with that id to the new price.  With no monitor registered
    under the id it logs the warning that there is none, returns without
    raising, and leaves the store, the monitors and everything but the log
    as they were. *)
Theorem C9_update_stop_loss
    {C : Type} `{!BinanceClient C}
    (w : World C) (manager : StopLossManager) (position_id : Z) (new_price : Q) :
  ∃ w' manager',
    update_stop_loss position_id new_price (w, manager) = (Ok tt, (w', manager')) ∧
    match monitors manager !! position_id with
    | Some monitor =>
        monitors manager' = <[position_id := set_stop_loss_price new_price monitor]>
                              (monitors manager) ∧
        (mon_stop_loss_price <$> monitors manager' !! position_id) = Some new_price ∧
        (pos_stop_loss_price <$> position_by_id position_id (data_store w'))
          = ((λ _, new_price) <$> position_by_id position_id (data_store w)) ∧
        data_store w' =
          update_position position_id
            {| u_status := None; u_current_price := None; u_unrealized_pnl := None;
               u_realized_pnl := None; u_exit_order_id := None;
               u_is_monitoring := None; u_stop_loss_price := Some new_price |}
            (now w) (data_store w)
    | None =>
        manager' = manager ∧
        data_store w' = data_store w ∧
        binance_api w' = binance_api w ∧
        risk_manager w' = risk_manager w ∧
        log w' = log w ++ [(WARNING, "No monitor found for position")]
    end.
Proof.
  unfold update_stop_loss, try_except.
  rewrite bind_run. unfold get_state at 1. cbn beta iota. cbn [snd].
  destruct (monitors manager !! position_id) as [monitor|] eqn:Hmon.
  - eexists _, _. split; [reflexivity|].
    cbn [fst snd monitors data_store set_data_store set_log].
    split; [done|]. split; [by rewrite lookup_insert_eq|]. split; [|done].
    rewrite position_by_id_update.
    by destruct (position_by_id position_id (data_store w)).
  - eexists _, _. split; [reflexivity|]. cbn. by destruct manager.
Qed.

(** ** The monitor loop *)

(** A stop-loss execution whose sell order is refused raises. *)
Lemma execute_stop_loss_refused
    {C : Type} `{!BinanceClient C}
    (w : World C) (m : PositionMonitor) (current_price : Q) (e : exn) (c1 : C) :
  create_market_sell_order (mon_symbol m) (mon_quantity m) (binance_api w) = (Raise e, c1) →
  _execute_stop_loss current_price (w, m) =
    (Raise StopLossError,
     (set_log (log w ++ [(INFO, "Executing stop-loss for position");
                         (ERROR, "Error executing stop-loss for position")])
              (set_binance_api c1 w), m)).
Proof.
  intros Horder.
  unfold _execute_stop_loss, try_except.
  cbv [mbind M_bind mret M_ret world zoom logger modify self get_state api raise].
  cbn [fst snd binance_api set_log]. rewrite Horder.
  cbn [fst snd binance_api set_log set_binance_api log data_store risk_manager now].
  by rewrite <- app_assoc.
Qed.

(** C4, amended.  When the price is at or below the threshold and the sell
    order of the stop-loss is refused, the stop-loss execution raises, and
    the iteration of the monitor loop catches the error: it logs it, sleeps
    for the check interval and ends normally.  The monitor is still running,
    no status has changed, and the loop goes on with the next iteration. *)
Theorem C4_failed_stop_loss_keeps_polling
    {C : Type} `{!BinanceClient C}
    (w : World C) (m : PositionMonitor) (position : Position)
    (price : Q) (c1 c2 : C) (e : exn) :
  mon_running m = true →
  List.find (λ p, bool_decide (pos_id p = mon_position_id m))
            (get_all_positions 1000 (data_store w)) = Some position →
  pos_status position = Open →
  get_price (mon_symbol m) (binance_api w) = (Ok price, c1) →
  (price <= mon_stop_loss_price m)%Q →
  create_market_sell_order (mon_symbol m) (mon_quantity m) c1 = (Raise e, c2) →
  let polled :=
    {| data_store :=
         update_position (mon_position_id m)
           {| u_status := None;
              u_current_price := Some price;
              u_unrealized_pnl := Some ((price - mon_entry_price m) * mon_quantity m)%Q;
              u_realized_pnl := None; u_exit_order_id := None;
              u_is_monitoring := None; u_stop_loss_price := None |}
           (now w) (data_store w);
       binance_api := c1;
       risk_manager := risk_manager w;
       log := log w ++ [(WARNING, "Stop-loss triggered")];
       now := now w |} in
  let after :=
    {| data_store := data_store polled;
       binance_api := c2;
       risk_manager := risk_manager w;
       log := log w ++ [(WARNING, "Stop-loss triggered");
                        (INFO, "Executing stop-loss for position");
                        (ERROR, "Error executing stop-loss for position");
                        (ERROR, "Error in position monitor")];
       now := (now w + mon_check_interval m)%Z |} in
  (_execute_stop_loss price (polled, m)).1 = Raise StopLossError ∧
  monitor_iteration (w, m) = (Ok Continue, (after, m)) ∧
  (∀ fuel, _monitor_loop (S fuel) (w, m) = _monitor_loop fuel (after, m)) ∧
  map pos_status (positions (data_store after)) = map pos_status (positions (data_store w)).
Proof.
  intros Hrun Hfind Hopen Hprice Hle Horder polled after.
  assert (Hstop : _execute_stop_loss price (polled, m) =
            (Raise StopLossError,
             (set_log (log polled ++ [(INFO, "Executing stop-loss for position");
                                      (ERROR, "Error executing stop-loss for position")])
                      (set_binance_api c2 polled), m))).
  { apply (execute_stop_loss_refused polled m price e c2). exact Horder. }
  assert (Hiter : monitor_iteration (w, m) = (Ok Continue, (after, m))).
  { unfold monitor_iteration, try_except.
    rewrite bind_run.
    unfold _get_current_position at 1. rewrite bind_run. unfold get_state at 1.
    cbn beta iota. cbn [fst snd]. rewrite Hfind. cbn [mret M_ret].
    rewrite Hopen. rewrite bool_decide_eq_false_2 by (intros Hne; by apply Hne).
    rewrite bind_run. unfold self at 1. rewrite bind_run. unfold get_state at 1.
    cbn beta iota. cbn [fst snd mret M_ret].
    rewrite bind_run. unfold world at 1, zoom at 1, api at 1, zoom at 1.
    cbn [fst snd]. rewrite Hprice. cbn beta iota.
    apply Qle_bool_iff in Hle. rewrite Hle.
    rewrite bind_run.
    unfold world at 1, zoom at 1, store_ at 1, modify at 1. cbn beta iota. cbn [fst snd].
    rewrite bind_run.
    unfold world at 1, zoom at 1, logger at 1, modify at 1. cbn beta iota. cbn [fst snd].
    rewrite bind_run.
    cbn [data_store now binance_api risk_manager log set_data_store set_binance_api
         set_risk_manager set_log].
    fold polled. change positions with positions.
    match goal with
    | |- context [_execute_stop_loss price ?st] => change st with (polled, m)
    end.
    rewrite Hstop. cbn beta iota.
    cbv [mbind M_bind mret M_ret world zoom logger modify self get_state sleep].
    cbn [fst snd data_store now binance_api risk_manager log set_data_store
         set_binance_api set_risk_manager set_log set_now polled].
    unfold after. cbn [data_store polled].
    by rewrite <- !app_assoc. }
  split; [by rewrite Hstop|]. split; [exact Hiter|]. split.
  - intros fuel. cbn [_monitor_loop].
    rewrite bind_run. unfold self at 1. rewrite bind_run. unfold get_state at 1.
    cbn beta iota. cbn [fst snd mret M_ret]. rewrite Hrun.
    rewrite bind_run, Hiter. reflexivity.
  - unfold after, polled, update_position. cbn [data_store positions set_positions].
    generalize (positions (data_store w)). intros l.
    induction l as [|p l IH]; cbn; [done|].
    destruct (bool_decide (pos_id p = mon_position_id m)); cbn; by rewrite ?IH.
Qed.

(** C4, amended, after a restart: the position is open in the file, the new
    mock client holds no BTC, the price is 44100 under a threshold of 44800.
    The sell order is refused and the iteration ends with [Continue]. *)
Lemma C4_failed_stop_loss_keeps_polling_witness :
  (monitor_iteration (Samples.restarted_world, Samples.btc_monitor)).1 = Ok Continue ∧
  ∀ fuel,
    _monitor_loop (S fuel) (Samples.restarted_world, Samples.btc_monitor)
    = _monitor_loop fuel (monitor_iteration (Samples.restarted_world, Samples.btc_monitor)).2.
Proof.
  destruct (C4_failed_stop_loss_keeps_polling
              Samples.restarted_world Samples.btc_monitor Samples.guarded_position
              (45000 * (1 + - 0.02))%Q
              (get_price "BTCUSDT" (binance_api Samples.restarted_world)).2
              (create_market_sell_order "BTCUSDT" 0.000222
                 (get_price "BTCUSDT" (binance_api Samples.restarted_world)).2).2
              BinanceAPIError)
    as (_ & Hiter & Hloop & _).
  - reflexivity.
  - vm_compute. reflexivity.
  - reflexivity.
  - vm_compute. reflexivity.
  - vm_compute. discriminate.
  - vm_compute. reflexivity.
  - split.
    + by rewrite Hiter.
    + intros fuel. rewrite Hloop. by rewrite Hiter.
Defined.

(** After the stop-loss has failed the loop does poll again.  In the
    restarted process three iterations make three close attempts, six draws
    of the price (one for each quote, one inside each order), thirty seconds
    of sleep, and leave the monitor running with the loop not left. *)
Lemma C4_counterexample :
  (_execute_stop_loss 44100 (Samples.restarted_world, Samples.btc_monitor)).1
    = Raise StopLossError ∧
  (_monitor_loop 3 (Samples.restarted_world, Samples.btc_monitor)).1 = Ok false ∧
  mon_running (_monitor_loop 3 (Samples.restarted_world, Samples.btc_monitor)).2.2 = true ∧
  length (filter (λ r, r = (INFO, "Executing stop-loss for position"))
                 (log (_monitor_loop 3 (Samples.restarted_world, Samples.btc_monitor)).2.1))
    = 3 ∧
  draws (binance_api (_monitor_loop 3 (Samples.restarted_world, Samples.btc_monitor)).2.1)
    = 6 ∧
  now (_monitor_loop 3 (Samples.restarted_world, Samples.btc_monitor)).2.1 = 30%Z.
Proof. vm_compute. repeat split. Qed.

(** ** The status of a position *)

Lemma api_run {C A} (m : M C A) (w : World C) :
  api m w = ((m (binance_api w)).1, set_binance_api (m (binance_api w)).2 w).
Proof. unfold api, zoom. by destruct (m (binance_api w)). Qed.

Section PositionFile.

Implicit Types (l : list Position) (u : PositionUpdates).

(** An update by id, seen from an index of the file. *)
Lemma update_by_id_lookup id u t l i p :
  l !! i = Some p →
  ∃ p', update_first (λ q, bool_decide (pos_id q = id)) (apply_updates u t) l !! i = Some p' ∧
        pos_id p' = pos_id p ∧
        (p' = p ∨ (pos_id p = id ∧ p' = apply_updates u t p)).
Proof.
  revert i. induction l as [|x l IH]; intros i; [done|].
  cbn [update_first]. case_bool_decide as Hx.
  - destruct i as [|i]; cbn; intros [= <-] || intros Hp; eauto 10.
  - destruct i as [|i]; cbn; [intros [= <-]; eauto|]. apply IH.
Qed.

Lemma update_by_id_ids id u t l :
  map pos_id (update_first (λ q, bool_decide (pos_id q = id)) (apply_updates u t) l)
  = map pos_id l.
Proof.
  induction l as [|x l IH]; cbn; [done|].
  case_bool_decide; cbn; by rewrite ?IH.
Qed.

Lemma update_by_id_statuses id u t l :
  u_status u = None →
  map pos_status (update_first (λ q, bool_decide (pos_id q = id)) (apply_updates u t) l)
  = map pos_status l.
Proof.
  intros Hu. induction l as [|x l IH]; cbn; [done|].
  case_bool_decide; cbn; rewrite ?IH, ?Hu; done.
Qed.

(** With unique ids, the record an id leads to is the only one with it. *)
Lemma unique_id l p q :
  NoDup (map pos_id l) → p ∈ l → q ∈ l → pos_id p = pos_id q → p = q.
Proof.
  intros Hnd Hp Hq Hid.
  apply list_elem_of_lookup in Hp as [i Hi].
  apply list_elem_of_lookup in Hq as [j Hj].
  assert (i = j) as ->; [|congruence].
  eapply NoDup_lookup; [exact Hnd| |].
  - rewrite list_lookup_fmap, Hi. reflexivity.
  - rewrite list_lookup_fmap, Hj. cbn. by rewrite Hid.
Qed.

Lemma sorted_desc_elem {A} (key : A → Z) (l : list A) (x : A) :
  x ∈ sorted_desc key l → x ∈ l.
Proof.
  assert (Hins : ∀ y s, x ∈ insert_desc key y s → x = y ∨ x ∈ s).
  { intros y s. induction s as [|z s IH]; cbn.
    - intros H. apply list_elem_of_singleton in H. by left.
    - destruct (key y <? key z)%Z.
      + intros H. apply elem_of_cons in H as [->|H].
        * right. by left.
        * destruct (IH H) as [->|?]; [by left|]. right. by right.
      + intros H. apply elem_of_cons in H as [->|H]; [by left | by right]. }
  induction l as [|y l IH]; cbn; [done|].
  intros H. apply Hins in H as [->|H]; [by left|]. right. by apply IH.
Qed.

Lemma get_all_positions_elem limit ds p :
  p ∈ get_all_positions limit ds → p ∈ positions ds.
Proof.
  unfold get_all_positions. intros H.
  apply (sorted_desc_elem pos_opened_at).
  apply elem_of_take in H as (i & Hi & _). by eapply list_elem_of_lookup_2.
Qed.

End PositionFile.

Section Writes.
Context {C : Type} `{!BinanceClient C} (config : TradingConfig).

Abbreviation by_id id := (λ q : Position, bool_decide (pos_id q = id)).

Ltac unfold_monad :=
  cbv [mbind M_bind mret M_ret store store_ modify logger raise get_state
       world zoom self in_world set_monitors sleep set_self];
  cbn [data_store now binance_api risk_manager log set_data_store set_binance_api
       set_risk_manager set_log set_now set_orders set_positions orders positions
       fst snd].

(** A buy leaves the file as it was or appends one position under a new
    id. *)
Lemma execute_buy_positions signal (w : World C) :
  positions (data_store (_execute_buy config signal w).2) = positions (data_store w) ∨
  ∃ p, positions (data_store (_execute_buy config signal w).2)
         = positions (data_store w) ++ [p] ∧
       pos_id p = _generate_id (map pos_id (positions (data_store w))).
Proof.
  unfold _execute_buy, try_except. rewrite bind_run.
  destruct (check_trade_limits _ _ w) as [[allowed|e] w1] eqn:Hcheck;
    apply check_trade_limits_frame in Hcheck as [Hds1 _].
  2:{ left. unfold_monad. by rewrite Hds1. }
  destruct allowed; cbn [negb].
  2:{ left. unfold_monad. by rewrite Hds1. }
  rewrite bind_run.
  destruct (can_open_position _ w1) as [r w2] eqn:Hcan.
  apply can_open_position_inv in Hcan as (Hds2 & _ & _ & _ & ->).
  rewrite Hds1 in Hds2.
  destruct (negb (existsb _ _)); cbn [negb].
  2:{ left. unfold_monad. by rewrite Hds2. }
  rewrite bind_run, api_run.
  destruct (calculate_buy_quantity _ _ _) as [[quantity|e] c1].
  2:{ left. unfold_monad. by rewrite Hds2. }
  cbn [fst snd]. rewrite bind_run, api_run. cbn [binance_api set_binance_api].
  destruct (get_price _ c1) as [[quote|e] c2].
  2:{ left. unfold_monad. by rewrite Hds2. }
  cbn [fst snd]. rewrite bind_run, api_run. cbn [binance_api set_binance_api].
  destruct (create_market_buy_order _ _ c2) as [[order|e] c3].
  2:{ left. unfold_monad. by rewrite Hds2. }
  right. cbn [fst snd].
  cbv [mbind M_bind mret M_ret store store_ modify record_trade logger
       save_trading_order save_position update_trading_order].
  cbn [data_store now binance_api risk_manager log set_data_store set_binance_api
       set_risk_manager set_log set_orders set_positions orders positions fst snd].
  rewrite Hds2. eexists. split; [reflexivity|]. done.
Qed.

(** A manual sell leaves the file as it was or closes, by its id, a
    position it found open. *)
Lemma execute_sell_positions signal (w : World C) r w' :
  _execute_sell signal w = (r, w') →
  positions (data_store w') = positions (data_store w) ∨
  ∃ position u,
    position ∈ positions (data_store w) ∧ pos_status position = Open ∧
    u_status u = Some Closed ∧
    positions (data_store w')
      = update_first (by_id (pos_id position)) (apply_updates u (now w))
                     (positions (data_store w)).
Proof.
  unfold _execute_sell, try_except. rewrite bind_run. unfold get_state at 1.
  cbn beta iota.
  destruct (List.find _ _) as [position|] eqn:Hfind.
  2:{ unfold_monad. intros [= <- <-]. by left. }
  apply find_some in Hfind as [Hin _].
  apply list_elem_of_In, list_elem_of_filter in Hin as [Hopen Hin].
  rewrite bind_run, api_run.
  destruct (get_price _ _) as [[quote|e] c1].
  2:{ unfold_monad. intros [= <- <-]. by left. }
  cbn [fst snd]. rewrite bind_run, api_run. cbn [binance_api set_binance_api].
  destruct (create_market_sell_order _ _ c1) as [[order|e] c2].
  2:{ unfold_monad. intros [= <- <-]. by left. }
  cbn [fst snd].
  cbv [mbind M_bind mret M_ret store store_ modify record_trade logger
       save_trading_order update_position].
  cbn [data_store now binance_api risk_manager log set_data_store set_binance_api
       set_risk_manager set_log set_orders set_positions orders positions fst snd].
  intros [= <- <-]. right.
  eexists position, _. split; [done|]. split; [done|]. split; [|reflexivity]. done.
Qed.

(** A stop-loss execution leaves the file as it was or writes [Stopped]
    under the monitor's id. *)
Lemma execute_stop_loss_positions current_price (w : World C) m r w' m' :
  _execute_stop_loss current_price (w, m) = (r, (w', m')) →
  m' = m ∧ now w' = now w ∧
  (positions (data_store w') = positions (data_store w) ∨
   ∃ u, u_status u = Some Stopped ∧
     positions (data_store w')
       = update_first (by_id (mon_position_id m)) (apply_updates u (now w))
                      (positions (data_store w))).
Proof.
  unfold _execute_stop_loss, try_except.
  cbv [mbind M_bind mret M_ret world zoom logger modify self get_state].
  cbn [fst snd]. rewrite api_run. cbn [binance_api set_log].
  destruct (create_market_sell_order _ _ _) as [[order|e] c1]; cbn [fst snd].
  2:{ unfold_monad. intros [= <- <- <-]. split; [done|]. split; [done|]. by left. }
  cbv [mbind M_bind mret M_ret store store_ modify logger
       save_trading_order update_position].
  cbn [data_store now binance_api risk_manager log set_data_store set_binance_api
       set_risk_manager set_log set_orders set_positions orders positions fst snd].
  intros [= <- <- <-]. split; [done|]. split; [done|]. right.
  eexists. split; [|reflexivity]. done.
Qed.

(** An iteration of the monitor loop leaves the file as it was, or found
    the monitored position open and wrote its price, or did that and wrote
    [Stopped] as well. *)
Lemma monitor_iteration_positions (w : World C) m r w' m' :
  monitor_iteration (w, m) = (r, (w', m')) →
  positions (data_store w') = positions (data_store w) ∨
  ∃ position u1,
    position ∈ positions (data_store w) ∧
    pos_id position = mon_position_id m ∧
    pos_status position = Open ∧
    u_status u1 = None ∧
    (positions (data_store w')
       = update_first (by_id (mon_position_id m)) (apply_updates u1 (now w))
                      (positions (data_store w)) ∨
     ∃ u2, u_status u2 = Some Stopped ∧
       positions (data_store w')
         = update_first (by_id (mon_position_id m)) (apply_updates u2 (now w))
             (update_first (by_id (mon_position_id m)) (apply_updates u1 (now w))
                           (positions (data_store w)))).
Proof.
  unfold monitor_iteration, try_except.
  rewrite bind_run. unfold _get_current_position at 1.
  rewrite bind_run. unfold get_state at 1. cbn beta iota. cbn [fst snd mret M_ret].
  destruct (List.find _ _) as [position|] eqn:Hfind.
  2:{ unfold_monad. intros [= <- <- <-]. by left. }
  case_bool_decide as Hopen.
  { unfold_monad. intros [= <- <- <-]. by left. }
  apply find_some in Hfind as [Hin Hid].
  apply list_elem_of_In, get_all_positions_elem in Hin.
  apply bool_decide_eq_true in Hid.
  rewrite bind_run. unfold self at 1. rewrite bind_run. unfold get_state at 1.
  cbn beta iota. cbn [fst snd mret M_ret].
  rewrite bind_run. unfold world at 1, zoom at 1. cbn [fst snd]. rewrite api_run.
  destruct (get_price _ _) as [[price|e] c1]; cbn [fst snd].
  2:{ unfold_monad. intros [= <- <- <-]. by left. }
  rewrite bind_run.
  unfold world at 1, zoom at 1, store_ at 1, modify at 1. cbn beta iota. cbn [fst snd].
  destruct (Qle_bool price (mon_stop_loss_price m)).
  - rewrite bind_run.
    unfold world at 1, zoom at 1, logger at 1, modify at 1. cbn beta iota. cbn [fst snd].
    rewrite bind_run.
    match goal with
    | |- context [_execute_stop_loss price ?st] =>
        destruct (_execute_stop_loss price st) as [rs [ws ms]] eqn:Hstop
    end.
    apply execute_stop_loss_positions in Hstop as (-> & Hnow & Hstop).
    cbn [data_store now binance_api risk_manager log set_data_store set_binance_api
         set_risk_manager set_log update_position set_positions positions] in Hstop, Hnow.
    assert (Hgoal :
      positions (data_store ws) = positions (data_store w) ∨
      ∃ position u1,
        position ∈ positions (data_store w) ∧
        pos_id position = mon_position_id m ∧
        pos_status position = Open ∧
        u_status u1 = None ∧
        (positions (data_store ws)
           = update_first (by_id (mon_position_id m)) (apply_updates u1 (now w))
                          (positions (data_store w)) ∨
         ∃ u2, u_status u2 = Some Stopped ∧
           positions (data_store ws)
             = update_first (by_id (mon_position_id m)) (apply_updates u2 (now w))
                 (update_first (by_id (mon_position_id m)) (apply_updates u1 (now w))
                               (positions (data_store w))))).
    { right. eexists position, _. split; [done|]. split; [done|]. split; [done|].
      split; [|destruct Hstop as [Hs|(u2 & Hu2 & Hs)];
               [left; exact Hs | right; exists u2; split; [done | exact Hs]]].
      done. }
    destruct rs as [[]|e]; unfold_monad; intros [= <- <- <-]; exact Hgoal.
  - unfold_monad.
    destruct (60 <=? now w - mon_last_price_update m)%Z; cbn [fst snd];
      intros [= <- <- <-]; right;
      (eexists position, _; split; [done|]; split; [done|]; split; [done|];
       split; [|left; reflexivity]; done).
Qed.

(** A threshold update leaves the file as it was or writes the new
    threshold, and no status, under the id. *)
Lemma update_stop_loss_positions position_id new_price (w : World C) manager r w' manager' :
  update_stop_loss position_id new_price (w, manager) = (r, (w', manager')) →
  positions (data_store w') = positions (data_store w) ∨
  ∃ u, u_status u = None ∧
    positions (data_store w')
      = update_first (by_id position_id) (apply_updates u (now w))
                     (positions (data_store w)).
Proof.
  unfold update_stop_loss, try_except.
  rewrite bind_run. unfold get_state at 1. cbn beta iota. cbn [snd].
  destruct (monitors manager !! position_id) as [monitor|].
  - unfold_monad. cbn [update_position set_positions positions].
    intros [= <- <- <-]. right. eexists. split; [|reflexivity]. done.
  - unfold_monad. intros [= <- <- <-]. by left.
Qed.

End Writes.

Section Monotone.
Context {C : Type} `{!BinanceClient C} (config : TradingConfig).

(** What an operation does to the record at an index of the file. *)
Lemma run_op_lookup op (w : World C) i p :
  positions (data_store w) !! i = Some p →
  ∃ p', positions (data_store (run_op config op w)) !! i = Some p' ∧
        pos_id p' = pos_id p ∧
        (pos_status p' = pos_status p ∨
         (pos_status p' ≠ Open ∧
          (NoDup (map pos_id (positions (data_store w))) →
           transition op (pos_status p) (pos_status p')))).
Proof.
  intros Hp.
  assert (Hin : p ∈ positions (data_store w)) by (by eapply list_elem_of_lookup_2).
  destruct op as [signal | signal | m price | m | manager id price]; cbn [run_op].
  - destruct (execute_buy_positions config signal w) as [-> | (p0 & -> & _)].
    + eauto.
    + exists p. split; [by apply lookup_app_l_Some|]. eauto.
  - destruct (_execute_sell signal w) as [r w'] eqn:Hrun; cbn [fst snd].
    apply execute_sell_positions in Hrun
      as [-> | (position & u & Hpos & Hopen & Hu & ->)]; [eauto|].
    destruct (update_by_id_lookup (pos_id position) u (now w) _ i p Hp)
      as (p' & Hp' & Hid & [-> | [Hsame ->]]); [eauto|].
    exists (apply_updates u (now w) p). split; [done|]. split; [done|].
    right. cbn. rewrite Hu. cbn. split; [done|].
    intros Hnd. rewrite (unique_id _ p position Hnd Hin Hpos Hsame). done.
  - destruct (_execute_stop_loss price (w, m)) as [r [w' m']] eqn:Hrun; cbn [fst snd].
    apply execute_stop_loss_positions in Hrun
      as (_ & _ & [-> | (u & Hu & ->)]); [eauto|].
    destruct (update_by_id_lookup (mon_position_id m) u (now w) _ i p Hp)
      as (p' & Hp' & Hid & [-> | [Hsame ->]]); [eauto|].
    exists (apply_updates u (now w) p). split; [done|]. split; [done|].
    right. cbn. rewrite Hu. cbn. done.
  - destruct (monitor_iteration (w, m)) as [r [w' m']] eqn:Hrun; cbn [fst snd].
    apply monitor_iteration_positions in Hrun
      as [-> | (position & u1 & Hpos & Hpid & Hopen & Hu1 & Hcases)]; [eauto|].
    destruct (update_by_id_lookup (mon_position_id m) u1 (now w) _ i p Hp)
      as (p1 & Hp1 & Hid1 & Hshape1).
    assert (Hst1 : pos_status p1 = pos_status p).
    { destruct Hshape1 as [-> | [_ ->]]; [done|]. cbn. by rewrite Hu1. }
    destruct Hcases as [-> | (u2 & Hu2 & ->)].
    { exists p1. eauto. }
    destruct (update_by_id_lookup (mon_position_id m) u2 (now w) _ i p1 Hp1)
      as (p' & Hp' & Hid & [-> | [Hsame ->]]).
    { exists p1. eauto. }
    exists (apply_updates u2 (now w) p1). split; [done|].
    split; [by rewrite <- Hid1|].
    right. cbn. rewrite Hu2. cbn. split; [done|].
    intros Hnd.
    assert (p = position) as ->; [|done].
    apply (unique_id _ p position Hnd Hin Hpos). congruence.
  - destruct (update_stop_loss id price (w, manager)) as [r [w' manager']] eqn:Hrun; cbn [fst snd].
    apply update_stop_loss_positions in Hrun as [-> | (u & Hu & ->)]; [eauto|].
    destruct (update_by_id_lookup id u (now w) _ i p Hp)
      as (p' & Hp' & Hid & [-> | [Hsame ->]]); [eauto|].
    exists (apply_updates u (now w) p). split; [done|]. split; [done|].
    left. cbn. by rewrite Hu.
Qed.

(** Along any sequence of operations a record stays at its index, keeps
    its id, and does not go back to [Open] once it has left it. *)
Lemma run_ops_never_reopens ops (w : World C) i p :
  positions (data_store w) !! i = Some p →
  ∃ p', positions (data_store (run_ops config ops w)) !! i = Some p' ∧
        pos_id p' = pos_id p ∧
        (pos_status p ≠ Open → pos_status p' ≠ Open).
Proof.
  revert w p. induction ops as [|op ops IH]; intros w p Hp; cbn.
  - eauto.
  - destruct (run_op_lookup op w i p Hp) as (p1 & Hp1 & Hid1 & Hst1).
    destruct (IH _ _ Hp1) as (p' & Hp' & Hid & Hst).
    exists p'. split; [done|]. split; [congruence|].
    intros Hne. apply Hst. destruct Hst1 as [-> | [? _]]; done.
Qed.

(** Unique ids stay unique. *)
Lemma run_op_ids_unique op (w : World C) :
  NoDup (map pos_id (positions (data_store w))) →
  NoDup (map pos_id (positions (data_store (run_op config op w)))).
Proof.
  intros Hnd.
  destruct op as [signal | signal | m price | m | manager id price]; cbn [run_op].
  - destruct (execute_buy_positions config signal w) as [-> | (p0 & -> & Hid)]; [done|].
    rewrite map_app. cbn. apply NoDup_app. split; [done|]. split.
    + intros x Hx Hx0. apply list_elem_of_singleton in Hx0 as ->.
      apply generate_id_fresh in Hx. lia.
    + apply NoDup_singleton.
  - destruct (_execute_sell signal w) as [r w'] eqn:Hrun; cbn [fst snd].
    apply execute_sell_positions in Hrun as [-> | (? & ? & _ & _ & _ & ->)]; [done|].
    by rewrite update_by_id_ids.
  - destruct (_execute_stop_loss price (w, m)) as [r [w' m']] eqn:Hrun; cbn [fst snd].
    apply execute_stop_loss_positions in Hrun as (_ & _ & [-> | (? & _ & ->)]); [done|].
    by rewrite update_by_id_ids.
  - destruct (monitor_iteration (w, m)) as [r [w' m']] eqn:Hrun; cbn [fst snd].
    apply monitor_iteration_positions in Hrun
      as [-> | (? & ? & _ & _ & _ & _ & [-> | (? & _ & ->)])];
      rewrite ?update_by_id_ids; done.
  - destruct (update_stop_loss id price (w, manager)) as [r [w' manager']] eqn:Hrun; cbn [fst snd].
    apply update_stop_loss_positions in Hrun as [-> | (? & _ & ->)]; [done|].
    by rewrite update_by_id_ids.
Qed.

End Monotone.

(** A call of [update_position] that no other call overlaps is the update
    the operations above make in one step. *)
Lemma unlocked_call_alone id u t ds :
  (Unlocked.step t (Unlocked.step t (Unlocked.Pending id u) ds).1
                 (Unlocked.step t (Unlocked.Pending id u) ds).2).2
  = update_position id u t ds.
Proof. reflexivity. Qed.

(** Nothing keeps a status from going back to open when two threads are in
    [update_position] at once.  The monitor of the open position 1 has
    fetched a price and its [update_position] has loaded the file; a manual
    sell closes the position with an [update_position] of its own; then the
    monitor's call edits the list it had loaded, where the position is
    still open, and saves it: the file says open again, and the update of
    the sell is lost. *)
Lemma C2_counterexample :
  pos_status <$>
    positions (Unlocked.file
      (Unlocked.run 0 [Unlocked.Monitor; Unlocked.Seller; Unlocked.Seller]
         {| Unlocked.monitor_call :=
              Unlocked.Pending 1 (price_update Samples.btc_monitor 44900);
            Unlocked.seller_call :=
              Unlocked.Pending 1 (close_update Samples.guarded_position 44900 1);
            Unlocked.file := data_store Samples.falling_world |})) !! 0%nat
    = Some Closed ∧
  pos_status <$>
    positions (Unlocked.file
      (Unlocked.run 0 [Unlocked.Monitor; Unlocked.Seller; Unlocked.Seller;
                       Unlocked.Monitor]
         {| Unlocked.monitor_call :=
              Unlocked.Pending 1 (price_update Samples.btc_monitor 44900);
            Unlocked.seller_call :=
              Unlocked.Pending 1 (close_update Samples.guarded_position 44900 1);
            Unlocked.file := data_store Samples.falling_world |})) !! 0%nat
    = Some Open.
Proof. split; reflexivity. Qed.

(** The same holds between the status check of an iteration and its
    stop-loss execution, which does not read the status it overwrites: when
    a manual sell has closed the position in between, the execution turns
    closed into stopped. *)
Lemma stop_loss_after_a_sell_overwrites_closed :
  pos_status <$> positions (data_store Samples.raced_world) !! 0%nat = Some Closed ∧
  pos_status <$>
    positions (data_store
      (run_op default_config (StopLossExecution Samples.btc_monitor 44100)
              Samples.raced_world)) !! 0%nat = Some Stopped.
Proof. split; [reflexivity|vm_compute; reflexivity]. Qed.

Section OneAtATime.
Context {C : Type} `{!BinanceClient C} (config : TradingConfig).

(** One operation that runs as a whole, on a file with unique ids: the
    status of a record stays, or goes from open to closed or stopped. *)
Lemma whole_op_transition op (w : World C) i p :
  NoDup (map pos_id (positions (data_store w))) →
  runs_whole op →
  positions (data_store w) !! i = Some p →
  ∃ p', positions (data_store (run_op config op w)) !! i = Some p' ∧
        pos_id p' = pos_id p ∧
        (pos_status p' = pos_status p ∨
         claimed_transition (pos_status p) (pos_status p')).
Proof.
  intros Hnd Hwhole Hp.
  destruct (run_op_lookup config op w i p Hp) as (p' & Hp' & Hid & Hst).
  exists p'. split; [done|]. split; [done|].
  destruct Hst as [Hsame | [_ Htr]]; [by left|].
  specialize (Htr Hnd).
  destruct op; cbn in Hwhole, Htr; try done.
  - right. destruct Htr as [-> ->]. split; [done|by left].
  - right. destruct Htr as [-> ->]. split; [done|by right].
Qed.

Lemma whole_ops_ids_unique ops (w : World C) :
  NoDup (map pos_id (positions (data_store w))) →
  NoDup (map pos_id (positions (data_store (run_ops config ops w)))).
Proof.
  revert w. induction ops as [|op ops IH]; intros w Hnd; [done|].
  cbn [run_ops foldl]. apply IH. by apply run_op_ids_unique.
Qed.

(** Along operations that run as wholes a status that is not open stays as
    it is. *)
Lemma whole_ops_keep_closed ops (w : World C) i p :
  NoDup (map pos_id (positions (data_store w))) →
  Forall runs_whole ops →
  positions (data_store w) !! i = Some p →
  ∃ p', positions (data_store (run_ops config ops w)) !! i = Some p' ∧
        pos_id p' = pos_id p ∧
        (pos_status p ≠ Open → pos_status p' = pos_status p).
Proof.
  revert w p. induction ops as [|op ops IH]; intros w p Hnd Hwhole Hp.
  - exists p. done.
  - apply Forall_cons in Hwhole as [Hop Hops].
    destruct (whole_op_transition op w i p Hnd Hop Hp) as (p1 & Hp1 & Hid1 & Hst1).
    destruct (IH (run_op config op w) p1) as (p' & Hp' & Hid & Hst);
      [by apply run_op_ids_unique|done|done|].
    exists p'. split; [exact Hp'|]. split; [congruence|].
    intros Hne.
    destruct Hst1 as [Hsame | [Hopen _]]; [|done].
    rewrite Hst; [done|]. by rewrite Hsame.
Qed.

End OneAtATime.

(** C2, amended.  While the operations of the core run one at a time
    (buy execution, sell execution, an iteration of the monitor loop with
    its status check, price update and stop-loss execution, threshold
    update), each as a whole, a position of a file with unique ids stays at
    its index and keeps its id; one operation leaves its status alone or
    takes it from open to closed or from open to stopped; and once the
    status is not open, no sequence of operations changes it again.  The
    ids stay unique, so this holds at every step of a run. *)
Theorem C2_status_transitions_one_at_a_time
    {C : Type} `{!BinanceClient C}
    (config : TradingConfig) (w : World C) (i : nat) (p : Position) :
  NoDup (map pos_id (positions (data_store w))) →
  positions (data_store w) !! i = Some p →
  (∀ op, runs_whole op → ∃ p',
     positions (data_store (run_op config op w)) !! i = Some p' ∧
     pos_id p' = pos_id p ∧
     (pos_status p' = pos_status p ∨
      claimed_transition (pos_status p) (pos_status p')) ∧
     NoDup (map pos_id (positions (data_store (run_op config op w))))) ∧
  (∀ ops, Forall runs_whole ops → ∃ p',
     positions (data_store (run_ops config ops w)) !! i = Some p' ∧
     pos_id p' = pos_id p ∧
     (pos_status p ≠ Open → pos_status p' = pos_status p) ∧
     NoDup (map pos_id (positions (data_store (run_ops config ops w))))).
Proof.
  intros Hnd Hp. split.
  - intros op Hop.
    destruct (whole_op_transition config op w i p Hnd Hop Hp) as (p' & Hp' & Hid & Hst).
    exists p'. split; [done|]. split; [done|]. split; [done|].
    by apply run_op_ids_unique.
  - intros ops Hops.
    destruct (whole_ops_keep_closed config ops w i p Hnd Hops Hp) as (p' & Hp' & Hid & Hst).
    exists p'. split; [done|]. split; [done|]. split; [done|].
    by apply whole_ops_ids_unique.
Qed.

(** C2, amended, on the open BTC position while the market falls: the
    iteration of its monitor takes it from open to stopped, and a sell
    execution and a second iteration after that leave it stopped. *)
Lemma C2_status_transitions_one_at_a_time_witness :
  pos_status <$>
    positions (data_store
      (run_op default_config (MonitorIteration Samples.btc_monitor)
              Samples.falling_world)) !! 0%nat = Some Stopped ∧
  pos_status <$>
    positions (data_store
      (run_ops default_config
         [SellExecution (Samples.sell_signal "BTCUSDT");
          MonitorIteration Samples.btc_monitor]
         (run_op default_config (MonitorIteration Samples.btc_monitor)
                 Samples.falling_world))) !! 0%nat = Some Stopped.
Proof.
  destruct (C2_status_transitions_one_at_a_time default_config Samples.falling_world 0
              Samples.guarded_position) as [Hone _].
  - vm_compute. apply NoDup_singleton.
  - reflexivity.
  - destruct (Hone (MonitorIteration Samples.btc_monitor) I)
      as (p1 & Hp1 & _ & _ & Hnd1).
    split.
    + rewrite Hp1. vm_compute in Hp1. injection Hp1 as <-. reflexivity.
    + destruct (C2_status_transitions_one_at_a_time default_config
                  (run_op default_config (MonitorIteration Samples.btc_monitor)
                          Samples.falling_world) 0 p1 Hnd1 Hp1) as [_ Hseq].
      destruct (Hseq [SellExecution (Samples.sell_signal "BTCUSDT");
                      MonitorIteration Samples.btc_monitor])
        as (p' & Hp' & _ & Hkeep & _).
      { repeat constructor. }
      rewrite Hp'. cbn. f_equal. rewrite Hkeep.
      * vm_compute in Hp1. injection Hp1 as <-. reflexivity.
      * vm_compute in Hp1. injection Hp1 as <-. discriminate.
Defined.

(* ===================================================================== *)
(** * Part III: further properties of the code *)
(* ===================================================================== *)

(** ** Orders that are dropped *)

Section Dropped.
Context {C : Type} `{!BinanceClient C} (config : TradingConfig).

Ltac run_monad :=
  cbv [mbind M_bind mret M_ret store store_ modify logger raise get_state
       world zoom self sleep set_self];
  cbn [data_store now binance_api risk_manager log set_data_store set_binance_api
       set_risk_manager set_log set_now set_orders set_positions orders positions
       fst snd].

(** The check answers, whatever the client does, and leaves the counters as
    the roll-over left them. *)
Lemma check_trade_limits_answers trade_amount (w : World C) r w1 :
  check_trade_limits config trade_amount w = (r, w1) →
  (∃ allowed, r = Ok allowed) ∧
  risk_manager w1 = risk_manager (reset_daily_counters w).2.
Proof.
  destruct (reset_daily_counters_spec w) as (w0 & Hreset & Hds & Hapi & Hnow & Hrm).
  unfold check_trade_limits. rewrite bind_run, Hreset. cbn [snd].
  rewrite bind_run. unfold get_state at 1. cbn beta iota.
  repeat match goal with
         | |- context [if ?b then _ else _] => destruct b
         end;
    try (intros [= <- <-]; cbn; eauto).
  all: unfold try_except, api, zoom; rewrite bind_run;
    destruct (get_balance "USDT" (binance_api w0)) as [[b|e] c'];
    cbn; repeat match goal with
         | |- context [if ?b then _ else _] => destruct b
         end; intros [= <- <-]; cbn; eauto.
Qed.

(** A buy either goes through or leaves the store alone. *)
Lemma execute_buy_outcome signal (w : World C) r w' :
  _execute_buy config signal w = (r, w') →
  (∃ ex, r = Ok (Some ex)) ∨
  (data_store w' = data_store w ∧
   risk_manager w' = risk_manager (reset_daily_counters w).2 ∧
   (r = Ok None ∨ r = Raise TradingError)).
Proof.
  unfold _execute_buy, try_except. rewrite bind_run.
  destruct (check_trade_limits _ _ w) as [rc w1] eqn:Hcheck.
  destruct (check_trade_limits_frame _ _ _ _ _ Hcheck) as [Hds1 _].
  destruct (check_trade_limits_answers _ _ _ _ Hcheck) as [[allowed ->] Hrm1].
  destruct allowed; cbn [negb].
  2:{ run_monad. intros [= <- <-]. right. cbn. eauto. }
  rewrite bind_run.
  destruct (can_open_position _ w1) as [r2 w2] eqn:Hcan.
  apply can_open_position_inv in Hcan as (Hds2 & _ & _ & Hrm2 & ->).
  rewrite Hds1 in Hds2. rewrite Hrm1 in Hrm2.
  destruct (negb (existsb _ _)); cbn [negb].
  2:{ run_monad. intros [= <- <-]. right. cbn. eauto. }
  rewrite bind_run, api_run.
  destruct (calculate_buy_quantity _ _ _) as [[quantity|e] c1].
  2:{ run_monad. intros [= <- <-]. right. cbn. eauto. }
  cbn [fst snd]. rewrite bind_run, api_run. cbn [binance_api set_binance_api].
  destruct (get_price _ c1) as [[quote|e] c2].
  2:{ run_monad. intros [= <- <-]. right. cbn. eauto. }
  cbn [fst snd]. rewrite bind_run, api_run. cbn [binance_api set_binance_api].
  destruct (create_market_buy_order _ _ c2) as [[order|e] c3].
  2:{ run_monad. intros [= <- <-]. right. cbn. eauto. }
  cbn [fst snd].
  cbv [mbind M_bind mret M_ret store store_ modify record_trade logger
       save_trading_order save_position update_trading_order].
  cbn [data_store now binance_api risk_manager log set_data_store set_binance_api
       set_risk_manager set_log set_orders set_positions orders positions fst snd].
  intros [= <- <-]. left. eauto.
Qed.

(** A manual sell either goes through or leaves the store and the counters
    alone. *)
Lemma execute_sell_outcome signal (w : World C) r w' :
  _execute_sell signal w = (r, w') →
  (∃ ex, r = Ok (Some ex)) ∨
  (data_store w' = data_store w ∧
   risk_manager w' = risk_manager w ∧
   (r = Ok None ∨ r = Raise TradingError)).
Proof.
  unfold _execute_sell, try_except. rewrite bind_run. unfold get_state at 1.
  cbn beta iota.
  destruct (List.find _ _) as [position|].
  2:{ run_monad. intros [= <- <-]. right. cbn. eauto. }
  rewrite bind_run, api_run.
  destruct (get_price _ _) as [[quote|e] c1].
  2:{ run_monad. intros [= <- <-]. right. cbn. eauto. }
  cbn [fst snd]. rewrite bind_run, api_run. cbn [binance_api set_binance_api].
  destruct (create_market_sell_order _ _ c1) as [[order|e] c2].
  2:{ run_monad. intros [= <- <-]. right. cbn. eauto. }
  cbn [fst snd].
  cbv [mbind M_bind mret M_ret store store_ modify record_trade logger
       save_trading_order update_position].
  cbn [data_store now binance_api risk_manager log set_data_store set_binance_api
       set_risk_manager set_log set_orders set_positions orders positions fst snd].
  intros [= <- <-]. left. eauto.
Qed.

End Dropped.

Section OpenPositions.
Context {C : Type} `{!BinanceClient C} (config : TradingConfig).

Abbreviation with_id id := (λ q : Position, bool_decide (pos_id q = id)).

(** While a symbol has an open position a buy for it is dropped. *)
Lemma buy_refused_when_open signal (w : World C) :
  _has_open_position (data_store w) (sig_symbol signal) = true →
  ∃ w', _execute_buy config signal w = (Ok None, w') ∧
        data_store w' = data_store w.
Proof.
  intros Hopen.
  destruct (_execute_buy config signal w) as [r w'] eqn:Hrun.
  destruct (execute_buy_outcome config signal w r w' Hrun)
    as [[ex ->] | (Hds & _ & [-> | ->])]; [| eauto |].
  - apply execute_buy_success in Hrun.
    destruct Hrun as (? & ? & ? & ? & ? & ? & ? & _ & Hno & _).
    unfold _has_open_position in Hopen. congruence.
  - exfalso. revert Hrun.
    unfold _execute_buy, try_except. rewrite bind_run.
    destruct (check_trade_limits _ _ w) as [rc w1] eqn:Hcheck.
    destruct (check_trade_limits_frame _ _ _ _ _ Hcheck) as [Hds1 _].
    destruct (check_trade_limits_answers _ _ _ _ _ Hcheck) as [[allowed ->] _].
    destruct allowed; cbn [negb]; [|discriminate].
    rewrite bind_run.
    destruct (can_open_position _ w1) as [r2 w2] eqn:Hcan.
    apply can_open_position_inv in Hcan as (_ & _ & _ & _ & ->).
    rewrite Hds1. unfold _has_open_position in Hopen. rewrite Hopen.
    discriminate.
Qed.

(** Writing a status other than open takes symbols out of the open ones and
    brings none in. *)
Lemma open_symbols_after_update id u t (l : list Position) :
  u_status u ≠ Some Open →
  sublist (map pos_symbol (filter (λ p, pos_status p = Open)
             (update_first (with_id id) (apply_updates u t) l)))
          (map pos_symbol (filter (λ p, pos_status p = Open) l)).
Proof.
  intros Hu. induction l as [|x l IH]; cbn [update_first]; [done|].
  case_bool_decide as Hx.
  - rewrite !filter_cons.
    destruct (decide (pos_status (apply_updates u t x) = Open)) as [Hopen|Hclosed].
    + assert (pos_status x = Open) as Hxo.
      { cbn in Hopen. destruct (u_status u) as [s|]; cbn in Hopen; [congruence|done]. }
      rewrite decide_True by done. cbn. by apply sublist_skip.
    + destruct (decide (pos_status x = Open)); cbn; [by apply sublist_cons|done].
  - rewrite !filter_cons. destruct (decide (pos_status x = Open)); cbn.
    + by apply sublist_skip.
    + done.
Qed.

Lemma one_open_after_update id u t (ds : SimpleDataStore) :
  u_status u ≠ Some Open →
  one_open_per_symbol ds →
  one_open_per_symbol (update_position id u t ds).
Proof.
  unfold one_open_per_symbol, get_open_positions, update_position. cbn.
  intros Hu Hnd. exact (sublist_NoDup _ _ Hnd (open_symbols_after_update id u t _ Hu)).
Qed.

Lemma one_open_positions (ds ds' : SimpleDataStore) :
  positions ds' = positions ds → one_open_per_symbol ds → one_open_per_symbol ds'.
Proof. unfold one_open_per_symbol, get_open_positions. by intros ->. Qed.

Lemma one_open_after_updates (ds ds' : SimpleDataStore) id u t :
  u_status u ≠ Some Open →
  positions ds' = update_first (with_id id) (apply_updates u t) (positions ds) →
  one_open_per_symbol ds → one_open_per_symbol ds'.
Proof.
  intros Hu Hpos Hnd.
  apply (one_open_positions (update_position id u t ds)); [done|].
  by apply one_open_after_update.
Qed.

(** X1.  The file never holds two open positions for one symbol: if it does
    not before an operation of the core (buy, sell, stop-loss execution,
    monitor iteration, threshold update), it does not after it. *)
Theorem one_open_position_per_symbol_is_kept (op : CoreOp) (w : World C) :
  one_open_per_symbol (data_store w) →
  one_open_per_symbol (data_store (run_op config op w)).
Proof.
  intros Hinv.
  destruct op as [signal | signal | m price | m | manager id price]; cbn [run_op].
  - destruct (_execute_buy config signal w) as [r w'] eqn:Hrun; cbn [snd].
    destruct (execute_buy_outcome config signal w r w' Hrun)
      as [[ex ->] | (Hds & _)]; [|by rewrite Hds].
    apply execute_buy_success in Hrun.
    destruct Hrun as (? & ? & ? & ? & ? & ? & ? & _ & Hno & _ & _ & _ & _ & _ & _ & Hpos & _).
    unfold one_open_per_symbol, get_open_positions in *. rewrite Hpos.
    rewrite filter_app, map_app, filter_cons_True, filter_nil by done. cbn.
    apply NoDup_app. split; [done|]. split; [|apply NoDup_singleton].
    intros s Hs Hs'. apply list_elem_of_singleton in Hs' as ->.
    apply list_elem_of_fmap in Hs as (p & Hsym & Hp).
    assert (existsb (λ p, bool_decide (pos_symbol p = sig_symbol signal))
              (filter (λ p, pos_status p = Open) (positions (data_store w))) = true);
      [|congruence].
    apply existsb_exists. exists p. split; [by apply list_elem_of_In|].
    by apply bool_decide_eq_true.
  - destruct (_execute_sell signal w) as [r w'] eqn:Hrun; cbn [snd].
    apply execute_sell_positions in Hrun as [Hpos | (? & u & _ & _ & Hu & Hpos)].
    + by apply (one_open_positions (data_store w)).
    + eapply one_open_after_updates; [|exact Hpos|done]. by rewrite Hu.
  - destruct (_execute_stop_loss price (w, m)) as [r [w' m']] eqn:Hrun; cbn [fst snd].
    apply execute_stop_loss_positions in Hrun as (_ & _ & [Hpos | (u & Hu & Hpos)]).
    + by apply (one_open_positions (data_store w)).
    + eapply one_open_after_updates; [|exact Hpos|done]. by rewrite Hu.
  - destruct (monitor_iteration (w, m)) as [r [w' m']] eqn:Hrun; cbn [fst snd].
    apply monitor_iteration_positions in Hrun
      as [Hpos | (? & u1 & _ & _ & _ & Hu1 & [Hpos | (u2 & Hu2 & Hpos)])].
    + by apply (one_open_positions (data_store w)).
    + eapply one_open_after_updates; [|exact Hpos|done]. by rewrite Hu1.
    + eapply (one_open_after_updates
                (update_position (mon_position_id m) u1 (now w) (data_store w)));
        [|exact Hpos|].
      * by rewrite Hu2.
      * apply one_open_after_update; [by rewrite Hu1|done].
  - destruct (update_stop_loss id price (w, manager)) as [r [w' manager']] eqn:Hrun;
      cbn [fst snd].
    apply update_stop_loss_positions in Hrun as [Hpos | (u & Hu & Hpos)].
    + by apply (one_open_positions (data_store w)).
    + eapply one_open_after_updates; [|exact Hpos|done]. by rewrite Hu.
Qed.

End OpenPositions.

(** X1 on the fresh account: after the buy of scenario A the one open
    position is the BTC one. *)
Lemma one_open_position_per_symbol_is_kept_witness :
  one_open_per_symbol
    (data_store (run_op default_config (BuyExecution (Samples.buy_signal "BTCUSDT"))
                        Samples.empty_world)).
Proof.
  apply (one_open_position_per_symbol_is_kept default_config
           (BuyExecution (Samples.buy_signal "BTCUSDT")) Samples.empty_world).
  vm_compute. constructor.
Defined.

(** ** Gating and atomicity of orders *)

Section Gate.
Context {C : Type} `{!BinanceClient C} (config : TradingConfig).

Lemma has_open_position_intro (ds : SimpleDataStore) (p : Position) :
  p ∈ positions ds → pos_status p = Open →
  _has_open_position ds (pos_symbol p) = true.
Proof.
  intros Hin Hopen. unfold _has_open_position, get_open_positions.
  apply existsb_exists. exists p. split.
  - apply list_elem_of_In, list_elem_of_filter. done.
  - by apply bool_decide_eq_true.
Qed.

End Gate.

(** X2.  While the file holds an open position for a symbol, a buy signal
    for that symbol is dropped: [_execute_buy] returns [None] without
    raising and writes neither an order nor a position. *)
Theorem buy_is_dropped_while_symbol_is_open
    {C : Type} `{!BinanceClient C}
    (config : TradingConfig) (signal : TradingSignal) (w : World C) (p : Position) :
  p ∈ positions (data_store w) →
  pos_status p = Open →
  pos_symbol p = sig_symbol signal →
  ∃ w', _execute_buy config signal w = (Ok None, w') ∧
        data_store w' = data_store w.
Proof.
  intros Hin Hopen Hsym. apply buy_refused_when_open.
  rewrite <- Hsym. by apply has_open_position_intro.
Qed.

Lemma buy_is_dropped_while_symbol_is_open_witness :
  ∃ w', _execute_buy default_config (Samples.buy_signal "BTCUSDT") Samples.selling_world
          = (Ok None, w') ∧
        data_store w' = data_store Samples.selling_world.
Proof.
  apply (buy_is_dropped_while_symbol_is_open default_config
           (Samples.buy_signal "BTCUSDT") Samples.selling_world
           (Samples.btc_position 1 Open)).
  - vm_compute. left.
  - reflexivity.
  - reflexivity.
Defined.

(** X3.  After a buy that went through, a second buy signal for the same
    symbol is dropped: it returns [None] and leaves the store as the first
    buy left it. *)
Theorem second_buy_for_a_symbol_is_dropped
    {C : Type} `{!BinanceClient C}
    (config : TradingConfig) (first second : TradingSignal)
    (w w' : World C) (ex : Execution) :
  _execute_buy config first w = (Ok (Some ex), w') →
  sig_symbol second = sig_symbol first →
  ∃ w'', _execute_buy config second w' = (Ok None, w'') ∧
         data_store w'' = data_store w'.
Proof.
  intros Hrun Hsym.
  apply execute_buy_success in Hrun.
  destruct Hrun as (? & ? & ? & ? & ? & ? & ? & _ & _ & _ & _ & _ & _ & _ & _ & Hpos & _).
  apply buy_refused_when_open. rewrite Hsym.
  match type of Hpos with _ = _ ++ [?p] =>
    change (sig_symbol first) with (pos_symbol p);
    apply (has_open_position_intro (data_store w') p); [|done]
  end.
  rewrite Hpos. apply elem_of_app. right. by left.
Qed.

Lemma second_buy_for_a_symbol_is_dropped_witness :
  ∃ w'', _execute_buy default_config (Samples.buy_signal "BTCUSDT") Samples.scenario_A.2
           = (Ok None, w'') ∧
         data_store w'' = data_store Samples.scenario_A.2.
Proof.
  apply (second_buy_for_a_symbol_is_dropped default_config
           (Samples.buy_signal "BTCUSDT") (Samples.buy_signal "BTCUSDT")
           Samples.empty_world Samples.scenario_A.2 Samples.scenario_A_execution).
  - vm_compute. reflexivity.
  - reflexivity.
Defined.

(** X4.  A buy is all or nothing.  Either it returns an execution, and then
    the order file and the position file have each grown by one record and
    one trade has been counted; or it returns [None] or raises
    [TradingError], and then the store is as it was and no trade has been
    counted.  It raises nothing else. *)
Theorem buy_is_all_or_nothing
    {C : Type} `{!BinanceClient C}
    (config : TradingConfig) (signal : TradingSignal) (w : World C) :
  let rolled := risk_manager (reset_daily_counters w).2 in
  match _execute_buy config signal w with
  | (Ok (Some ex), w') =>
      length (positions (data_store w')) = S (length (positions (data_store w))) ∧
      length (orders (data_store w')) = S (length (orders (data_store w))) ∧
      daily_trades (risk_manager w') = (daily_trades rolled + 1)%Z ∧
      daily_loss (risk_manager w') = daily_loss rolled
  | (Ok None, w') | (Raise TradingError, w') =>
      data_store w' = data_store w ∧ risk_manager w' = rolled
  | (Raise _, _) => False
  end.
Proof.
  intros rolled.
  destruct (_execute_buy config signal w) as [r w'] eqn:Hrun.
  destruct (execute_buy_outcome config signal w r w' Hrun)
    as [[ex ->] | (Hds & Hrm & [-> | ->])]; [|done|done].
  pose proof Hrun as Hrun'.
  apply execute_buy_success in Hrun.
  destruct Hrun as (w1 & ? & ? & ? & ? & ? & ? & Hcheck & _ & _ & _ & _ & _ & _ & _
                    & Hpos & _ & Hord & Hrm).
  apply check_trade_limits_answers in Hcheck as [_ Hrm1].
  rewrite Hpos, Hord, Hrm, !length_app. cbn.
  subst rolled. rewrite <- Hrm1.
  repeat split; lia.
Qed.

(** X5.  A manual sell is all or nothing.  Either it returns an execution,
    and then the order file has grown by one record, the position file has
    as many records as before and one trade has been counted; or it returns
    [None] or raises [TradingError], and then the store and the counters are
    as they were.  It raises nothing else. *)
Theorem sell_is_all_or_nothing
    {C : Type} `{!BinanceClient C}
    (signal : TradingSignal) (w : World C) :
  match _execute_sell signal w with
  | (Ok (Some ex), w') =>
      length (positions (data_store w')) = length (positions (data_store w)) ∧
      length (orders (data_store w')) = S (length (orders (data_store w))) ∧
      daily_trades (risk_manager w') = (daily_trades (risk_manager w) + 1)%Z
  | (Ok None, w') | (Raise TradingError, w') =>
      data_store w' = data_store w ∧ risk_manager w' = risk_manager w
  | (Raise _, _) => False
  end.
Proof.
  destruct (_execute_sell signal w) as [r w'] eqn:Hrun.
  destruct (execute_sell_outcome signal w r w' Hrun)
    as [[ex ->] | (Hds & Hrm & [-> | ->])]; [|done|done].
  revert Hrun.
  unfold _execute_sell, try_except. rewrite bind_run. unfold get_state at 1.
  cbn beta iota.
  destruct (List.find _ _) as [position|]; [|discriminate].
  rewrite bind_run, api_run.
  destruct (get_price _ _) as [[quote|e] c1]; [|discriminate].
  cbn [fst snd]. rewrite bind_run, api_run. cbn [binance_api set_binance_api].
  destruct (create_market_sell_order _ _ c1) as [[order|e] c2]; [|discriminate].
  cbn [fst snd].
  cbv [mbind M_bind mret M_ret store store_ modify record_trade logger
       save_trading_order update_position].
  cbn [data_store now binance_api risk_manager log set_data_store set_binance_api
       set_risk_manager set_log set_orders set_positions orders positions fst snd].
  intros [= <- <-].
  cbn [data_store now binance_api risk_manager log set_data_store set_binance_api
       set_risk_manager set_log set_orders set_positions orders positions
       daily_trades].
  rewrite update_first_length, length_app. cbn. repeat split; lia.
Qed.

Lemma execute_sell_without_position
    {C : Type} `{!BinanceClient C} (signal : TradingSignal) (w : World C) :
  _has_open_position (data_store w) (sig_symbol signal) = false →
  _execute_sell signal w =
    (Ok None, set_log (log w ++ [(WARNING, "No open position found")]) w).
Proof.
  intros Hnone.
  unfold _execute_sell, try_except. rewrite bind_run. unfold get_state at 1.
  cbn beta iota.
  destruct (List.find _ _) as [position|] eqn:Hfind; [|reflexivity].
  apply find_some in Hfind. unfold _has_open_position in Hnone.
  assert (existsb (λ pos, bool_decide (pos_symbol pos = sig_symbol signal))
            (get_open_positions (data_store w)) = true); [|congruence].
  apply existsb_exists. eauto.
Qed.

(** X6.  With no open position for the signal's symbol, a manual sell
    returns [None]: it asks the client for nothing, writes nothing and
    counts nothing; it only logs the warning. *)
Theorem sell_without_open_position_does_nothing
    {C : Type} `{!BinanceClient C}
    (signal : TradingSignal) (w : World C) :
  _has_open_position (data_store w) (sig_symbol signal) = false →
  _execute_sell signal w =
    (Ok None, set_log (log w ++ [(WARNING, "No open position found")]) w).
Proof. apply execute_sell_without_position. Qed.

Lemma sell_without_open_position_does_nothing_witness :
  (_execute_sell (Samples.sell_signal "BTCUSDT") Samples.empty_world).1 = Ok None.
Proof.
  rewrite (sell_without_open_position_does_nothing
             (Samples.sell_signal "BTCUSDT") Samples.empty_world); reflexivity.
Defined.

Lemma NoDup_fmap_elem {A B} (f : A → B) (l : list A) (x y : A) :
  NoDup (map f l) → x ∈ l → y ∈ l → f x = f y → x = y.
Proof.
  intros Hnd Hx Hy Hf.
  apply list_elem_of_lookup in Hx as [i Hi].
  apply list_elem_of_lookup in Hy as [j Hj].
  assert (i = j) as ->; [|congruence].
  eapply NoDup_lookup; [exact Hnd| |].
  - rewrite list_lookup_fmap, Hi. reflexivity.
  - rewrite list_lookup_fmap, Hj. cbn. by rewrite Hf.
Qed.

(** With unique ids an update by id reaches the one record with that id. *)
Lemma update_first_unique (l : list Position) (p : Position) (f : Position → Position) :
  NoDup (map pos_id l) → p ∈ l →
  ∀ q, q ∈ update_first (λ x, bool_decide (pos_id x = pos_id p)) f l →
       q = f p ∨ (q ∈ l ∧ pos_id q ≠ pos_id p).
Proof.
  induction l as [|x r IH]; intros Hnd Hp q Hq; [by apply elem_of_nil in Hp|].
  cbn in Hnd. apply NoDup_cons in Hnd as [Hx Hnd].
  cbn [update_first] in Hq. case_bool_decide as Hhit.
  - assert (p = x) as ->.
    { apply elem_of_cons in Hp as [->|Hp]; [done|]. exfalso. apply Hx.
      rewrite Hhit. apply list_elem_of_fmap. eauto. }
    apply elem_of_cons in Hq as [->|Hq]; [by left|]. right.
    split; [by right|]. intros Heq. apply Hx. rewrite <- Heq.
    apply list_elem_of_fmap. eauto.
  - apply elem_of_cons in Hp as [->|Hp]; [done|].
    apply elem_of_cons in Hq as [->|Hq].
    + right. split; [by left | done].
    + destruct (IH Hnd Hp q Hq) as [->|[Hin Hne]]; [by left|].
      right. split; [by right | done].
Qed.

(** X7.  With position ids unique and at most one open position per
    symbol, a manual sell that goes through leaves no open position for the
    symbol, so that a second sell signal for it returns [None]. *)
Theorem sell_leaves_no_open_position
    {C : Type} `{!BinanceClient C}
    (signal : TradingSignal) (w w' : World C) (ex : Execution) :
  NoDup (map pos_id (positions (data_store w))) →
  one_open_per_symbol (data_store w) →
  _execute_sell signal w = (Ok (Some ex), w') →
  _has_open_position (data_store w') (sig_symbol signal) = false ∧
  ∀ again, sig_symbol again = sig_symbol signal →
           (_execute_sell again w').1 = Ok None.
Proof.
  intros Hids Hone Hrun.
  assert (Hnone : _has_open_position (data_store w') (sig_symbol signal) = false).
  { apply execute_sell_success in Hrun.
    destruct Hrun as (position & quote & c1 & order & c2 & Hfind & _ & _ & _ & _ & _ & Hpos & _).
    apply find_some in Hfind as [Hin Hsym].
    apply bool_decide_eq_true in Hsym.
    pose proof Hin as Hin'.
    apply list_elem_of_In, list_elem_of_filter in Hin' as [Hopen Hfile].
    destruct (_has_open_position (data_store w') (sig_symbol signal)) eqn:Hhas; [|done].
    exfalso. apply has_open_position_elem in Hhas as (q & Hq & Hqo & Hqs).
    rewrite Hpos in Hq.
    apply (update_first_unique _ position _ Hids Hfile) in Hq as [-> | [Hq Hne]].
    - discriminate.
    - apply Hne. f_equal.
      apply (NoDup_fmap_elem pos_symbol (get_open_positions (data_store w))).
      + exact Hone.
      + apply list_elem_of_filter. done.
      + by apply list_elem_of_In.
      + congruence. }
  split; [exact Hnone|].
  intros again Hsym.
  rewrite execute_sell_without_position; [done|]. by rewrite Hsym.
Qed.

Lemma sell_leaves_no_open_position_witness :
  _has_open_position
    (data_store (_execute_sell (Samples.sell_signal "BTCUSDT") Samples.selling_world).2)
    "BTCUSDT" = false.
Proof.
  destruct (sell_leaves_no_open_position (Samples.sell_signal "BTCUSDT")
              Samples.selling_world
              (_execute_sell (Samples.sell_signal "BTCUSDT") Samples.selling_world).2
              {| ex_order_id := 1; ex_position_id := 1;
                 ex_pnl := Some ((45000 * (1 + 0.01) - 45000) * 0.000222)%Q;
                 ex_order := {| o_symbol := "BTCUSDT"; o_orderId := 1;
                                o_price := (45000 * (1 + - 0.01))%Q;
                                o_origQty := 0.000222; o_executedQty := 0.000222;
                                o_status := "FILLED"; o_type := MARKET;
                                o_side := SELL |} |}) as [Hnone _].
  - vm_compute. repeat constructor. set_solver.
  - vm_compute. repeat constructor. set_solver.
  - vm_compute. reflexivity.
  - exact Hnone.
Defined.

(** ** The monitor loop, iteration by iteration *)

Section MonitorLoop.
Context {C : Type} `{!BinanceClient C}.

Ltac run_monitor :=
  cbv [mbind M_bind mret M_ret store_ modify logger raise get_state
       world zoom self sleep set_self];
  cbn [data_store now binance_api risk_manager log set_data_store set_binance_api
       set_risk_manager set_log set_now fst snd].

(** No exception leaves an iteration. *)
Lemma monitor_iteration_returns (st : MonitorState) :
  ∃ c st', monitor_iteration st = (Ok c, st').
Proof.
  unfold monitor_iteration, try_except.
  match goal with
  | |- context [match ?body st with _ => _ end] => destruct (body st) as [[c|e] st1]
  end.
  - eauto.
  - run_monitor. eauto.
Qed.

End MonitorLoop.

(** X8.  No exception escapes the monitor loop.  Whatever the client and
    the stop-loss execution do, a pass through the body of the loop ends in
    continue or break, and a run of the loop, cut off after any number of
    passes, does not end in an exception; when it ends because the loop was
    left, the running flag is cleared.  That the loop is ever left is not
    part of this: while a stop-loss execution keeps failing it is not. *)
Theorem monitor_loop_never_raises
    {C : Type} `{!BinanceClient C} (fuel : nat) (st : MonitorState) :
  (∃ c st', monitor_iteration st = (Ok c, st')) ∧
  (∀ e st', _monitor_loop fuel st ≠ (Raise e, st')) ∧
  (∀ st', _monitor_loop fuel st = (Ok true, st') → mon_running st'.2 = false).
Proof.
  split; [apply monitor_iteration_returns|].
  assert (Hrun : ∃ left st1, _monitor_loop fuel st = (Ok left, st1) ∧
                             (left = true → mon_running st1.2 = false)).
  { revert st. induction fuel as [|fuel IH]; intros st; cbn [_monitor_loop].
    - eexists _, _. split; [reflexivity|]. discriminate.
    - rewrite bind_run. unfold self at 1. rewrite bind_run. unfold get_state at 1.
      cbn beta iota. cbn [mret M_ret].
      destruct (mon_running st.2).
      + rewrite bind_run.
        destruct (monitor_iteration_returns st) as (c & st1 & ->).
        destruct c; [apply IH|]. eexists _, _. split; [reflexivity|]. done.
      + eexists _, _. split; [reflexivity|]. done. }
  destruct Hrun as (left & st1 & -> & Hflag). split.
  - intros e st' H. discriminate H.
  - intros st' [= -> <-]. by apply Hflag.
Qed.

(** X9.  A monitor whose position is gone from the file or is no longer
    open leaves its loop at the first iteration: it asks the client for
    nothing and writes nothing, it logs that the position is no longer open
    and clears its running flag. *)
Theorem stale_monitor_leaves_without_effect
    {C : Type} `{!BinanceClient C}
    (w : World C) (m : PositionMonitor) (fuel : nat) :
  mon_running m = true →
  match List.find (λ p, bool_decide (pos_id p = mon_position_id m))
                  (get_all_positions 1000 (data_store w)) with
  | Some position => pos_status position ≠ Open
  | None => True
  end →
  _monitor_loop (S fuel) (w, m) =
    (Ok true,
     (set_log (log w ++ [(INFO, "Position is no longer open, stopping monitor")]) w,
      set_running false m)).
Proof.
  intros Hrun Hstale. cbn [_monitor_loop].
  rewrite bind_run. unfold self at 1. rewrite bind_run. unfold get_state at 1.
  cbn beta iota. cbn [fst snd mret M_ret]. rewrite Hrun.
  rewrite bind_run.
  unfold monitor_iteration, try_except.
  rewrite bind_run. unfold _get_current_position at 1.
  rewrite bind_run. unfold get_state at 1. cbn beta iota. cbn [fst snd mret M_ret].
  destruct (List.find _ _) as [position|].
  - rewrite bool_decide_eq_true_2 by done. reflexivity.
  - reflexivity.
Qed.

Lemma stale_monitor_leaves_without_effect_witness :
  (_monitor_loop 5 (Samples.raced_world, Samples.btc_monitor)).1 = Ok true ∧
  data_store (_monitor_loop 5 (Samples.raced_world, Samples.btc_monitor)).2.1
    = data_store Samples.raced_world ∧
  binance_api (_monitor_loop 5 (Samples.raced_world, Samples.btc_monitor)).2.1
    = binance_api Samples.raced_world.
Proof.
  rewrite (stale_monitor_leaves_without_effect Samples.raced_world Samples.btc_monitor 4).
  - repeat split.
  - reflexivity.
  - vm_compute. discriminate.
Defined.

Section MonitorSteps.
Context {C : Type} `{!BinanceClient C}.

(** An iteration up to the comparison with the threshold: the position is
    found open and the client quotes a price. *)
Lemma monitor_iteration_polled (w : World C) (m : PositionMonitor)
    (position : Position) (price : Q) (c1 : C) :
  List.find (λ p, bool_decide (pos_id p = mon_position_id m))
            (get_all_positions 1000 (data_store w)) = Some position →
  pos_status position = Open →
  get_price (mon_symbol m) (binance_api w) = (Ok price, c1) →
  let polled :=
    set_data_store
      (update_position (mon_position_id m) (price_update m price) (now w) (data_store w))
      (set_binance_api c1 w) in
  monitor_iteration (w, m) =
    try_except
      (if Qle_bool price (mon_stop_loss_price m) then
         world (logger WARNING "Stop-loss triggered");;
         _execute_stop_loss price;;
         mret Break
       else
         st ← get_state;
         (if (60 <=? now st.1 - mon_last_price_update m)%Z then
            world (logger DEBUG "Position price update");;
            set_self (set_last_price_update (now st.1))
          else mret tt);;
         world (sleep (mon_check_interval m));;
         mret Continue)
      (λ _, world (logger ERROR "Error in position monitor");;
            m ← self;
            world (sleep (mon_check_interval m));;
            mret Continue)
      (polled, m).
Proof.
  intros Hfind Hopen Hprice polled.
  unfold monitor_iteration, try_except.
  rewrite bind_run.
  unfold _get_current_position at 1. rewrite bind_run. unfold get_state at 1.
  cbn beta iota. cbn [fst snd]. rewrite Hfind. cbn [mret M_ret].
  rewrite Hopen. rewrite bool_decide_eq_false_2 by (intros Hne; by apply Hne).
  rewrite bind_run. unfold self at 1. rewrite bind_run. unfold get_state at 1.
  cbn beta iota. cbn [fst snd mret M_ret].
  rewrite bind_run. unfold world at 1, zoom at 1, api at 1, zoom at 1.
  cbn [fst snd]. rewrite Hprice. cbn beta iota.
  rewrite bind_run.
  unfold world at 1, zoom at 1, store_ at 1, modify at 1. cbn beta iota. cbn [fst snd].
  reflexivity.
Qed.

(** A stop-loss execution whose sell order is filled. *)
Lemma execute_stop_loss_filled (w : World C) (m : PositionMonitor)
    (current_price : Q) (order : Order) (c1 : C) :
  create_market_sell_order (mon_symbol m) (mon_quantity m) (binance_api w) = (Ok order, c1) →
  _execute_stop_loss current_price (w, m) =
    (Ok tt,
     ({| data_store :=
           update_position (mon_position_id m) (stop_update m order
               (_generate_id (map ord_id (orders (data_store w))))) (now w)
             (save_trading_order (stop_order m current_price order) (now w)
                                 (data_store w)).2;
         binance_api := c1;
         risk_manager := risk_manager w;
         log := log w ++ [(INFO, "Executing stop-loss for position");
                          (INFO, "Stop-loss executed")];
         now := now w |}, m)).
Proof.
  intros Horder.
  unfold _execute_stop_loss, try_except.
  cbv [mbind M_bind mret M_ret world zoom logger modify self get_state api store store_].
  cbn [fst snd binance_api set_log]. rewrite Horder.
  cbn [fst snd binance_api set_log set_binance_api set_data_store log data_store
       risk_manager now save_trading_order].
  by rewrite <- app_assoc.
Qed.

End MonitorSteps.

(** X10.  When the monitored position is open, the quoted price is at or
    below the monitor's threshold and the sell order is filled, the loop
    ends in that iteration, whatever the fuel: the monitor's running flag is
    cleared, the client holds the state the order left, the risk counters
    are untouched, and the position with the monitor's id is stopped, no
    longer monitored, priced at the execution price, with the realized
    profit computed from the execution price. *)
Theorem breach_stops_the_position_and_the_loop
    {C : Type} `{!BinanceClient C}
    (w : World C) (m : PositionMonitor) (position : Position)
    (price : Q) (c1 c2 : C) (order : Order) (fuel : nat) :
  mon_running m = true →
  List.find (λ p, bool_decide (pos_id p = mon_position_id m))
            (get_all_positions 1000 (data_store w)) = Some position →
  pos_status position = Open →
  get_price (mon_symbol m) (binance_api w) = (Ok price, c1) →
  (price <= mon_stop_loss_price m)%Q →
  create_market_sell_order (mon_symbol m) (mon_quantity m) c1 = (Ok order, c2) →
  ∃ w' p',
    _monitor_loop (S fuel) (w, m) = (Ok true, (w', set_running false m)) ∧
    binance_api w' = c2 ∧
    risk_manager w' = risk_manager w ∧
    now w' = now w ∧
    position_by_id (mon_position_id m) (data_store w') = Some p' ∧
    pos_status p' = Stopped ∧
    pos_is_monitoring p' = false ∧
    pos_current_price p' = o_price order ∧
    pos_realized_pnl p' = Some ((o_price order - mon_entry_price m) * mon_quantity m)%Q ∧
    pos_unrealized_pnl p' = Some ((price - mon_entry_price m) * mon_quantity m)%Q.
Proof.
  intros Hrun Hfind Hopen Hprice Hle Horder.
  assert (Hby : is_Some (position_by_id (mon_position_id m) (data_store w))).
  { apply find_some in Hfind as [Hin Hid].
    apply list_elem_of_In, get_all_positions_elem in Hin.
    unfold position_by_id.
    destruct (List.find _ (positions (data_store w))) eqn:Hnone; [eauto|].
    exfalso. eapply find_none in Hnone; [|by apply list_elem_of_In].
    cbn in Hnone. congruence. }
  destruct Hby as [p0 Hp0].
  eexists _, _. split.
  - cbn [_monitor_loop].
    rewrite bind_run. unfold self at 1. rewrite bind_run. unfold get_state at 1.
    cbn beta iota. cbn [fst snd mret M_ret]. rewrite Hrun.
    rewrite bind_run.
    rewrite (monitor_iteration_polled w m position price c1 Hfind Hopen Hprice).
    apply Qle_bool_iff in Hle. rewrite Hle.
    unfold try_except. rewrite bind_run.
    unfold world at 1, zoom at 1, logger at 1, modify at 1. cbn beta iota. cbn [fst snd].
    rewrite bind_run.
    erewrite execute_stop_loss_filled; [|exact Horder].
    reflexivity.
  - cbn [data_store binance_api risk_manager now set_log set_data_store set_binance_api
         save_trading_order snd set_orders].
    split; [done|]. split; [done|]. split; [done|].
    unfold position_by_id in *.
    cbn [data_store update_position positions set_positions set_orders
         save_trading_order snd].
    cbn.
    rewrite !find_update_first by done. rewrite Hp0. cbn.
    repeat split.
Qed.

Lemma breach_stops_the_position_and_the_loop_witness :
  (_monitor_loop 3 (Samples.falling_world, Samples.btc_monitor)).1 = Ok true ∧
  mon_running (_monitor_loop 3 (Samples.falling_world, Samples.btc_monitor)).2.2 = false.
Proof.
  destruct (breach_stops_the_position_and_the_loop
              Samples.falling_world Samples.btc_monitor Samples.guarded_position
              (45000 * (1 + - 0.02))%Q
              (get_price "BTCUSDT" (binance_api Samples.falling_world)).2
              (create_market_sell_order "BTCUSDT" 0.000222
                 (get_price "BTCUSDT" (binance_api Samples.falling_world)).2).2
              {| o_symbol := "BTCUSDT"; o_orderId := 1;
                 o_price := (45000 * (1 + - 0.02))%Q;
                 o_origQty := 0.000222; o_executedQty := 0.000222;
                 o_status := "FILLED"; o_type := MARKET; o_side := SELL |}
              2)
    as (w' & p' & Hloop & _).
  - reflexivity.
  - vm_compute. reflexivity.
  - reflexivity.
  - vm_compute. reflexivity.
  - vm_compute. discriminate.
  - vm_compute. reflexivity.
  - rewrite Hloop. split; reflexivity.
Defined.

(** X11.  When the monitored position is open and the quoted price is above
    the threshold, the iteration writes that price and the unrealized profit
    (price - entry) * quantity to the position with the monitor's id,
    changes no status, touches neither the orders nor the risk counters,
    sleeps for the check interval and lets the loop go on. *)
Theorem quiet_iteration_updates_the_price
    {C : Type} `{!BinanceClient C}
    (w : World C) (m : PositionMonitor) (position : Position)
    (price : Q) (c1 : C) :
  mon_running m = true →
  List.find (λ p, bool_decide (pos_id p = mon_position_id m))
            (get_all_positions 1000 (data_store w)) = Some position →
  pos_status position = Open →
  get_price (mon_symbol m) (binance_api w) = (Ok price, c1) →
  (mon_stop_loss_price m < price)%Q →
  ∃ w' m',
    monitor_iteration (w, m) = (Ok Continue, (w', m')) ∧
    (∀ fuel, _monitor_loop (S fuel) (w, m) = _monitor_loop fuel (w', m')) ∧
    data_store w' =
      update_position (mon_position_id m) (price_update m price) (now w) (data_store w) ∧
    (position_by_id (mon_position_id m) (data_store w'))
      = (apply_updates (price_update m price) (now w)
           <$> position_by_id (mon_position_id m) (data_store w)) ∧
    map pos_status (positions (data_store w')) = map pos_status (positions (data_store w)) ∧
    orders (data_store w') = orders (data_store w) ∧
    binance_api w' = c1 ∧
    risk_manager w' = risk_manager w ∧
    now w' = (now w + mon_check_interval m)%Z ∧
    mon_running m' = true ∧
    mon_stop_loss_price m' = mon_stop_loss_price m.
Proof.
  intros Hrun Hfind Hopen Hprice Hlt.
  assert (Hle : Qle_bool price (mon_stop_loss_price m) = false).
  { destruct (Qle_bool price (mon_stop_loss_price m)) eqn:E; [|done].
    apply Qle_bool_iff in E. exfalso. by apply (Qlt_not_le _ _ Hlt). }
  assert (Hiter : ∃ w' m',
    monitor_iteration (w, m) = (Ok Continue, (w', m')) ∧
    data_store w' =
      update_position (mon_position_id m) (price_update m price) (now w) (data_store w) ∧
    binance_api w' = c1 ∧ risk_manager w' = risk_manager w ∧
    now w' = (now w + mon_check_interval m)%Z ∧
    mon_running m' = true ∧ mon_stop_loss_price m' = mon_stop_loss_price m).
  { rewrite (monitor_iteration_polled w m position price c1 Hfind Hopen Hprice).
    rewrite Hle. unfold try_except.
    cbv [mbind M_bind mret M_ret modify logger get_state world zoom sleep set_self].
    cbn [fst snd now set_data_store set_binance_api].
    destruct (60 <=? now w - mon_last_price_update m)%Z; cbn [fst snd];
      eexists _, _; (split; [reflexivity|]); cbn; by rewrite Hrun. }
  destruct Hiter as (w' & m' & Hiter & Hds & Hapi & Hrm & Hnow & Hrun' & Hstop).
  exists w', m'. split; [exact Hiter|]. split.
  { intros fuel. cbn [_monitor_loop].
    rewrite bind_run. unfold self at 1. rewrite bind_run. unfold get_state at 1.
    cbn beta iota. cbn [fst snd mret M_ret]. rewrite Hrun.
    rewrite bind_run, Hiter. reflexivity. }
  split; [exact Hds|]. rewrite Hds.
  split; [apply position_by_id_update|].
  split; [by apply update_by_id_statuses|].
  done.
Qed.

Lemma quiet_iteration_updates_the_price_witness :
  (monitor_iteration
     (Samples.world_of [Samples.guarded_position]
                       (Samples.mock_holding_btc (Samples.steady 0)),
      Samples.btc_monitor)).1 = Ok Continue.
Proof.
  destruct (quiet_iteration_updates_the_price
              (Samples.world_of [Samples.guarded_position]
                                (Samples.mock_holding_btc (Samples.steady 0)))
              Samples.btc_monitor Samples.guarded_position
              (45000 * (1 + 0))%Q
              (get_price "BTCUSDT" (Samples.mock_holding_btc (Samples.steady 0))).2)
    as (w' & m' & Hiter & _).
  - reflexivity.
  - vm_compute. reflexivity.
  - reflexivity.
  - vm_compute. reflexivity.
  - vm_compute. reflexivity.
  - by rewrite Hiter.
Defined.

(** X12.  When the monitored position is open and the price cannot be
    fetched, the iteration writes nothing to the store: it logs the error,
    sleeps for the check interval and lets the loop go on to poll again. *)
Theorem failed_poll_is_retried
    {C : Type} `{!BinanceClient C}
    (w : World C) (m : PositionMonitor) (position : Position) (e : exn) (c1 : C) :
  mon_running m = true →
  List.find (λ p, bool_decide (pos_id p = mon_position_id m))
            (get_all_positions 1000 (data_store w)) = Some position →
  pos_status position = Open →
  get_price (mon_symbol m) (binance_api w) = (Raise e, c1) →
  let after :=
    {| data_store := data_store w;
       binance_api := c1;
       risk_manager := risk_manager w;
       log := log w ++ [(ERROR, "Error in position monitor")];
       now := (now w + mon_check_interval m)%Z |} in
  monitor_iteration (w, m) = (Ok Continue, (after, m)) ∧
  ∀ fuel, _monitor_loop (S fuel) (w, m) = _monitor_loop fuel (after, m).
Proof.
  intros Hrun Hfind Hopen Hprice after.
  assert (Hiter : monitor_iteration (w, m) = (Ok Continue, (after, m))).
  { unfold monitor_iteration, try_except.
    rewrite bind_run.
    unfold _get_current_position at 1. rewrite bind_run. unfold get_state at 1.
    cbn beta iota. cbn [fst snd]. rewrite Hfind. cbn [mret M_ret].
    rewrite Hopen. rewrite bool_decide_eq_false_2 by (intros Hne; by apply Hne).
    rewrite bind_run. unfold self at 1. rewrite bind_run. unfold get_state at 1.
    cbn beta iota. cbn [fst snd mret M_ret].
    rewrite bind_run. unfold world at 1, zoom at 1, api at 1, zoom at 1.
    cbn [fst snd]. rewrite Hprice. cbn beta iota.
    reflexivity. }
  split; [exact Hiter|].
  intros fuel. cbn [_monitor_loop].
  rewrite bind_run. unfold self at 1. rewrite bind_run. unfold get_state at 1.
  cbn beta iota. cbn [fst snd mret M_ret]. rewrite Hrun.
  rewrite bind_run, Hiter. reflexivity.
Qed.

Lemma failed_poll_is_retried_witness :
  (monitor_iteration
     (Samples.world_of [Samples.btc_position 1 Open]
        (Samples.mock_holding_btc (Samples.steady 0)),
      Samples_unlisted_monitor)).1 = Ok Continue.
Proof.
  destruct (failed_poll_is_retried
              (Samples.world_of [Samples.btc_position 1 Open]
                 (Samples.mock_holding_btc (Samples.steady 0)))
              Samples_unlisted_monitor (Samples.btc_position 1 Open)
              BinanceAPIError (Samples.mock_holding_btc (Samples.steady 0)))
    as [Hiter _].
  - reflexivity.
  - vm_compute. reflexivity.
  - reflexivity.
  - vm_compute. reflexivity.
  - by rewrite Hiter.
Defined.

(** ** The registry of monitors *)

Set Warnings "-clear-no-such-hyp".


Section Registry.
Context {C : Type} `{!BinanceClient C}.
Import Supervisor.

Ltac run_manager :=
  cbv [mbind M_bind mret M_ret modify logger raise get_state in_world zoom
       set_monitors sleep set_manager_running monitor_stop];
  cbn [data_store now binance_api risk_manager log set_data_store set_binance_api
       set_risk_manager set_log set_now fst snd monitors running].

(** What one call of [_add_position_monitor] does. *)
Lemma add_position_monitor_spec (position : Position) (w : World C) (mgr : StopLossManager) :
  ∃ w', _add_position_monitor position (w, mgr) =
          (Ok tt, (w', {| monitors :=
                            match monitors mgr !! pos_id position with
                            | Some _ => monitors mgr
                            | None => <[pos_id position := new_monitor position (now w)]>
                                        (monitors mgr)
                            end;
                          running := running mgr |})) ∧
        data_store w' = data_store w ∧ binance_api w' = binance_api w ∧
        risk_manager w' = risk_manager w ∧ now w' = now w.
Proof.
  unfold _add_position_monitor, try_except.
  rewrite bind_run. unfold get_state at 1. cbn beta iota. cbn [fst snd].
  destruct (monitors mgr !! pos_id position) as [mon|] eqn:Hmon.
  - rewrite bool_decide_eq_true_2 by eauto. exists w. destruct mgr. done.
  - rewrite bool_decide_eq_false_2 by (intros [? ?]; done).
    run_manager. eexists. split; [reflexivity|]. done.
Qed.

Lemma registry_with_cons now p ps registry :
  registry_with now (p :: ps) registry =
  registry_with now ps
    (if pos_is_monitoring p
     then match registry !! pos_id p with
          | Some _ => registry
          | None => <[pos_id p := new_monitor p now]> registry
          end
     else registry).
Proof. reflexivity. Qed.

(** The two adding loops build the same registry. *)
Lemma add_missing_spec (ps : list Position) (w : World C) (mgr : StopLossManager) :
  ∃ w', add_missing ps (w, mgr) =
          (Ok tt, (w', {| monitors := registry_with (now w) ps (monitors mgr);
                          running := running mgr |})) ∧
        data_store w' = data_store w ∧ binance_api w' = binance_api w ∧
        risk_manager w' = risk_manager w ∧ now w' = now w.
Proof.
  revert w mgr. induction ps as [|p ps IH]; intros w mgr.
  - exists w. destruct mgr. done.
  - cbn [add_missing]. rewrite bind_run. unfold get_state at 1. cbn beta iota.
    cbn [snd]. rewrite registry_with_cons.
    destruct (pos_is_monitoring p); cbn [andb].
    + destruct (monitors mgr !! pos_id p) as [mon|] eqn:Hmon.
      * rewrite bool_decide_eq_false_2 by done. rewrite bind_run. cbn [mret M_ret].
        destruct (IH w mgr) as (w' & -> & ?). eauto.
      * rewrite bool_decide_eq_true_2 by done. rewrite bind_run.
        destruct (add_position_monitor_spec p w mgr) as (w1 & -> & Hds & Hapi & Hrm & Hnow).
        rewrite Hmon.
        destruct (IH w1 {| monitors := <[pos_id p := new_monitor p (now w)]> (monitors mgr);
                           running := running mgr |})
          as (w' & -> & Hds' & Hapi' & Hrm' & Hnow').
        cbn [monitors running]. rewrite Hnow.
        exists w'. split; [done|]. repeat split; congruence.
    + rewrite bind_run. cbn [mret M_ret].
      destruct (IH w mgr) as (w' & -> & ?). eauto.
Qed.

Lemma add_monitored_spec (ps : list Position) (w : World C) (mgr : StopLossManager) :
  ∃ w', add_monitored ps (w, mgr) =
          (Ok tt, (w', {| monitors := registry_with (now w) ps (monitors mgr);
                          running := running mgr |})) ∧
        data_store w' = data_store w ∧ binance_api w' = binance_api w ∧
        risk_manager w' = risk_manager w ∧ now w' = now w.
Proof.
  revert w mgr. induction ps as [|p ps IH]; intros w mgr.
  - exists w. destruct mgr. done.
  - cbn [add_monitored]. rewrite registry_with_cons.
    destruct (pos_is_monitoring p).
    + rewrite bind_run.
      destruct (add_position_monitor_spec p w mgr) as (w1 & -> & Hds & Hapi & Hrm & Hnow).
      match goal with
      | |- context [add_monitored ps (w1, ?mgr1)] =>
          destruct (IH w1 mgr1) as (w' & -> & Hds' & Hapi' & Hrm' & Hnow')
      end.
      cbn [monitors running]. rewrite Hnow.
      exists w'. split; [done|]. repeat split; congruence.
    + rewrite bind_run. cbn [mret M_ret].
      destruct (IH w mgr) as (w' & -> & ?). eauto.
Qed.

(** The registry after the adding loop: the monitors it had are kept as
    they were, and its ids are those it had and those of the monitored
    positions of the list. *)
Lemma registry_with_lookup_old now ps registry id mon :
  registry !! id = Some mon → registry_with now ps registry !! id = Some mon.
Proof.
  revert registry. induction ps as [|p ps IH]; intros registry Hid; [done|].
  rewrite registry_with_cons. apply IH.
  destruct (pos_is_monitoring p); [|done].
  destruct (registry !! pos_id p) eqn:Hp; [done|].
  rewrite lookup_insert_ne; [done|]. intros <-. congruence.
Qed.

Lemma registry_with_dom now ps (registry : gmap Z PositionMonitor) :
  dom (registry_with now ps registry) =
  dom registry ∪ list_to_set (map pos_id (filter (λ p, pos_is_monitoring p = true) ps)).
Proof.
  revert registry. induction ps as [|p ps IH]; intros registry.
  - cbn. set_solver.
  - rewrite registry_with_cons, IH, filter_cons.
    destruct (pos_is_monitoring p) eqn:Hmon.
    + rewrite decide_True by done. cbn [map list_to_set].
      destruct (registry !! pos_id p) eqn:Hp.
      * assert (pos_id p ∈ dom registry) by (apply elem_of_dom; eauto). set_solver.
      * rewrite dom_insert_L. set_solver.
    + rewrite decide_False by done. done.
Qed.

(** The stopping loop: the ids it returns are the stale ones, and the
    monitors under the other ids are as they were. *)
Lemma stop_stale_spec (current : gset Z) (items : list (Z * PositionMonitor))
    (w : World C) (mgr : StopLossManager) :
  ∃ w' registry,
    stop_stale current items (w, mgr) =
      (Ok (filter (λ id, id ∉ current) (map fst items)),
       (w', {| monitors := registry; running := running mgr |})) ∧
    data_store w' = data_store w ∧ binance_api w' = binance_api w ∧
    risk_manager w' = risk_manager w ∧ now w' = now w ∧
    dom registry = dom (monitors mgr) ∧
    ∀ id, id ∈ current → registry !! id = monitors mgr !! id.
Proof.
  revert w mgr. induction items as [|[id mon] items IH]; intros w mgr.
  - exists w, (monitors mgr). destruct mgr. done.
  - cbn [stop_stale map fst]. rewrite filter_cons.
    case_bool_decide as Hid.
    + rewrite decide_False by (intros Hn; by apply Hn). apply IH.
    + rewrite decide_True by done.
      rewrite bind_run. unfold monitor_stop at 1.
      rewrite bind_run. unfold set_monitors at 1, modify at 1. cbn beta iota. cbn [fst snd].
      unfold in_world at 1, zoom at 1, logger at 1, modify at 1. cbn beta iota. cbn [fst snd].
      rewrite bind_run.
      match goal with
      | |- context [stop_stale current items (?w1, ?mgr1)] =>
          destruct (IH w1 mgr1) as (w' & registry & -> & Hds & Hapi & Hrm & Hnow & Hdom & Hkeep)
      end.
      cbn [mret M_ret monitors running] in *.
      exists w', registry. split; [done|]. repeat split; try done.
      * rewrite Hdom. apply dom_alter_L.
      * intros k Hk. rewrite Hkeep by done.
        apply lookup_alter_ne. intros ->. done.
Qed.

(** The removing loop on ids that are in the registry, each once. *)
Lemma remove_monitors_spec (ids : list Z) (w : World C) (mgr : StopLossManager) :
  NoDup ids → (∀ id, id ∈ ids → id ∈ dom (monitors mgr)) →
  ∃ w' registry,
    remove_monitors ids (w, mgr) =
      (Ok tt, (w', {| monitors := registry; running := running mgr |})) ∧
    data_store w' = data_store w ∧ binance_api w' = binance_api w ∧
    risk_manager w' = risk_manager w ∧ now w' = now w ∧
    ∀ id, registry !! id = if decide (id ∈ ids) then None else monitors mgr !! id.
Proof.
  revert w mgr. induction ids as [|id ids IH]; intros w mgr Hnd Hin.
  - exists w, (monitors mgr). destruct mgr. repeat split; try done.
  - apply NoDup_cons in Hnd as [Hid Hnd].
    cbn [remove_monitors]. rewrite bind_run. unfold get_state at 1. cbn beta iota.
    cbn [snd]. rewrite bool_decide_eq_true_2
      by (apply elem_of_dom, Hin; by left).
    rewrite bind_run.
    unfold set_monitors at 1, modify at 1. cbn beta iota. cbn [fst snd].
    rewrite bind_run.
    unfold in_world at 1, zoom at 1, logger at 1, modify at 1. cbn beta iota. cbn [fst snd].
    match goal with
    | |- context [remove_monitors ids (?w1, ?mgr1)] =>
        destruct (IH w1 mgr1 Hnd) as (w' & registry & -> & Hds & Hapi & Hrm & Hnow & Hlook)
    end.
    { intros k Hk. cbn [monitors]. rewrite dom_delete_L.
      apply elem_of_difference. split; [apply Hin; by right|].
      intros Heq. apply elem_of_singleton in Heq as ->. done. }
    cbn [monitors running] in *.
    exists w', registry. split; [done|]. repeat split; try done.
    intros k. rewrite Hlook.
    destruct (decide (k = id)) as [->|Hne].
    + rewrite decide_False by done. rewrite lookup_delete_eq.
      rewrite decide_True by (by left). done.
    + rewrite lookup_delete_ne by done.
      destruct (decide (k ∈ ids)).
      * rewrite decide_True by (by right). done.
      * rewrite decide_False; [done|].
        intros Hk. apply elem_of_cons in Hk as [?|?]; done.
Qed.

(** A monitor of the registry after the adding loop was there before, or
    is the fresh monitor of a monitored position of the list. *)
Lemma registry_with_lookup_new now ps (registry : gmap Z PositionMonitor) id mon :
  registry_with now ps registry !! id = Some mon →
  registry !! id = Some mon ∨
  ∃ p, p ∈ ps ∧ pos_is_monitoring p = true ∧ pos_id p = id ∧ mon = new_monitor p now.
Proof.
  revert registry. induction ps as [|p ps IH]; intros registry Hid; [by left|].
  rewrite registry_with_cons in Hid. apply IH in Hid as [Hid|(q & Hq & ?)].
  - destruct (pos_is_monitoring p) eqn:Hmon; [|by left].
    destruct (registry !! pos_id p) eqn:Hp; [by left|].
    apply lookup_insert_Some in Hid as [[<- <-]|[_ Hid]]; [|by left].
    right. exists p. split; [by left|done].
  - right. exists q. split; [by right|done].
Qed.

(** The loop of [stop]. *)
Lemma stop_each_spec (ids : list Z) (w : World C) (mgr : StopLossManager) :
  ∃ w' registry,
    stop_each ids (w, mgr) =
      (Ok tt, (w', {| monitors := registry; running := running mgr |})) ∧
    data_store w' = data_store w ∧ binance_api w' = binance_api w ∧
    risk_manager w' = risk_manager w ∧ now w' = now w.
Proof.
  revert w mgr. induction ids as [|id ids IH]; intros w mgr.
  - exists w, (monitors mgr). destruct mgr. done.
  - cbn [stop_each]. rewrite bind_run. unfold monitor_stop at 1.
    rewrite bind_run. unfold set_monitors at 1, modify at 1. cbn beta iota. cbn [fst snd].
    unfold in_world at 1, zoom at 1, logger at 1, modify at 1. cbn beta iota. cbn [fst snd].
    match goal with
    | |- context [stop_each ids (?w1, ?mgr1)] =>
        destruct (IH w1 mgr1) as (w' & registry & -> & Hds & Hapi & Hrm & Hnow)
    end.
    cbn [monitors running] in *. eauto 10.
Qed.

End Registry.

(** X13.  One pass of the management loop reconciles the registry with the
    store: it returns without raising, leaves the store, the client and the
    counters alone, and afterwards the registered ids are exactly the ids of
    the positions that are open and monitored; a monitor that was registered
    under such an id is kept as it was, and every other one is the fresh,
    running monitor of such a position. *)
Theorem management_pass_reconciles_the_registry
    {C : Type} `{!BinanceClient C} (w : World C) (mgr : StopLossManager) :
  ∃ w' mgr',
    Supervisor.management_iteration (w, mgr) = (Ok tt, (w', mgr')) ∧
    data_store w' = data_store w ∧
    binance_api w' = binance_api w ∧
    risk_manager w' = risk_manager w ∧
    running mgr' = running mgr ∧
    dom (monitors mgr') = Supervisor.current_open_ids (data_store w) ∧
    (∀ id mon, monitors mgr !! id = Some mon →
               id ∈ Supervisor.current_open_ids (data_store w) →
               monitors mgr' !! id = Some mon) ∧
    (∀ id mon, monitors mgr' !! id = Some mon → monitors mgr !! id = None →
       ∃ p, p ∈ get_open_positions (data_store w) ∧ pos_is_monitoring p = true ∧
            pos_id p = id ∧ mon = new_monitor p (now w)).
Proof.
  unfold Supervisor.management_iteration, try_except.
  rewrite bind_run. unfold get_state at 1. cbn beta iota. cbn [fst].
  rewrite bind_run.
  destruct (add_missing_spec (get_open_positions (data_store w)) w mgr)
    as (w1 & -> & Hds1 & Hapi1 & Hrm1 & Hnow1).
  rewrite bind_run. unfold get_state at 1. cbn beta iota. cbn [fst snd monitors].
  rewrite bind_run.
  set (added := registry_with (now w) (get_open_positions (data_store w)) (monitors mgr)).
  destruct (stop_stale_spec (Supervisor.current_open_ids (data_store w1))
              (map_to_list added) w1 {| monitors := added; running := running mgr |})
    as (w2 & reg2 & -> & Hds2 & Hapi2 & Hrm2 & Hnow2 & Hdom2 & Hkeep2).
  cbn [monitors running] in *.
  rewrite bind_run.
  destruct (remove_monitors_spec
              (filter (λ id, id ∉ Supervisor.current_open_ids (data_store w1))
                      (map fst (map_to_list added)))
              w2 {| monitors := reg2; running := running mgr |})
    as (w3 & reg3 & -> & Hds3 & Hapi3 & Hrm3 & Hnow3 & Hlook3).
  { apply NoDup_filter, NoDup_fst_map_to_list. }
  { intros id Hid. apply list_elem_of_filter in Hid as [_ Hid].
    cbn [monitors]. rewrite Hdom2.
    apply list_elem_of_fmap in Hid as ([k v] & -> & Hkv).
    apply elem_of_map_to_list in Hkv. apply elem_of_dom. eauto. }
  cbn [monitors running] in *.
  assert (Hadded : dom added =
            dom (monitors mgr) ∪ Supervisor.current_open_ids (data_store w)).
  { unfold added. apply registry_with_dom. }
  assert (Hstale : ∀ id,
            id ∈ filter (λ id, id ∉ Supervisor.current_open_ids (data_store w1))
                        (map fst (map_to_list added)) ↔
            id ∈ dom added ∧ id ∉ Supervisor.current_open_ids (data_store w)).
  { intros id. rewrite list_elem_of_filter, Hds1. split.
    - intros [Hn Hid]. split; [|done].
      apply list_elem_of_fmap in Hid as ([k v] & -> & Hkv).
      apply elem_of_map_to_list in Hkv. apply elem_of_dom. eauto.
    - intros [Hid Hn]. split; [done|].
      apply elem_of_dom in Hid as [v Hv].
      apply list_elem_of_fmap. exists (id, v). split; [done|].
      by apply elem_of_map_to_list. }
  cbv [in_world zoom sleep modify]. cbn [fst snd].
  eexists _, _. split; [reflexivity|].
  cbn [data_store binance_api risk_manager now set_now monitors running].
  split; [congruence|]. split; [congruence|]. split; [congruence|].
  split; [done|]. split.
  - apply set_eq. intros id. rewrite elem_of_dom, Hlook3.
    destruct (decide (id ∈ _)) as [Hs|Hs].
    + apply Hstale in Hs as [_ Hn]. split; [by intros [? ?]|done].
    + split.
      * intros Hsome. apply dec_stable. intros Hn. apply Hs, Hstale.
        split; [|done]. rewrite <- Hdom2. by apply elem_of_dom.
      * intros Hid. apply elem_of_dom. rewrite Hdom2, Hadded. set_solver.
  - split.
    + intros id mon Hmon Hid. rewrite Hlook3.
      rewrite decide_False by (intros Hs; apply Hstale in Hs as [_ Hn]; done).
      rewrite Hkeep2 by (by rewrite Hds1).
      by apply registry_with_lookup_old.
    + intros id mon Hnew Hold. rewrite Hlook3 in Hnew.
      destruct (decide (id ∈ _)) as [Hs|Hs]; [done|].
      assert (Hid : id ∈ Supervisor.current_open_ids (data_store w)).
      { apply dec_stable. intros Hn. apply Hs, Hstale. split; [|done].
        rewrite <- Hdom2. apply elem_of_dom. eauto. }
      rewrite Hkeep2 in Hnew by (by rewrite Hds1).
      apply registry_with_lookup_new in Hnew as [Hnew|Hnew]; [congruence|done].
Qed.

(** X14.  Starting a stopped manager never raises and leaves the store, the
    client and the counters alone.  Afterwards the manager is running, every
    monitor it already had is kept as it was (also one of a position that is
    no longer open), and every other monitor of the registry is the fresh,
    running monitor of an open, monitored position. *)
Theorem start_registers_the_open_positions
    {C : Type} `{!BinanceClient C} (w : World C) (mgr : StopLossManager) :
  running mgr = false →
  ∃ w' mgr',
    Supervisor.start (w, mgr) = (Ok tt, (w', mgr')) ∧
    running mgr' = true ∧
    data_store w' = data_store w ∧
    binance_api w' = binance_api w ∧
    risk_manager w' = risk_manager w ∧
    dom (monitors mgr') =
      dom (monitors mgr) ∪ Supervisor.current_open_ids (data_store w) ∧
    (∀ id mon, monitors mgr !! id = Some mon → monitors mgr' !! id = Some mon) ∧
    (∀ id mon, monitors mgr' !! id = Some mon → monitors mgr !! id = None →
       ∃ p, p ∈ get_open_positions (data_store w) ∧ pos_is_monitoring p = true ∧
            pos_id p = id ∧ mon = new_monitor p (now w)).
Proof.
  intros Hstopped. unfold Supervisor.start.
  rewrite bind_run. unfold get_state at 1. cbn beta iota. cbn [snd]. rewrite Hstopped.
  rewrite bind_run. unfold Supervisor.set_manager_running at 1, modify at 1.
  cbn beta iota. cbn [fst snd].
  rewrite bind_run. unfold Supervisor._start_existing_monitors, try_except.
  rewrite bind_run. unfold get_state at 1. cbn beta iota. cbn [fst].
  destruct (add_monitored_spec (get_open_positions (data_store w)) w
              {| monitors := monitors mgr; running := true |})
    as (w1 & -> & Hds & Hapi & Hrm & Hnow).
  cbn [monitors running].
  cbv [in_world zoom logger modify]. cbn [fst snd].
  eexists _, _. split; [reflexivity|].
  cbn [data_store binance_api risk_manager monitors running].
  split; [done|]. split; [done|]. split; [done|]. split; [done|].
  split; [apply registry_with_dom|]. split.
  - intros id mon. apply registry_with_lookup_old.
  - intros id mon Hnew Hold.
    apply registry_with_lookup_new in Hnew as [Hnew|Hnew]; [congruence|done].
Qed.

Lemma start_registers_the_open_positions_witness :
  ∃ w' mgr',
    Supervisor.start (Samples.selling_world, {| monitors := ∅; running := false |})
      = (Ok tt, (w', mgr')) ∧
    running mgr' = true ∧
    dom (monitors mgr') = Supervisor.current_open_ids (data_store Samples.selling_world).
Proof.
  destruct (start_registers_the_open_positions Samples.selling_world
              {| monitors := ∅; running := false |} eq_refl)
    as (w' & mgr' & Hrun & Hrunning & _ & _ & _ & Hdom & _).
  exists w', mgr'. split; [exact Hrun|]. split; [exact Hrunning|].
  rewrite Hdom. cbn [monitors]. rewrite dom_empty_L. apply (left_id_L ∅ (∪)).
Defined.

(** X15.  Stopping the manager never raises; it clears the running flag and
    empties the registry, whatever the registry held, and leaves the store,
    the client and the counters alone. *)
Theorem stop_empties_the_registry
    {C : Type} `{!BinanceClient C} (w : World C) (mgr : StopLossManager) :
  ∃ w',
    Supervisor.stop (w, mgr) = (Ok tt, (w', {| monitors := ∅; running := false |})) ∧
    data_store w' = data_store w ∧
    binance_api w' = binance_api w ∧
    risk_manager w' = risk_manager w.
Proof.
  unfold Supervisor.stop.
  rewrite bind_run. unfold Supervisor.set_manager_running at 1, modify at 1.
  cbn beta iota. cbn [fst snd].
  rewrite bind_run. unfold get_state at 1. cbn beta iota. cbn [snd monitors].
  rewrite bind_run.
  destruct (stop_each_spec (map fst (map_to_list (monitors mgr))) w
              {| monitors := monitors mgr; running := false |})
    as (w1 & registry & -> & Hds & Hapi & Hrm & Hnow).
  cbn [running].
  cbv [mbind M_bind set_monitors in_world zoom logger modify]. cbn [fst snd monitors running].
  eexists. split; [reflexivity|].
  cbn [data_store binance_api risk_manager now]. done.
Qed.

(** ** Limits *)

Section Limits.
Context {C : Type} `{!BinanceClient C} (config : TradingConfig).

Ltac run_monad :=
  cbv [mbind M_bind mret M_ret store store_ modify logger raise get_state
       world zoom self sleep set_self];
  cbn [data_store now binance_api risk_manager log set_data_store set_binance_api
       set_risk_manager set_log set_now set_orders set_positions orders positions
       fst snd].

(** The check allows a trade only below the limit on open positions. *)
Lemma check_trade_limits_allowed trade_amount (w : World C) w1 :
  check_trade_limits config trade_amount w = (Ok true, w1) →
  (Z.of_nat (length (get_open_positions (data_store w))) < max_open_positions config)%Z.
Proof.
  destruct (reset_daily_counters_spec w) as (w0 & Hreset & Hds & Hapi & Hnow & Hrm).
  unfold check_trade_limits. rewrite bind_run, Hreset. cbn [snd].
  rewrite bind_run. unfold get_state at 1. cbn beta iota.
  destruct (max_daily_trades config <=? _)%Z; [run_monad; discriminate|].
  destruct (Qge_bool _ _); [run_monad; discriminate|].
  rewrite Hds.
  destruct (max_open_positions config <=? _)%Z eqn:Hmax; [run_monad; discriminate|].
  intros _. apply Z.leb_gt in Hmax. exact Hmax.
Qed.

(** Writing a status other than open does not add to the open positions. *)
Lemma open_count_after_update id u t (l : list Position) :
  u_status u ≠ Some Open →
  length (filter (λ p, pos_status p = Open)
            (update_first (λ q : Position, bool_decide (pos_id q = id)) (apply_updates u t) l)) ≤
  length (filter (λ p, pos_status p = Open) l).
Proof.
  intros Hu.
  pose proof (sublist_length _ _ (open_symbols_after_update id u t l Hu)) as Hlen.
  by rewrite !length_map in Hlen.
Qed.

End Limits.

(** X16.  The limit on open positions is never exceeded: if the file holds
    at most [max_open_positions] open positions before an operation of the
    core, it does after it. *)
Theorem open_positions_stay_within_the_limit
    {C : Type} `{!BinanceClient C} (config : TradingConfig)
    (op : CoreOp) (w : World C) :
  (Z.of_nat (length (get_open_positions (data_store w)))
     ≤ max_open_positions config)%Z →
  (Z.of_nat (length (get_open_positions (data_store (run_op config op w))))
     ≤ max_open_positions config)%Z.
Proof.
  intros Hinv. unfold get_open_positions in *.
  assert (Hkeep : ∀ id u t l',
            u_status u ≠ Some Open →
            (Z.of_nat (length (filter (λ p, pos_status p = Open) l'))
               ≤ max_open_positions config)%Z →
            (Z.of_nat (length (filter (λ p, pos_status p = Open)
                         (update_first (λ q : Position, bool_decide (pos_id q = id)) (apply_updates u t) l')))
               ≤ max_open_positions config)%Z).
  { intros id u t l' Hu Hl'. pose proof (open_count_after_update id u t l' Hu). lia. }
  destruct op as [signal | signal | m price | m | manager id price]; cbn [run_op].
  - destruct (_execute_buy config signal w) as [r w'] eqn:Hrun; cbn [snd].
    destruct (execute_buy_outcome config signal w r w' Hrun)
      as [[ex ->] | (Hds & _)]; [|by rewrite Hds].
    apply execute_buy_success in Hrun.
    destruct Hrun as (w1 & ? & ? & ? & ? & ? & ? & Hcheck & _ & _ & _ & _ & _ & _ & _ & Hpos & _).
    apply check_trade_limits_allowed in Hcheck. unfold get_open_positions in Hcheck.
    rewrite Hpos, filter_app, length_app.
    match goal with
    | |- context [filter ?P [?p]] =>
        pose proof (length_filter P [p]) as Hone
    end.
    cbn [length] in Hone. lia.
  - destruct (_execute_sell signal w) as [r w'] eqn:Hrun; cbn [snd].
    apply execute_sell_positions in Hrun as [Hpos | (? & u & _ & _ & Hu & Hpos)];
      rewrite Hpos; [done|]. apply Hkeep; [by rewrite Hu|done].
  - destruct (_execute_stop_loss price (w, m)) as [r [w' m']] eqn:Hrun; cbn [fst snd].
    apply execute_stop_loss_positions in Hrun as (_ & _ & [Hpos | (u & Hu & Hpos)]);
      rewrite Hpos; [done|]. apply Hkeep; [by rewrite Hu|done].
  - destruct (monitor_iteration (w, m)) as [r [w' m']] eqn:Hrun; cbn [fst snd].
    apply monitor_iteration_positions in Hrun
      as [Hpos | (? & u1 & _ & _ & _ & Hu1 & [Hpos | (u2 & Hu2 & Hpos)])];
      rewrite Hpos; [done| |].
    + apply Hkeep; [by rewrite Hu1|done].
    + apply Hkeep; [by rewrite Hu2|]. apply Hkeep; [by rewrite Hu1|done].
  - destruct (update_stop_loss id price (w, manager)) as [r [w' manager']] eqn:Hrun;
      cbn [fst snd].
    apply update_stop_loss_positions in Hrun as [Hpos | (u & Hu & Hpos)];
      rewrite Hpos; [done|]. apply Hkeep; [by rewrite Hu|done].
Qed.

Lemma open_positions_stay_within_the_limit_witness :
  (Z.of_nat (length (get_open_positions
     (data_store (run_op default_config (BuyExecution (Samples.buy_signal "BTCUSDT"))
                         Samples.empty_world))))
     ≤ max_open_positions default_config)%Z.
Proof.
  apply (open_positions_stay_within_the_limit default_config
           (BuyExecution (Samples.buy_signal "BTCUSDT")) Samples.empty_world).
  vm_compute. discriminate.
Defined.

(** ** What a monitor leaves alone *)

Section MonitorFrame.
Context {C : Type} `{!BinanceClient C}.

Ltac run_monad :=
  cbv [mbind M_bind mret M_ret store store_ modify logger raise get_state
       world zoom self sleep set_self];
  cbn [data_store now binance_api risk_manager log set_data_store set_binance_api
       set_risk_manager set_log set_now set_orders set_positions orders positions
       fst snd].

Lemma execute_stop_loss_counters current_price (w : World C) m r w' m' :
  _execute_stop_loss current_price (w, m) = (r, (w', m')) →
  risk_manager w' = risk_manager w.
Proof.
  unfold _execute_stop_loss, try_except.
  cbv [mbind M_bind mret M_ret world zoom logger modify self get_state].
  cbn [fst snd]. rewrite api_run. cbn [binance_api set_log].
  destruct (create_market_sell_order _ _ _) as [[order|e] c1]; cbn [fst snd].
  2:{ run_monad. by intros [= <- <- <-]. }
  cbv [mbind M_bind mret M_ret store store_ modify logger
       save_trading_order update_position].
  cbn [data_store now binance_api risk_manager log set_data_store set_binance_api
       set_risk_manager set_log set_orders set_positions orders positions fst snd].
  by intros [= <- <- <-].
Qed.

Lemma monitor_iteration_counters (w : World C) m r w' m' :
  monitor_iteration (w, m) = (r, (w', m')) →
  risk_manager w' = risk_manager w.
Proof.
  unfold monitor_iteration, try_except.
  rewrite bind_run. unfold _get_current_position at 1.
  rewrite bind_run. unfold get_state at 1. cbn beta iota. cbn [fst snd mret M_ret].
  destruct (List.find _ _) as [position|].
  2:{ run_monad. by intros [= <- <- <-]. }
  case_bool_decide as Hopen.
  { run_monad. by intros [= <- <- <-]. }
  rewrite bind_run. unfold self at 1. rewrite bind_run. unfold get_state at 1.
  cbn beta iota. cbn [fst snd mret M_ret].
  rewrite bind_run. unfold world at 1, zoom at 1. cbn [fst snd]. rewrite api_run.
  destruct (get_price _ _) as [[price|e] c1]; cbn [fst snd].
  2:{ run_monad. by intros [= <- <- <-]. }
  rewrite bind_run.
  unfold world at 1, zoom at 1, store_ at 1, modify at 1. cbn beta iota. cbn [fst snd].
  destruct (Qle_bool price (mon_stop_loss_price m)).
  - rewrite bind_run.
    unfold world at 1, zoom at 1, logger at 1, modify at 1. cbn beta iota. cbn [fst snd].
    rewrite bind_run.
    match goal with
    | |- context [_execute_stop_loss price ?st] =>
        destruct (_execute_stop_loss price st) as [rs [ws ms]] eqn:Hstop
    end.
    apply execute_stop_loss_counters in Hstop.
    cbn [risk_manager set_log set_data_store set_binance_api] in Hstop.
    destruct rs as [[]|e]; run_monad; by intros [= <- <- <-].
  - run_monad.
    destruct (60 <=? now w - mon_last_price_update m)%Z; cbn [fst snd];
      by intros [= <- <- <-].
Qed.

End MonitorFrame.

(** X17.  A monitor never touches the counters of the risk manager: however
    long its loop runs and whatever it sells, the trades and the loss of
    the day are as they were, so a loss realised by a stop-loss is not
    counted against the daily loss limit. *)
Theorem monitor_never_touches_the_risk_counters
    {C : Type} `{!BinanceClient C} (fuel : nat) (st : @MonitorState C) :
  risk_manager (_monitor_loop fuel st).2.1 = risk_manager st.1.
Proof.
  revert st. induction fuel as [|fuel IH]; intros [w m]; [done|].
  cbn [_monitor_loop].
  rewrite bind_run. unfold self at 1. rewrite bind_run. unfold get_state at 1.
  cbn beta iota. cbn [fst snd mret M_ret].
  destruct (mon_running m); [|done].
  rewrite bind_run.
  destruct (monitor_iteration (w, m)) as [r [w' m']] eqn:Hrun.
  apply monitor_iteration_counters in Hrun.
  destruct r as [[]|e]; cbn [fst snd].
  - rewrite IH. done.
  - done.
  - done.
Qed.

(** ** The mock exchange *)

Section MockExchange.

Ltac run_mock :=
  cbv [mbind M_bind mret M_ret modify raise get_state put_state try_except
       mock_get_symbol_ticker balance_sub balance_add mul_price];
  cbn [account_balance mock_orders order_id_counter mock_prices random_uniform draws
       set_account_balance fst snd].

(** A market order on the mock, path by path. *)
Lemma mock_market_order_paths symbol side quantity (c : MockBinanceClient) :
  mock_create_order symbol side MARKET quantity None c =
  match mock_prices c !! symbol with
  | None => (Raise BinanceAPIError, c)
  | Some base_price =>
      let price := (base_price * (1 + random_uniform c (draws c)))%Q in
      let base_asset := PyStr.replace symbol "USDT" "" in
      let order := {| o_symbol := symbol; o_orderId := order_id_counter c;
                      o_price := price; o_origQty := quantity;
                      o_executedQty := quantity; o_status := "FILLED";
                      o_type := MARKET; o_side := side |} in
      let after (balances : gmap string Q) (orders : gmap Z Order) :=
        {| account_balance := balances; mock_orders := orders;
           order_id_counter := (order_id_counter c + 1)%Z;
           mock_prices := mock_prices c; random_uniform := random_uniform c;
           draws := S (draws c) |} in
      let refused := (Raise BinanceAPIError, after (account_balance c) (mock_orders c)) in
      match side with
      | BUY =>
          if Qlt_bool (default 0%Q (account_balance c !! "USDT")) (quantity * price)
          then refused
          else match account_balance c !! "USDT" with
               | None => refused
               | Some usdt =>
                   let paid := <["USDT" := (usdt - quantity * price)%Q]> (account_balance c) in
                   (Ok order,
                    after (<[base_asset := (default 0%Q (paid !! base_asset) + quantity)%Q]> paid)
                          (<[order_id_counter c := order]> (mock_orders c)))
               end
      | SELL =>
          if Qlt_bool (default 0%Q (account_balance c !! base_asset)) quantity
          then refused
          else match account_balance c !! base_asset with
               | None => refused
               | Some held =>
                   let given := <[base_asset := (held - quantity)%Q]> (account_balance c) in
                   (Ok order,
                    after (<["USDT" := (default 0%Q (given !! "USDT") + quantity * price)%Q]> given)
                          (<[order_id_counter c := order]> (mock_orders c)))
               end
      end
  end.
Proof.
  unfold mock_create_order.
  destruct (mock_prices c !! symbol) as [base_price|] eqn:Hprice.
  2:{ run_mock. rewrite Hprice. rewrite bool_decide_eq_false_2 by (intros [? ?]; done).
      reflexivity. }
  destruct side.
  - run_mock. rewrite Hprice. rewrite bool_decide_eq_true_2 by eauto.
    cbn [fst snd account_balance mock_orders order_id_counter mock_prices
         random_uniform draws].
    rewrite Hprice.
    cbn [fst snd account_balance mock_orders order_id_counter mock_prices
         random_uniform draws].
    destruct (Qlt_bool _ _); [reflexivity|].
    cbn [fst snd account_balance mock_orders order_id_counter mock_prices
         random_uniform draws].
    destruct (account_balance c !! "USDT"); reflexivity.
  - run_mock. rewrite Hprice. rewrite bool_decide_eq_true_2 by eauto.
    cbn [fst snd account_balance mock_orders order_id_counter mock_prices
         random_uniform draws].
    rewrite Hprice.
    cbn [fst snd account_balance mock_orders order_id_counter mock_prices
         random_uniform draws].
    destruct (Qlt_bool _ _); [reflexivity|].
    cbn [fst snd account_balance mock_orders order_id_counter mock_prices
         random_uniform draws].
    destruct (account_balance c !! PyStr.replace symbol "USDT" ""); reflexivity.
Qed.


Lemma Q_sub_nonneg (x y : Q) : (y <= x)%Q → (0 <= x - y)%Q.
Proof. intros Hle. unfold Qminus. by apply -> Qle_minus_iff. Qed.

Lemma Q_add_nonneg (x y : Q) : (0 <= x)%Q → (0 <= y)%Q → (0 <= x + y)%Q.
Proof. intros Hx Hy. exact (Qplus_le_compat 0 x 0 y Hx Hy). Qed.

End MockExchange.

(** X18.  A market order on the mock is all or nothing.  A refused order
    raises [BinanceAPIError] and leaves every balance and the order book as
    they were; a filled one is recorded in the book under the id it
    returns, as filled for the whole quantity, and no other entry of the
    book changes. *)
Theorem mock_market_order_is_all_or_nothing
    (symbol : string) (side : Side) (quantity : Q) (c : MockBinanceClient) :
  match mock_create_order symbol side MARKET quantity None c with
  | (Ok order, c') =>
      o_orderId order = order_id_counter c ∧
      order_id_counter c' = (order_id_counter c + 1)%Z ∧
      o_status order = "FILLED" ∧
      o_executedQty order = quantity ∧
      o_side order = side ∧
      mock_orders c' !! o_orderId order = Some order ∧
      ∀ id, id ≠ o_orderId order → mock_orders c' !! id = mock_orders c !! id
  | (Raise e, c') =>
      e = BinanceAPIError ∧
      account_balance c' = account_balance c ∧
      mock_orders c' = mock_orders c
  end.
Proof.
  rewrite mock_market_order_paths.
  destruct (mock_prices c !! symbol) as [base_price|]; [|done].
  cbv zeta.
  assert (Hbook : ∀ (order : Order) id, id ≠ order_id_counter c →
            <[order_id_counter c := order]> (mock_orders c) !! id = mock_orders c !! id).
  { intros order id Hid. by rewrite lookup_insert_ne. }
  destruct side.
  - destruct (Qlt_bool _ _); [done|].
    destruct (account_balance c !! "USDT"); [|done].
    cbn [o_orderId o_status o_executedQty o_side order_id_counter mock_orders].
    rewrite lookup_insert_eq. repeat split; try done. apply Hbook.
  - destruct (Qlt_bool _ _); [done|].
    destruct (account_balance c !! PyStr.replace symbol "USDT" ""); [|done].
    cbn [o_orderId o_status o_executedQty o_side order_id_counter mock_orders].
    rewrite lookup_insert_eq. repeat split; try done. apply Hbook.
Qed.



(** X20.  The mock account is never overdrawn: with no negative balance
    before a market order for a non-negative quantity, quoted at a
    non-negative price, there is none after it, whether the order was
    filled or refused. *)
Theorem mock_account_is_never_overdrawn
    (symbol : string) (side : Side) (quantity : Q) (c : MockBinanceClient) :
  solvent c →
  (0 <= quantity)%Q →
  (∀ base_price, mock_prices c !! symbol = Some base_price →
                 (0 <= base_price * (1 + random_uniform c (draws c)))%Q) →
  solvent (mock_create_order symbol side MARKET quantity None c).2.
Proof.
  intros Hsolvent Hquantity Hquote. rewrite mock_market_order_paths.
  destruct (mock_prices c !! symbol) as [base_price|]; [|done].
  specialize (Hquote base_price eq_refl).
  cbv zeta.
  set (price := (base_price * (1 + random_uniform c (draws c)))%Q) in *.
  assert (Hcost : (0 <= quantity * price)%Q) by (by apply Qmult_le_0_compat).
  destruct side.
  - destruct (Qlt_bool _ _) eqn:Hlt; [done|].
    destruct (account_balance c !! "USDT") as [usdt|] eqn:Husdt; [|done].
    cbn [default] in Hlt. apply Qlt_bool_false_iff in Hlt.
    cbn [snd]. intros asset amount. cbn [account_balance].
    intros Hlook. apply lookup_insert_Some in Hlook as [[_ <-]|[_ Hlook]].
    + assert (0 <= default 0%Q
                (<["USDT" := (usdt - quantity * price)%Q]> (account_balance c)
                   !! PyStr.replace symbol "USDT" ""))%Q as Hheld.
      { destruct (_ !! PyStr.replace symbol "USDT" "") as [held|] eqn:Hheld;
          cbn [default]; [|done].
        apply lookup_insert_Some in Hheld as [[_ <-]|[_ Hheld]].
        - by apply Q_sub_nonneg.
        - by eapply Hsolvent. }
      by apply Q_add_nonneg.
    + apply lookup_insert_Some in Hlook as [[_ <-]|[_ Hlook]].
      * by apply Q_sub_nonneg.
      * by eapply Hsolvent.
  - destruct (Qlt_bool _ _) eqn:Hlt; [done|].
    destruct (account_balance c !! PyStr.replace symbol "USDT" "") as [held|] eqn:Hheld;
      [|done].
    cbn [default] in Hlt. apply Qlt_bool_false_iff in Hlt.
    cbn [snd]. intros asset amount. cbn [account_balance].
    intros Hlook. apply lookup_insert_Some in Hlook as [[_ <-]|[_ Hlook]].
    + assert (0 <= default 0%Q
                (<[PyStr.replace symbol "USDT" "" := (held - quantity)%Q]>
                   (account_balance c) !! "USDT"))%Q as Husdt.
      { destruct (_ !! "USDT") as [usdt|] eqn:Husdt; cbn [default]; [|done].
        apply lookup_insert_Some in Husdt as [[_ <-]|[_ Husdt]].
        - by apply Q_sub_nonneg.
        - by eapply Hsolvent. }
      by apply Q_add_nonneg.
    + apply lookup_insert_Some in Hlook as [[_ <-]|[_ Hlook]].
      * by apply Q_sub_nonneg.
      * by eapply Hsolvent.
Qed.

Lemma mock_init_solvent (rnd : nat → Q) : solvent (mock_init rnd).
Proof.
  intros asset amount Hlook. cbn [mock_init account_balance] in Hlook.
  repeat (apply lookup_insert_Some in Hlook as [[_ <-]|[_ Hlook]]; [done|]).
  by rewrite lookup_empty in Hlook.
Qed.

Lemma mock_account_is_never_overdrawn_witness :
  solvent (mock_create_order "BTCUSDT" BUY MARKET 0.01 None
             (mock_init (Samples.steady 0))).2.
Proof.
  apply (mock_account_is_never_overdrawn "BTCUSDT" BUY 0.01 (mock_init (Samples.steady 0))).
  - apply mock_init_solvent.
  - done.
  - intros base_price Hprice. vm_compute in Hprice. injection Hprice as <-.
    vm_compute. discriminate.
Defined.

(** ** The position file *)

Section PositionRecords.

Lemma insert_desc_perm {A} (key : A → Z) (x : A) (l : list A) :
  insert_desc key x l ≡ₚ x :: l.
Proof.
  induction l as [|y r IH]; cbn [insert_desc]; [done|].
  destruct (key x <? key y)%Z; [|done].
  rewrite IH. apply Permutation_swap.
Qed.

Lemma sorted_desc_perm {A} (key : A → Z) (l : list A) :
  sorted_desc key l ≡ₚ l.
Proof.
  induction l as [|x l IH]; [done|].
  cbn [sorted_desc foldr]. fold (sorted_desc key l).
  by rewrite insert_desc_perm, IH.
Qed.

Lemma insert_desc_descending {A} (key : A → Z) (x : A) (l : list A) :
  descending key l → descending key (insert_desc key x l).
Proof.
  induction l as [|y r IH]; cbn [insert_desc descending]; [done|].
  intros [Hy Hr].
  destruct (key x <? key y)%Z eqn:Hlt.
  - apply Z.ltb_lt in Hlt. cbn [descending]. split; [|by apply IH].
    rewrite insert_desc_perm. constructor; [lia|done].
  - apply Z.ltb_ge in Hlt. cbn [descending]. split; [|done].
    constructor; [done|].
    eapply Forall_impl; [exact Hy|]. cbn. intros; lia.
Qed.

Lemma sorted_desc_descending {A} (key : A → Z) (l : list A) :
  descending key (sorted_desc key l).
Proof.
  induction l as [|x l IH]; [done|].
  cbn [sorted_desc foldr]. by apply insert_desc_descending.
Qed.

Lemma descending_take {A} (key : A → Z) (n : nat) (l : list A) :
  descending key l → descending key (take n l).
Proof.
  revert n. induction l as [|x l IH]; intros [|n]; cbn [take descending]; try done.
  intros [Hx Hl]. split; [|by apply IH].
  apply Forall_forall. intros y Hy. eapply Forall_forall in Hx; [exact Hx|].
  eapply subseteq_take, Hy.
Qed.

Lemma find_unique_id (l : list Position) (p : Position) :
  NoDup (map pos_id l) → p ∈ l →
  List.find (λ q, bool_decide (pos_id q = pos_id p)) l = Some p.
Proof.
  intros Hnd Hin.
  destruct (List.find _ l) as [q|] eqn:Hfind.
  - apply find_some in Hfind as [Hq Hid].
    apply list_elem_of_In in Hq. apply bool_decide_eq_true in Hid.
    f_equal. by apply (unique_id l).
  - apply list_elem_of_In in Hin.
    pose proof (find_none _ _ Hfind p Hin) as Hno. cbn in Hno.
    by rewrite bool_decide_eq_true_2 in Hno.
Qed.

Lemma update_first_other (id other : Z) (f : Position → Position) (l : list Position) :
  (∀ p, pos_id (f p) = pos_id p) → other ≠ id →
  List.find (λ q, bool_decide (pos_id q = other))
            (update_first (λ q, bool_decide (pos_id q = id)) f l)
  = List.find (λ q, bool_decide (pos_id q = other)) l.
Proof.
  intros Hf Hne. induction l as [|x l IH]; cbn [update_first List.find]; [done|].
  case_bool_decide as Hx; cbn [List.find].
  - rewrite Hf. rewrite !bool_decide_eq_false_2 by congruence. done.
  - by rewrite IH.
Qed.

Lemma find_snoc {A} (hit : A → bool) (l : list A) (x : A) :
  List.find hit (l ++ [x]) =
  match List.find hit l with
  | Some y => Some y
  | None => if hit x then Some x else None
  end.
Proof.
  induction l as [|y l IH]; cbn [app List.find]; [done|].
  destruct (hit y); [done|exact IH].
Qed.

End PositionRecords.

(** X21.  [get_all_positions] returns records of the file, the most
    recently opened first, and as many as the limit allows. *)
Theorem all_positions_come_newest_first (limit : nat) (ds : SimpleDataStore) :
  descending pos_opened_at (get_all_positions limit ds) ∧
  length (get_all_positions limit ds) = min limit (length (positions ds)) ∧
  ∃ rest, get_all_positions limit ds ++ rest ≡ₚ positions ds.
Proof.
  unfold get_all_positions. split; [|split].
  - apply descending_take, sorted_desc_descending.
  - by rewrite length_take, (Permutation_length (sorted_desc_perm _ _)).
  - exists (drop limit (sorted_desc pos_opened_at (positions ds))).
    rewrite take_drop. apply sorted_desc_perm.
Qed.

(** X22.  A monitor finds the record of its position whenever the file
    holds it, gives every record an id of its own and has at most the 1000
    records the monitor asks for; reading changes nothing. *)
Theorem monitor_finds_its_position
    {C : Type} `{!BinanceClient C}
    (w : World C) (m : PositionMonitor) (position : Position) :
  NoDup (map pos_id (positions (data_store w))) →
  length (positions (data_store w)) ≤ 1000 →
  position ∈ positions (data_store w) →
  pos_id position = mon_position_id m →
  _get_current_position (w, m) = (Ok (Some position), (w, m)).
Proof.
  intros Hnd Hlen Hin Hid. unfold _get_current_position.
  rewrite bind_run. unfold get_state at 1. cbn beta iota. cbn [fst snd mret M_ret].
  rewrite <- Hid. unfold get_all_positions.
  rewrite take_ge by (by rewrite (Permutation_length (sorted_desc_perm _ _))).
  rewrite (find_unique_id _ position); [done| |].
  - by rewrite (sorted_desc_perm pos_opened_at (positions (data_store w))).
  - by rewrite (sorted_desc_perm pos_opened_at (positions (data_store w))).
Qed.

Lemma monitor_finds_its_position_witness :
  _get_current_position (Samples.falling_world, Samples.btc_monitor)
  = (Ok (Some Samples.guarded_position), (Samples.falling_world, Samples.btc_monitor)).
Proof.
  apply (monitor_finds_its_position Samples.falling_world Samples.btc_monitor
           Samples.guarded_position).
  - vm_compute. apply NoDup_singleton.
  - vm_compute. lia.
  - vm_compute. apply list_elem_of_singleton. reflexivity.
  - reflexivity.
Defined.

(** X23.  Saving a position appends one record under an id that no record
    of the file carries, so that ids that were distinct stay distinct; the
    new record is the one the id resolves to, it carries the data it was
    given and the time of the call, and every other id resolves as
    before. *)
Theorem saved_position_is_found_under_a_fresh_id
    (position_data : Position) (now : Time) (ds : SimpleDataStore) :
  let id := (save_position position_data now ds).1 in
  let ds' := (save_position position_data now ds).2 in
  (∀ p, p ∈ positions ds → (pos_id p < id)%Z) ∧
  (NoDup (map pos_id (positions ds)) → NoDup (map pos_id (positions ds'))) ∧
  orders ds' = orders ds ∧
  (∃ saved, positions ds' = positions ds ++ [saved] ∧
            position_by_id id ds' = Some saved ∧
            pos_id saved = id ∧
            pos_symbol saved = pos_symbol position_data ∧
            pos_quantity saved = pos_quantity position_data ∧
            pos_entry_price saved = pos_entry_price position_data ∧
            pos_stop_loss_price saved = pos_stop_loss_price position_data ∧
            pos_status saved = pos_status position_data ∧
            pos_opened_at saved = now) ∧
  ∀ other, other ≠ id → position_by_id other ds' = position_by_id other ds.
Proof.
  cbn [save_position fst snd set_positions positions orders].
  assert (Hfresh : ∀ p, p ∈ positions ds →
            (pos_id p < _generate_id (map pos_id (positions ds)))%Z).
  { intros p Hp. apply generate_id_fresh. apply list_elem_of_fmap. eauto. }
  split; [exact Hfresh|]. split; [|split; [done|split]].
  - intros Hnd. rewrite map_app. cbn [map pos_id]. apply NoDup_app.
    split; [done|]. split; [|apply NoDup_singleton].
    intros i Hi Hi'. apply list_elem_of_singleton in Hi' as ->.
    apply list_elem_of_fmap in Hi as (p & Hid & Hp). apply Hfresh in Hp. lia.
  - eexists. split; [reflexivity|]. split; [|done].
    unfold position_by_id. cbn [positions set_positions].
    rewrite find_snoc.
    destruct (List.find _ (positions ds)) as [q|] eqn:Hfind.
    + apply find_some in Hfind as [Hq Hid].
      apply list_elem_of_In, Hfresh in Hq. apply bool_decide_eq_true in Hid. lia.
    + cbn [List.find pos_id]. by rewrite bool_decide_eq_true_2.
  - intros other Hother. unfold position_by_id. cbn [positions set_positions].
    rewrite find_snoc.
    destruct (List.find _ (positions ds)) as [q|]; [done|].
    cbn [List.find pos_id]. by rewrite bool_decide_eq_false_2.
Qed.

(** X24.  [update_position] rewrites the record its id resolves to and no
    other: afterwards the id resolves to the updated record, every other id
    resolves as before, and on an id the file does not hold the call changes
    nothing at all and raises nothing. *)
Theorem update_position_rewrites_one_record
    (position_id : Z) (updates : PositionUpdates) (now : Time) (ds : SimpleDataStore) :
  position_by_id position_id (update_position position_id updates now ds)
    = apply_updates updates now <$> position_by_id position_id ds ∧
  (∀ other, other ≠ position_id →
     position_by_id other (update_position position_id updates now ds)
       = position_by_id other ds) ∧
  map pos_id (positions (update_position position_id updates now ds))
    = map pos_id (positions ds) ∧
  orders (update_position position_id updates now ds) = orders ds ∧
  (position_by_id position_id ds = None →
     update_position position_id updates now ds = ds).
Proof.
  split; [apply position_by_id_update|]. split; [|split; [|split]].
  - intros other Hother. unfold position_by_id, update_position.
    cbn [positions set_positions]. by apply update_first_other.
  - apply update_by_id_ids.
  - done.
  - unfold position_by_id, update_position, set_positions. destruct ds as [ps os].
    cbn [positions orders]. intros Hnone. f_equal.
    induction ps as [|x ps IH]; cbn [update_first]; [done|].
    cbn [List.find] in Hnone. destruct (bool_decide _); [done|].
    by rewrite IH.
Qed.

(** ** Coin names and trading pairs *)

Section Pairs.

Lemma upper_ascii_idemp (c : ascii) :
  PyStr.upper_ascii (PyStr.upper_ascii c) = PyStr.upper_ascii c.
Proof. destruct c as [[] [] [] [] [] [] [] []]; reflexivity. Qed.

Lemma upper_idemp (s : string) : PyStr.upper (PyStr.upper s) = PyStr.upper s.
Proof.
  induction s as [|c s IH]; cbn [PyStr.upper]; [done|].
  by rewrite upper_ascii_idemp, IH.
Qed.

Lemma upper_app (s t : string) :
  PyStr.upper (s +:+ t) = PyStr.upper s +:+ PyStr.upper t.
Proof.
  induction s as [|c s IH]; [done|].
  change (String (PyStr.upper_ascii c) (PyStr.upper (s +:+ t))
          = String (PyStr.upper_ascii c) (PyStr.upper s +:+ PyStr.upper t)).
  by rewrite IH.
Qed.

Lemma length_app_string (s t : string) :
  String.length (s +:+ t) = String.length s + String.length t.
Proof.
  induction s as [|c s IH]; [done|].
  change (S (String.length (s +:+ t)) = S (String.length s + String.length t)).
  by rewrite IH.
Qed.

Lemma substring_all (s : string) : String.substring 0 (String.length s) s = s.
Proof.
  induction s as [|c s IH]; [done|].
  change (String c (String.substring 0 (String.length s) s) = String c s).
  by rewrite IH.
Qed.

Lemma substring_suffix (s suf : string) :
  String.substring (String.length s) (String.length suf) (s +:+ suf) = suf.
Proof.
  induction s as [|c s IH].
  - apply substring_all.
  - exact IH.
Qed.

Lemma endswith_app (s suf : string) : PyStr.endswith (s +:+ suf) suf = true.
Proof.
  unfold PyStr.endswith. rewrite length_app_string.
  replace (String.length s + String.length suf - String.length suf)
    with (String.length s) by lia.
  rewrite substring_suffix, String.eqb_refl, andb_true_r.
  apply Nat.leb_le. lia.
Qed.

End Pairs.

(** X25.  [get_trade_symbol] always gives an upper-case pair that ends in
    USDT; it reads its argument without regard to case and leaves a pair
    it is given as it is, so applying it twice is applying it once.
    [is_coin_supported] reads the coin without regard to case as well. *)
Theorem trade_symbol_is_a_usdt_pair (config : TradingConfig) (coin : string) :
  PyStr.endswith (get_trade_symbol coin) "USDT" = true ∧
  PyStr.upper (get_trade_symbol coin) = get_trade_symbol coin ∧
  get_trade_symbol (PyStr.upper coin) = get_trade_symbol coin ∧
  get_trade_symbol (get_trade_symbol coin) = get_trade_symbol coin ∧
  is_coin_supported config (PyStr.upper coin) = is_coin_supported config coin.
Proof.
  assert (Hends : PyStr.endswith (get_trade_symbol coin) "USDT" = true).
  { unfold get_trade_symbol.
    destruct (PyStr.endswith (PyStr.upper coin) "USDT") eqn:Hends; [done|].
    apply endswith_app. }
  assert (Hupper : PyStr.upper (get_trade_symbol coin) = get_trade_symbol coin).
  { unfold get_trade_symbol.
    destruct (PyStr.endswith (PyStr.upper coin) "USDT"); [apply upper_idemp|].
    by rewrite upper_app, upper_idemp. }
  split; [done|]. split; [done|]. split; [|split].
  - unfold get_trade_symbol. by rewrite upper_idemp.
  - unfold get_trade_symbol at 1. rewrite Hupper, Hends. done.
  - unfold is_coin_supported. by rewrite upper_idemp.
Qed.

(** ** The trading engine *)

Section EngineRuns.
Context {C : Type} `{!BinanceClient C} `{!JsonDecoder} (config : TradingConfig).

(** Signal generation writes to the log only. *)
Lemma analyze_writes_the_log_only nd (w : World C) :
  ∃ signals w',
    analyze_news_for_trading config nd w = (Ok signals, w') ∧
    data_store w' = data_store w ∧ binance_api w' = binance_api w ∧
    risk_manager w' = risk_manager w ∧ now w' = now w ∧
    (Qlt_bool (default 0%Q (nd_confidence nd)) min_confidence = true → signals = []).
Proof.
  unfold analyze_news_for_trading, analyze_frame, analyze_try.
  unfold try_except, mbind, M_bind.
  destruct (parse_mentioned_coins (nd_mentioned_coins nd)) as [v|e]; cbn.
  2:{ eexists [], _. split; [reflexivity|]. done. }
  destruct (Qlt_bool (default 0%Q (nd_confidence nd)) min_confidence) eqn:Hconf; cbn.
  { eexists [], _. split; [reflexivity|]. done. }
  destruct (py_iter v) as [coins|e]; cbn.
  2:{ eexists [], _. split; [reflexivity|]. done. }
  destruct (signal_loop_spec config nd (default "neutral" (nd_sentiment nd))
              (default 0%Q (nd_sentiment_score nd)) (default 0%Q (nd_confidence nd))
              coins w []) as (r & new & Hloop & _).
  rewrite Hloop. cbn [app] in *.
  destruct r as [[]|e]; cbn; (eexists new, _; split; [reflexivity|]; done).
Qed.

Lemma marked_for_update nd id t (news : list NewsItem) :
  nd_id nd = Some id →
  Forall2 (marked_for nd) news
    (update_first (λ item, bool_decide (news_id item = id))
                  (λ item, {| news_id := news_id item; news_triggered_trade := true;
                              news_updated_at := t |}) news).
Proof.
  intros Hid. induction news as [|item news IH]; cbn [update_first]; [constructor|].
  case_bool_decide as Hitem.
  - constructor.
    + right. cbn. by rewrite Hitem.
    + apply Forall2_same_length_lookup. split; [done|].
      intros i x y Hx Hy. left. congruence.
  - constructor; [by left|done].
Qed.

Lemma marked_for_refl nd (news : list NewsItem) : Forall2 (marked_for nd) news news.
Proof.
  apply Forall2_same_length_lookup. split; [done|].
  intros i x y Hx Hy. left. congruence.
Qed.

Lemma marked_for_trans nd (a b c : list NewsItem) :
  Forall2 (marked_for nd) a b → Forall2 (marked_for nd) b c →
  Forall2 (marked_for nd) a c.
Proof.
  intros Hab. revert c. induction Hab as [|x y a b Hxy Hab IH]; intros c Hbc.
  - by apply Forall2_nil_inv_l in Hbc as ->.
  - apply Forall2_cons_inv_l in Hbc as (z & c' & Hyz & Hbc & ->).
    constructor; [|by apply IH].
    destruct Hxy as [->|(Hid & Hxy & Hy)]; [done|].
    destruct Hyz as [->|(_ & Hyz & Hz)].
    + right. done.
    + right. split; [done|]. split; [congruence|done].
Qed.

(** The loop over the signals returns, whatever the executions do. *)
Lemma execute_signals_returns nd signals (w : World C) (news : list NewsItem) :
  ∃ w' news',
    Engine.execute_signals config nd signals (w, news) = (Ok tt, (w', news')) ∧
    Forall2 (marked_for nd) news news'.
Proof.
  revert w news. induction signals as [|signal rest IH]; intros w news.
  - exists w, news. split; [done|]. apply marked_for_refl.
  - cbn [Engine.execute_signals]. rewrite bind_run.
    assert (Hone : ∃ w1 news1,
      try_except
        (result ← Engine.in_world (execute_signal config signal);
         match result with
         | Some _ =>
             match nd_id nd with
             | Some id => Engine.update_news_item id
             | None => raise TypeError
             end;;
             Engine.in_world (logger INFO "Trade executed based on news sentiment")
         | None => mret tt
         end)
        (λ _, Engine.in_world (logger ERROR "Error executing trading signal"))
        (w, news) = (Ok tt, (w1, news1)) ∧
      Forall2 (marked_for nd) news news1).
    { unfold try_except. rewrite bind_run.
      unfold Engine.in_world at 1, zoom at 1. cbn [fst snd].
      destruct (execute_signal config signal w) as [[[ex|]|e] w1]; cbn [fst snd].
      - destruct (nd_id nd) as [id|] eqn:Hid.
        + cbv [mbind M_bind Engine.update_news_item modify Engine.in_world zoom logger].
          cbn [fst snd]. eexists _, _. split; [reflexivity|].
          by apply marked_for_update.
        + cbv [mbind M_bind raise Engine.in_world zoom logger modify].
          cbn [fst snd]. eexists _, _. split; [reflexivity|]. apply marked_for_refl.
      - eexists _, _. split; [reflexivity|]. apply marked_for_refl.
      - cbv [Engine.in_world zoom logger modify]. cbn [fst snd].
        eexists _, _. split; [reflexivity|]. apply marked_for_refl. }
    destruct Hone as (w1 & news1 & -> & Hmark1).
    destruct (IH w1 news1) as (w' & news' & -> & Hmark).
    exists w', news'. split; [done|]. by eapply marked_for_trans.
Qed.

End EngineRuns.

(** X26.  Processing a news event for trading never raises, whatever the
    event holds and whatever the exchange answers: the errors of signal
    generation and of every execution are logged and swallowed.  In the
    news file it changes at most the record of the event itself, which it
    marks as having triggered a trade. *)
Theorem news_processing_never_raises
    {C : Type} `{!BinanceClient C} `{!JsonDecoder} (config : TradingConfig)
    (news_data : NewsData) (title : option Title)
    (w : World C) (news : list NewsItem) :
  ∃ w' news',
    Engine.process_news_for_trading config news_data title (w, news)
      = (Ok tt, (w', news')) ∧
    Forall2 (marked_for news_data) news news'.
Proof.
  unfold Engine.process_news_for_trading, try_except. rewrite bind_run.
  unfold Engine.in_world at 1, zoom at 1. cbn [fst snd].
  destruct (analyze_writes_the_log_only config news_data w)
    as (signals & w1 & -> & _). cbn [fst snd].
  destruct signals as [|signal rest].
  - destruct title as [[]|];
      cbv [Engine.in_world zoom logger modify raise]; cbn [fst snd];
      (eexists _, _; split; [reflexivity|]; apply marked_for_refl).
  - destruct (execute_signals_returns config news_data (signal :: rest) w1 news)
      as (w' & news' & -> & Hmark).
    by exists w', news'.
Qed.

(** X27.  An event whose confidence is below the threshold of 0.6, or is
    missing, trades nothing: the position and order files, the exchange
    client, the counters of the risk manager and the news file are as they
    were. *)
Theorem weak_news_moves_nothing
    {C : Type} `{!BinanceClient C} `{!JsonDecoder} (config : TradingConfig)
    (news_data : NewsData) (title : option Title)
    (w : World C) (news : list NewsItem) :
  (default 0%Q (nd_confidence news_data) < min_confidence)%Q →
  ∃ w',
    Engine.process_news_for_trading config news_data title (w, news)
      = (Ok tt, (w', news)) ∧
    data_store w' = data_store w ∧
    binance_api w' = binance_api w ∧
    risk_manager w' = risk_manager w.
Proof.
  intros Hweak. apply Qlt_bool_iff in Hweak.
  unfold Engine.process_news_for_trading, try_except. rewrite bind_run.
  unfold Engine.in_world at 1, zoom at 1. cbn [fst snd].
  destruct (analyze_writes_the_log_only config news_data w)
    as (signals & w1 & -> & Hds & Hapi & Hrm & _ & Hnone). cbn [fst snd].
  rewrite (Hnone Hweak).
  destruct title as [[]|];
    cbv [Engine.in_world zoom logger modify raise]; cbn [fst snd];
    (eexists; split; [reflexivity|]; done).
Qed.

Lemma weak_news_moves_nothing_witness :
  ∃ w',
    Engine.process_news_for_trading default_config
      (Samples.news "positive" 0.8 0.5 (Samples.tickers ["BTC"])) (Some Sliceable)
      (Samples.empty_world, [])
      = (Ok tt, (w', [])) ∧
    data_store w' = data_store Samples.empty_world ∧
    binance_api w' = binance_api Samples.empty_world ∧
    risk_manager w' = risk_manager Samples.empty_world.
Proof.
  apply (weak_news_moves_nothing default_config
           (Samples.news "positive" 0.8 0.5 (Samples.tickers ["BTC"])) (Some Sliceable)
           Samples.empty_world []).
  vm_compute. reflexivity.
Defined.

(** ** The history the files keep *)

Section History.
Context {C : Type} `{!BinanceClient C} (config : TradingConfig).

Lemma same_terms_refl p : same_terms p p.
Proof. by repeat split. Qed.

Lemma same_terms_trans p q r : same_terms p q → same_terms q r → same_terms p r.
Proof. unfold same_terms. intros. intuition congruence. Qed.

Lemma terms_after_update id u t l i p :
  l !! i = Some p →
  ∃ p', update_first (λ q, bool_decide (pos_id q = id)) (apply_updates u t) l !! i = Some p' ∧
        same_terms p p'.
Proof.
  intros Hp. destruct (update_by_id_lookup id u t l i p Hp) as (p' & Hp' & _ & [->|[_ ->]]).
  - exists p. split; [done|]. apply same_terms_refl.
  - eexists. split; [done|]. by repeat split.
Qed.

Lemma terms_after_op op (w : World C) i p :
  positions (data_store w) !! i = Some p →
  ∃ p', positions (data_store (run_op config op w)) !! i = Some p' ∧ same_terms p p'.
Proof.
  intros Hp.
  assert (Hsame : ∀ l', l' = positions (data_store w) → ∃ p', l' !! i = Some p' ∧ same_terms p p').
  { intros l' ->. exists p. split; [done|]. apply same_terms_refl. }
  destruct op as [signal | signal | m price | m | manager id price]; cbn [run_op].
  - destruct (execute_buy_positions config signal w) as [Hpos | (q & Hpos & _)].
    + by apply Hsame.
    + rewrite Hpos. exists p. split; [|apply same_terms_refl].
      by apply lookup_app_l_Some.
  - destruct (_execute_sell signal w) as [r w'] eqn:Hrun; cbn [snd].
    apply execute_sell_positions in Hrun as [Hpos | (? & u & _ & _ & _ & Hpos)].
    + by apply Hsame.
    + rewrite Hpos. by apply terms_after_update.
  - destruct (_execute_stop_loss price (w, m)) as [r [w' m']] eqn:Hrun; cbn [fst snd].
    apply execute_stop_loss_positions in Hrun as (_ & _ & [Hpos | (u & _ & Hpos)]).
    + by apply Hsame.
    + rewrite Hpos. by apply terms_after_update.
  - destruct (monitor_iteration (w, m)) as [r [w' m']] eqn:Hrun; cbn [fst snd].
    apply monitor_iteration_positions in Hrun
      as [Hpos | (? & u1 & _ & _ & _ & _ & [Hpos | (u2 & _ & Hpos)])].
    + by apply Hsame.
    + rewrite Hpos. by apply terms_after_update.
    + rewrite Hpos.
      destruct (terms_after_update (mon_position_id m) u1 (now w) _ i p Hp)
        as (p1 & Hp1 & Hs1).
      destruct (terms_after_update (mon_position_id m) u2 (now w) _ i p1 Hp1)
        as (p2 & Hp2 & Hs2).
      exists p2. split; [done|]. by eapply same_terms_trans.
  - destruct (update_stop_loss id price (w, manager)) as [r [w' manager']] eqn:Hrun;
      cbn [fst snd].
    apply update_stop_loss_positions in Hrun as [Hpos | (u & _ & Hpos)].
    + by apply Hsame.
    + rewrite Hpos. by apply terms_after_update.
Qed.

End History.

(** X28.  The position file is a history: no sequence of operations of the
    core deletes or moves a record, and none changes the terms on which a
    position was opened (its id, symbol, quantity, entry price, stop-loss
    percentage, entry order, news item and opening time). *)
Theorem position_terms_never_change
    {C : Type} `{!BinanceClient C} (config : TradingConfig)
    (ops : list CoreOp) (w : World C) (i : nat) (p : Position) :
  positions (data_store w) !! i = Some p →
  ∃ p', positions (data_store (run_ops config ops w)) !! i = Some p' ∧
        same_terms p p'.
Proof.
  revert w p. induction ops as [|op ops IH]; intros w p Hp.
  - exists p. split; [done|]. apply same_terms_refl.
  - cbn [run_ops foldl].
    destruct (terms_after_op config op w i p Hp) as (p1 & Hp1 & Hs1).
    destruct (IH _ p1 Hp1) as (p' & Hp' & Hs').
    exists p'. split; [exact Hp'|]. by eapply same_terms_trans.
Qed.

Lemma position_terms_never_change_witness :
  ∃ p', positions (data_store
          (run_ops default_config
             [MonitorIteration Samples.btc_monitor;
              SellExecution (Samples.sell_signal "BTCUSDT")]
             Samples.falling_world)) !! 0%nat = Some p' ∧
        same_terms Samples.guarded_position p'.
Proof.
  apply (position_terms_never_change default_config
           [MonitorIteration Samples.btc_monitor;
            SellExecution (Samples.sell_signal "BTCUSDT")]
           Samples.falling_world 0 Samples.guarded_position).
  reflexivity.
Defined.

Section OrderFile.
Context {C : Type} `{!BinanceClient C} (config : TradingConfig).

Ltac run_monad :=
  cbv [mbind M_bind mret M_ret store store_ modify logger raise get_state
       world zoom self in_world set_monitors sleep set_self];
  cbn [data_store now binance_api risk_manager log set_data_store set_binance_api
       set_risk_manager set_log set_now set_orders set_positions orders positions
       fst snd].

Abbreviation booked_by w w' :=
  (∃ booked, orders (data_store w') = orders (data_store w) ++ booked ∧
             length booked ≤ 1).

Lemma booked_none (os os' : list TradingOrder) :
  os' = os → ∃ booked, os' = os ++ booked ∧ length booked ≤ 1.
Proof. intros ->. exists []. rewrite app_nil_r. split; [done|cbn; lia]. Qed.

Lemma booked_one (os os' : list TradingOrder) o :
  os' = os ++ [o] → ∃ booked, os' = os ++ booked ∧ length booked ≤ 1.
Proof. intros ->. exists [o]. split; [done|cbn; lia]. Qed.

(** Linking the new order to its position rewrites the new order only. *)
Lemma link_new_order (os : list TradingOrder) (o : TradingOrder) pid t :
  ord_id o = _generate_id (map ord_id os) →
  update_first (λ x, bool_decide (ord_id x = ord_id o)) (set_order_position pid t)
               (os ++ [o])
  = os ++ [set_order_position pid t o].
Proof.
  intros Hid. apply update_first_app_miss; [|by apply bool_decide_eq_true].
  apply Forall_forall. intros y Hy. apply bool_decide_eq_false.
  assert (ord_id y < _generate_id (map ord_id os))%Z.
  { apply generate_id_fresh, list_elem_of_fmap. eauto. }
  lia.
Qed.

Lemma execute_buy_orders signal (w : World C) :
  booked_by w (_execute_buy config signal w).2.
Proof.
  unfold _execute_buy, try_except. rewrite bind_run.
  destruct (check_trade_limits _ _ w) as [[allowed|e] w1] eqn:Hcheck;
    apply check_trade_limits_frame in Hcheck as [Hds1 _].
  2:{ apply booked_none. run_monad. by rewrite Hds1. }
  destruct allowed; cbn [negb].
  2:{ apply booked_none. run_monad. by rewrite Hds1. }
  rewrite bind_run.
  destruct (can_open_position _ w1) as [r w2] eqn:Hcan.
  apply can_open_position_inv in Hcan as (Hds2 & _ & _ & _ & ->).
  rewrite Hds1 in Hds2.
  destruct (negb (existsb _ _)); cbn [negb].
  2:{ apply booked_none. run_monad. by rewrite Hds2. }
  rewrite bind_run, api_run.
  destruct (calculate_buy_quantity _ _ _) as [[quantity|e] c1].
  2:{ apply booked_none. run_monad. by rewrite Hds2. }
  cbn [fst snd]. rewrite bind_run, api_run. cbn [binance_api set_binance_api].
  destruct (get_price _ c1) as [[quote|e] c2].
  2:{ apply booked_none. run_monad. by rewrite Hds2. }
  cbn [fst snd]. rewrite bind_run, api_run. cbn [binance_api set_binance_api].
  destruct (create_market_buy_order _ _ c2) as [[order|e] c3].
  2:{ apply booked_none. run_monad. by rewrite Hds2. }
  cbn [fst snd].
  cbv [mbind M_bind mret M_ret store store_ modify record_trade logger
       save_trading_order save_position update_trading_order].
  cbn [data_store now binance_api risk_manager log set_data_store set_binance_api
       set_risk_manager set_log set_orders set_positions orders positions fst snd].
  rewrite Hds2.
  match goal with
  | |- context [update_first _ (set_order_position ?pid ?t) (?os ++ [?o])] =>
      pose proof (link_new_order os o pid t eq_refl) as Hlink
  end.
  cbn [ord_id] in Hlink. eapply booked_one. exact Hlink.
Qed.

Lemma execute_sell_orders signal (w : World C) :
  booked_by w (_execute_sell signal w).2.
Proof.
  unfold _execute_sell, try_except. rewrite bind_run. unfold get_state at 1.
  cbn beta iota.
  destruct (List.find _ _) as [position|].
  2:{ apply booked_none. by run_monad. }
  rewrite bind_run, api_run.
  destruct (get_price _ _) as [[quote|e] c1].
  2:{ apply booked_none. by run_monad. }
  cbn [fst snd]. rewrite bind_run, api_run. cbn [binance_api set_binance_api].
  destruct (create_market_sell_order _ _ c1) as [[order|e] c2].
  2:{ apply booked_none. by run_monad. }
  cbn [fst snd].
  cbv [mbind M_bind mret M_ret store store_ modify record_trade logger
       save_trading_order update_position].
  cbn [data_store now binance_api risk_manager log set_data_store set_binance_api
       set_risk_manager set_log set_orders set_positions orders positions fst snd].
  eapply booked_one. reflexivity.
Qed.

Lemma execute_stop_loss_orders current_price (w : World C) m :
  booked_by w (_execute_stop_loss current_price (w, m)).2.1.
Proof.
  unfold _execute_stop_loss, try_except.
  cbv [mbind M_bind mret M_ret world zoom logger modify self get_state].
  cbn [fst snd]. rewrite api_run. cbn [binance_api set_log].
  destruct (create_market_sell_order _ _ _) as [[order|e] c1]; cbn [fst snd].
  2:{ apply booked_none. by run_monad. }
  cbv [mbind M_bind mret M_ret store store_ modify logger
       save_trading_order update_position].
  cbn [data_store now binance_api risk_manager log set_data_store set_binance_api
       set_risk_manager set_log set_orders set_positions orders positions fst snd].
  eapply booked_one. reflexivity.
Qed.

Lemma monitor_iteration_orders (w : World C) m :
  booked_by w (monitor_iteration (w, m)).2.1.
Proof.
  unfold monitor_iteration, try_except.
  rewrite bind_run. unfold _get_current_position at 1.
  rewrite bind_run. unfold get_state at 1. cbn beta iota. cbn [fst snd mret M_ret].
  destruct (List.find _ _) as [position|].
  2:{ apply booked_none. by run_monad. }
  case_bool_decide as Hopen.
  { apply booked_none. by run_monad. }
  rewrite bind_run. unfold self at 1. rewrite bind_run. unfold get_state at 1.
  cbn beta iota. cbn [fst snd mret M_ret].
  rewrite bind_run. unfold world at 1, zoom at 1. cbn [fst snd]. rewrite api_run.
  destruct (get_price _ _) as [[price|e] c1]; cbn [fst snd].
  2:{ apply booked_none. by run_monad. }
  rewrite bind_run.
  unfold world at 1, zoom at 1, store_ at 1, modify at 1. cbn beta iota. cbn [fst snd].
  destruct (Qle_bool price (mon_stop_loss_price m)).
  - rewrite bind_run.
    unfold world at 1, zoom at 1, logger at 1, modify at 1. cbn beta iota. cbn [fst snd].
    rewrite bind_run.
    match goal with
    | |- context [_execute_stop_loss price (?w1, m)] =>
        pose proof (execute_stop_loss_orders price w1 m) as Hstop;
        destruct (_execute_stop_loss price (w1, m)) as [rs [ws ms]]
    end.
    cbn [fst snd data_store set_log set_data_store set_binance_api update_position
         set_positions orders] in Hstop.
    destruct rs as [[]|e]; run_monad; exact Hstop.
  - run_monad.
    destruct (60 <=? now w - mon_last_price_update m)%Z; cbn [fst snd];
      apply booked_none; done.
Qed.

Lemma update_stop_loss_orders position_id new_price (w : World C) manager :
  booked_by w (update_stop_loss position_id new_price (w, manager)).2.1.
Proof.
  unfold update_stop_loss, try_except.
  rewrite bind_run. unfold get_state at 1. cbn beta iota. cbn [snd].
  destruct (monitors manager !! position_id) as [monitor|];
    run_monad; apply booked_none; done.
Qed.

Lemma run_op_orders op (w : World C) : booked_by w (run_op config op w).
Proof.
  destruct op; cbn [run_op].
  - apply execute_buy_orders.
  - apply execute_sell_orders.
  - apply execute_stop_loss_orders.
  - apply monitor_iteration_orders.
  - apply update_stop_loss_orders.
Qed.

End OrderFile.

(** X29.  The order file is append-only: no sequence of operations of the
    core deletes or rewrites an order that is on file, and each operation
    books at most one. *)
Theorem order_file_is_append_only
    {C : Type} `{!BinanceClient C} (config : TradingConfig)
    (ops : list CoreOp) (w : World C) :
  ∃ booked,
    orders (data_store (run_ops config ops w)) = orders (data_store w) ++ booked ∧
    length booked ≤ length ops.
Proof.
  revert w. induction ops as [|op ops IH]; intros w.
  - exists []. rewrite app_nil_r. split; [done|cbn; lia].
  - cbn [run_ops foldl length].
    destruct (run_op_orders config op w) as (b1 & Hb1 & Hl1).
    destruct (IH (run_op config op w)) as (b2 & Hb2 & Hl2).
    exists (b1 ++ b2). unfold run_ops in Hb2. rewrite Hb2, Hb1, app_assoc.
    split; [done|]. rewrite length_app. lia.
Qed.

(** ** The keyword score *)

Section KeywordScore.

Lemma keyword_score_fraction (p n : Z) (t : positive) :
  (0 ≤ p)%Z → (0 ≤ n)%Z → (p + n = Z.pos t)%Z →
  let score := (inject_Z p / inject_Z (Z.pos t) - inject_Z n / inject_Z (Z.pos t))%Q in
  (-1 <= score)%Q ∧ (score <= 1)%Q ∧
  ((0.2 < score)%Q ↔ (3 * n < 2 * p)%Z) ∧
  ((score < -0.2)%Q ↔ (3 * p < 2 * n)%Z).
Proof.
  intros Hp Hn Ht. cbv zeta.
  unfold Qle, Qlt, Qminus, Qplus, Qopp, Qdiv, Qmult, Qinv, inject_Z.
  cbn [Qnum Qden]. rewrite ?Pos2Z.inj_mul.
  pose proof (Pos2Z.is_pos t).
  repeat split; intros; nia.
Qed.

Lemma keyword_confidence_range (total : Z) (words : positive) :
  (0 ≤ total)%Z →
  let confidence :=
    Sentiment.py_min 0.9
      (0.3 + inject_Z total * 0.1
       + inject_Z total / inject_Z (Z.pos words) * 0.4)%Q in
  (0.1 <= confidence)%Q ∧ (confidence <= 0.9)%Q.
Proof.
  intros Htotal. cbv zeta. unfold Sentiment.py_min.
  destruct (Qlt_bool _ _) eqn:Hlt.
  - apply Qlt_bool_iff in Hlt. split; [|by apply Qlt_le_weak].
    clear Hlt.
    unfold Qle, Qlt, Qminus, Qplus, Qopp, Qdiv, Qmult, Qinv, inject_Z.
    cbn [Qnum Qden]. rewrite ?Pos2Z.inj_mul.
    pose proof (Pos2Z.is_pos words). nia.
  - split; [|apply Qle_refl]. by vm_compute.
Qed.

End KeywordScore.

(** X30.  The keyword score is always in range: the score lies between -1
    and 1 and the confidence between 0.1 and 0.9, whatever the text and the
    matches.  The label follows from the two counts alone: an event is
    positive exactly when it has more than one and a half times as many
    positive as negative matches, negative in the mirrored case, and
    neutral otherwise. *)
Theorem keyword_score_is_in_range
    (positive_matches negative_matches : list string) (text : string) :
  let '(sentiment, score, confidence) :=
    Sentiment._calculate_sentiment positive_matches negative_matches text in
  (-1 <= score)%Q ∧ (score <= 1)%Q ∧
  (0.1 <= confidence)%Q ∧ (confidence <= 0.9)%Q ∧
  (sentiment = "positive" ↔
     3 * length negative_matches < 2 * length positive_matches) ∧
  (sentiment = "negative" ↔
     3 * length positive_matches < 2 * length negative_matches) ∧
  (sentiment = "positive" ∨ sentiment = "negative" ∨ sentiment = "neutral").
Proof.
  unfold Sentiment._calculate_sentiment.
  set (p := Z.of_nat (length positive_matches)).
  set (n := Z.of_nat (length negative_matches)).
  assert (Hp : (0 ≤ p)%Z) by lia. assert (Hn : (0 ≤ n)%Z) by lia.
  destruct ((p =? 0)%Z && (n =? 0)%Z) eqn:Hnone.
  { apply andb_true_iff in Hnone as [Hp0 Hn0].
    apply Z.eqb_eq in Hp0, Hn0.
    split; [by vm_compute|]. split; [by vm_compute|].
    split; [by vm_compute|]. split; [by vm_compute|].
    split; [|split; [|by right; right]]; (split; [done|lia]). }
  assert (Htotal : (0 < p + n)%Z).
  { apply andb_false_iff in Hnone as [H0|H0]; apply Z.eqb_neq in H0; lia. }
  cbv zeta.
  destruct (p + n)%Z as [|t|t] eqn:Ht; [lia| |lia].
  cbn [Z.ltb Z.compare].
  destruct (keyword_score_fraction p n t Hp Hn Ht) as (Hlow & Hhigh & Hpos & Hneg).
  cbv zeta in Hlow, Hhigh, Hpos, Hneg.
  assert (Hwords : ∃ words,
            Z.max (Z.of_nat (Sentiment.count_words false text)) 1 = Z.pos words).
  { destruct (Z.max _ 1) as [|words|words] eqn:Hmax; [lia|by exists words|lia]. }
  destruct Hwords as [words ->].
  destruct (keyword_confidence_range (Z.pos t) words) as [Hc1 Hc2]; [lia|].
  cbv zeta in Hc1, Hc2.
  split; [exact Hlow|]. split; [exact Hhigh|].
  split; [exact Hc1|]. split; [exact Hc2|].
  clear Hlow Hhigh Hc1 Hc2 Hnone. subst p n.
  destruct (Qlt_bool 0.2 _) eqn:Hlt.
  - apply Qlt_bool_iff, Hpos in Hlt.
    split; [|split; [|by left]]; (split; [done || lia|done || lia]).
  - assert (¬ (3 * Z.of_nat (length negative_matches)
                 < 2 * Z.of_nat (length positive_matches))%Z) as Hnot.
    { intros H. apply Hpos, Qlt_bool_iff in H. congruence. }
    destruct (Qlt_bool _ (-0.2)) eqn:Hlt'.
    + apply Qlt_bool_iff, Hneg in Hlt'.
      split; [|split; [|by right; left]]; (split; [done || lia|done || lia]).
    + assert (¬ (3 * Z.of_nat (length positive_matches)
                   < 2 * Z.of_nat (length negative_matches))%Z) as Hnot'.
      { intros H. apply Hneg, Qlt_bool_iff in H. congruence. }
      split; [|split; [|by right; right]]; (split; [done|lia]).
Qed.
